(** * matlabw: C++ handles over the MATLAB mx / mex C API

    A shallow embedding of the header-only wrapper library
    (include/matlabw/mx/Array.hpp, CharArrayRef.hpp, StructArrayRef.hpp, the
    CharArray and ObjectArray headers, and include/matlabw/mex/variable.hpp)
    and the properties of its wrappers.

    The native library is not part of the wrapper: it is an interface
    ([MxApi]) over an abstract runtime state, and every wrapper is a
    computation in a small state-and-exception monad that also records each
    native call it makes.  A concrete reference runtime ([Ref.Runtime])
    instantiates the interface so that the wrappers can be run. *)

From stdpp Require Import base option list gmap strings.
From Stdlib Require Import ZArith Lia.

Local Open Scope string_scope.
Local Open Scope list_scope.
Local Open Scope Z_scope.

(** ** Machine data *)

(** [mxArray*], [void*], [const mwSize*]: an address; 0 is [nullptr]. *)
Definition ptr := Z.
Definition nullptr : ptr := 0.

(** Address of a C++ [Array] object (the value of [this]). *)
Definition addr := positive.

(** [std::size_t] and [int] conversions. *)
Definition size_max : Z := 2 ^ 64.
Definition static_cast_size_t (x : Z) : Z := x mod size_max.
Definition static_cast_int (x : Z) : Z := (x + 2 ^ 31) mod 2 ^ 32 - 2 ^ 31.

(** [const char*]: [None] is the null pointer, [Some s] points at the
    null-terminated string [s]. *)
Definition c_str := option string.

(** [mx::Exception{message}] and [mx::Exception{id, message}]. *)
Record Exception := mkException {
  exc_id : option string;
  exc_message : string }.

Definition Exception1 (msg : string) : Exception := mkException None msg.
Definition Exception2 (id msg : string) : Exception := mkException (Some id) msg.

(** Result of a call: it returns or it throws. *)
Inductive Outcome (A : Type) : Type :=
| Returned (a : A)
| Thrown (e : Exception).
Arguments Returned {A} a.
Arguments Thrown {A} e.

Definition has_thrown {A} (o : Outcome A) : bool :=
  match o with Returned _ => false | Thrown _ => true end.

(** [View<T>{data, size}]: a pointer and an element count. *)
Record View := mkView { view_data : ptr; view_size : Z }.

(** Non-owning handles [ArrayRef] and [ArrayCref] (ArrayRef.hpp): the
    pointer they were built from, read back by [get()]. *)
Record ArrayRef := mkArrayRef { ref_get : ptr }.
Record ArrayCref := mkArrayCref { cref_get : ptr }.

(** [class Array]: its only data member. *)
Record Array := mkArray { mArray : ptr }.

(** ** The native interface *)

(** Unary native functions of a single [const mxArray*], as tags of the
    call log. *)
Inductive MxFun :=
| F_mxGetNumberOfDimensions | F_mxGetDimensions | F_mxGetM | F_mxGetN
| F_mxGetNumberOfElements | F_mxGetElementSize
| F_mxIsNumeric | F_mxIsComplex | F_mxIsEmpty | F_mxIsScalar
| F_mxIsDouble | F_mxIsSingle | F_mxIsInt8 | F_mxIsUint8 | F_mxIsInt16
| F_mxIsUint16 | F_mxIsInt32 | F_mxIsUint32 | F_mxIsInt64 | F_mxIsUint64
| F_mxIsSparse | F_mxIsChar | F_mxIsLogical | F_mxIsLogicalScalar
| F_mxIsLogicalScalarTrue | F_mxIsStruct | F_mxIsCell
| F_mxGetClassID | F_mxGetClassName | F_mxGetData | F_mxGetNumberOfFields.

(** One native call, with its arguments (and the pointer it returned, for
    the allocating functions). *)
Inductive Call :=
| Query (f : MxFun) (p : ptr)
| C_mxIsClass (p : ptr) (name : string)
| C_mxDuplicateArray (p : ptr) (result : ptr)
| C_mxDestroyArray (p : ptr)
| C_mxSetClassName (p : ptr) (name : string)
| C_mxGetString (p : ptr) (buflen : Z)
| C_mxCreateCharArray (dims : list Z) (result : ptr)
| C_mxGetFieldNumber (p : ptr) (name : c_str)
| C_mxGetFieldByNumber (p : ptr) (i : Z) (field : Z)
| C_mexPutVariable (workspace name : string) (p : ptr)
| C_mexGetVariable (workspace name : string) (result : ptr)
| C_mexGetVariablePtr (workspace name : string).

(** The native functions the wrappers call, over a runtime state [W].
    Functions that allocate, free or store take the state and give the next
    one.  The last three fields are the memory accesses the wrappers make
    through pointers the runtime handed out. *)
Class MxApi (W : Type) := {
  mxDuplicateArray : W → ptr → ptr * W;
  mxDestroyArray : W → ptr → W;
  mxGetNumberOfDimensions : W → ptr → Z;
  mxGetDimensions : W → ptr → ptr;
  mxGetM : W → ptr → Z;
  mxGetN : W → ptr → Z;
  mxGetNumberOfElements : W → ptr → Z;
  mxGetElementSize : W → ptr → Z;
  mxIsNumeric : W → ptr → bool;
  mxIsComplex : W → ptr → bool;
  mxIsEmpty : W → ptr → bool;
  mxIsScalar : W → ptr → bool;
  mxIsDouble : W → ptr → bool;
  mxIsSingle : W → ptr → bool;
  mxIsInt8 : W → ptr → bool;
  mxIsUint8 : W → ptr → bool;
  mxIsInt16 : W → ptr → bool;
  mxIsUint16 : W → ptr → bool;
  mxIsInt32 : W → ptr → bool;
  mxIsUint32 : W → ptr → bool;
  mxIsInt64 : W → ptr → bool;
  mxIsUint64 : W → ptr → bool;
  mxIsSparse : W → ptr → bool;
  mxIsChar : W → ptr → bool;
  mxIsLogical : W → ptr → bool;
  mxIsLogicalScalar : W → ptr → bool;
  mxIsLogicalScalarTrue : W → ptr → bool;
  mxIsClass : W → ptr → string → bool;
  mxIsStruct : W → ptr → bool;
  mxIsCell : W → ptr → bool;
  mxGetClassID : W → ptr → Z;
  mxGetClassName : W → ptr → c_str;
  mxGetData : W → ptr → ptr;
  mxSetClassName : W → ptr → string → Z * W;
  mxGetString : W → ptr → Z → Z * string;
  mxCreateCharArray : W → list Z → ptr * W;
  mxGetNumberOfFields : W → ptr → Z;
  mxGetFieldNumber : W → ptr → c_str → Z;
  mxGetFieldByNumber : W → ptr → Z → Z → ptr;
  mexPutVariable : W → string → string → ptr → Z * W;
  mexGetVariable : W → string → string → ptr * W;
  mexGetVariablePtr : W → string → string → ptr;
  (** [std::char_traits<char16_t>::length(data)] *)
  char16_length : W → ptr → Z;
  (** the [n] UTF-16 units at [data] *)
  load_char16 : W → ptr → Z → list Z;
  (** [std::copy(first, last, data)] *)
  store_char16 : W → ptr → list Z → W }.

(** ** Program state and the wrapper monad *)

Section Wrapper.
Context {W : Type} `{!MxApi W}.

(** The [Array] objects alive (by address), the runtime, and the native
    calls made so far, oldest first. *)
Record State := mkState {
  objects : gmap addr Array;
  world : W;
  calls : list Call }.

Definition M (A : Type) : Type := State → Outcome A * State.

Definition ret {A} (a : A) : M A := λ st, (Returned a, st).
Definition throw {A} (e : Exception) : M A := λ st, (Thrown e, st).
Definition bind {A B} (m : M A) (k : A → M B) : M B :=
  λ st, match m st with
        | (Returned a, st') => k a st'
        | (Thrown e, st') => (Thrown e, st')
        end.

Definition log (c : Call) (st : State) : State :=
  mkState (objects st) (world st) (calls st ++ [c]).

(** A native call that only reads the runtime. *)
Definition native {A} (c : Call) (f : W → A) : M A :=
  λ st, (Returned (f (world st)), log c st).

(** A native call that changes the runtime; [c] sees the result. *)
Definition native_upd {A} (c : A → Call) (f : W → A * W) : M A :=
  λ st, let '(a, w) := f (world st) in
        (Returned a, mkState (objects st) w (calls st ++ [c a])).

(** A write through a pointer into runtime memory. *)
Definition poke (f : W → W) : M unit :=
  λ st, (Returned tt, mkState (objects st) (f (world st)) (calls st)).

(** A read through a pointer into runtime memory. *)
Definition peek {A} (f : W → A) : M A :=
  λ st, (Returned (f (world st)), st).

End Wrapper.

Arguments State W : clear implicits.
Arguments M W A : clear implicits.

Notation "x <- c ;; k" := (bind c (λ x, k))
  (at level 100, c at next level, right associativity).
Notation "c ;; k" := (bind c (λ _, k))
  (at level 100, right associativity).

(** ** mx::Array (Array.hpp) *)

Module mx_Array.
Section Methods.
Context {W : Type} `{!MxApi W}.

(** The data member [mArray] of the object at [this]. *)
Definition field (st : State W) (this : addr) : ptr :=
  default nullptr (mArray <$> objects st !! this).

Definition set_mArray (this : addr) (p : ptr) : M W unit :=
  λ st, (Returned tt,
         mkState (<[this := mkArray p]> (objects st)) (world st) (calls st)).

(** [mxArray* get() noexcept] *)
Definition get (this : addr) : M W ptr :=
  λ st, (Returned (field st this), st).

(** [bool isValid() const] *)
Definition isValid (this : addr) : M W bool :=
  p <- get this ;; ret (negb (p =? nullptr)).

(** [void checkValid(const char* id) const] *)
Definition checkValid (this : addr) (id : string) : M W unit :=
  v <- isValid this ;;
  if negb v then throw (Exception2 id "accessing invalid array") else ret tt.

(** [mxArray* release() noexcept]: [std::exchange(mArray, nullptr)]. *)
Definition release (this : addr) : M W ptr :=
  p <- get this ;; set_mArray this nullptr ;; ret p.

(** [static mxArray* duplicateArray(const mxArray* array)] *)
Definition duplicateArray (array : ptr) : M W ptr :=
  if negb (array =? nullptr) then
    arrayDup <- native_upd (C_mxDuplicateArray array)
                           (λ w, mxDuplicateArray w array) ;;
    if arrayDup =? nullptr
    then throw (Exception1 "failed to duplicate array")
    else ret arrayDup
  else ret nullptr.

(** [void destroy() noexcept]: [mxDestroyArray(release())]. *)
Definition destroy (this : addr) : M W unit :=
  p <- release this ;;
  native_upd (λ _, C_mxDestroyArray p) (λ w, (tt, mxDestroyArray w p)).

(** *** Constructors, as the initial value of the new object *)

(** [Array() noexcept = default] *)
Definition Array_default : M W Array := ret (mkArray nullptr).

(** [explicit Array(mxArray*&& array) noexcept] *)
Definition Array_adopt (array : ptr) : M W Array := ret (mkArray array).

(** [explicit Array(const Array& other)] *)
Definition Array_copy (other : addr) : M W Array :=
  src <- get other ;; p <- duplicateArray src ;; Array_adopt p.

(** [explicit Array(const ArrayRef& other)] *)
Definition Array_copy_ref (other : ArrayRef) : M W Array :=
  p <- duplicateArray (ref_get other) ;; Array_adopt p.

(** [explicit Array(const ArrayCref& other)] *)
Definition Array_copy_cref (other : ArrayCref) : M W Array :=
  p <- duplicateArray (cref_get other) ;; Array_adopt p.

(** [Array(Array&& other) noexcept] *)
Definition Array_move (other : addr) : M W Array :=
  p <- release other ;; ret (mkArray p).

(** An object comes to life at [this] with the value its constructor
    computed; a constructor that throws leaves no object. *)
Definition construct (this : addr) (ctor : M W Array) : M W unit :=
  a <- ctor ;;
  λ st, (Returned tt,
         mkState (<[this := a]> (objects st)) (world st) (calls st)).

(** [~Array() noexcept], after which the object is gone. *)
Definition Array_dtor (this : addr) : M W unit :=
  destroy this ;;
  λ st, (Returned tt,
         mkState (delete this (objects st)) (world st) (calls st)).

(** A temporary [Array] has no address in [objects]: it is the value
    [tmp].  Move construction from it gives the new object and the emptied
    temporary; its destructor gives what it holds to [mxDestroyArray]. *)
Definition move_temporary (tmp : Array) : Array * Array :=
  (mkArray (mArray tmp), mkArray nullptr).

Definition destroy_temporary (tmp : Array) : M W unit :=
  native_upd (λ _, C_mxDestroyArray (mArray tmp))
             (λ w, (tt, mxDestroyArray w (mArray tmp))).

(** *** Assignment *)

(** [Array& operator=(const Array& other)] *)
Definition operator_assign (this other : addr) : M W unit :=
  a <- get this ;; b <- get other ;;
  if negb (a =? b) then
    destroy this ;;
    src <- get other ;; p <- duplicateArray src ;; set_mArray this p
  else ret tt.

(** [Array& operator=(const ArrayRef& other)] *)
Definition operator_assign_ref (this : addr) (other : ArrayRef) : M W unit :=
  a <- get this ;;
  if negb (a =? ref_get other) then
    destroy this ;;
    p <- duplicateArray (ref_get other) ;; set_mArray this p
  else ret tt.

(** [Array& operator=(const ArrayCref& other)] *)
Definition operator_assign_cref (this : addr) (other : ArrayCref) : M W unit :=
  a <- get this ;;
  if negb (a =? cref_get other) then
    destroy this ;;
    p <- duplicateArray (cref_get other) ;; set_mArray this p
  else ret tt.

(** [Array& operator=(Array&& other) noexcept] *)
Definition operator_assign_move (this other : addr) : M W unit :=
  if negb (bool_decide (this = other)) then
    destroy this ;;
    p <- release other ;; set_mArray this p
  else ret tt.

(** *** Introspection *)

(** [mxF(mArray)] for a unary native function. *)
Definition query {A} (f : MxFun) (sem : W → ptr → A) (p : ptr) : M W A :=
  native (Query f p) (λ w, sem w p).

Definition getRank (this : addr) : M W Z :=
  checkValid this "matlabw:mx:Array:getRank" ;;
  p <- get this ;; query F_mxGetNumberOfDimensions mxGetNumberOfDimensions p.

(** [View<std::size_t>{mxGetDimensions(mArray), getRank()}]: the braced
    initialisers are evaluated left to right. *)
Definition getDims (this : addr) : M W View :=
  checkValid this "matlabw:mx:Array:getDims" ;;
  p <- get this ;;
  d <- query F_mxGetDimensions mxGetDimensions p ;;
  n <- getRank this ;;
  ret (mkView d n).

Definition getDimM (this : addr) : M W Z :=
  checkValid this "matlabw:mx:Array:getDimM" ;;
  p <- get this ;; query F_mxGetM mxGetM p.

Definition getDimN (this : addr) : M W Z :=
  checkValid this "matlabw:mx:Array:getDimN" ;;
  p <- get this ;; query F_mxGetN mxGetN p.

Definition getSize (this : addr) : M W Z :=
  checkValid this "matlabw:mx:Array:getSize" ;;
  p <- get this ;; query F_mxGetNumberOfElements mxGetNumberOfElements p.

Definition getSizeOfElement (this : addr) : M W Z :=
  checkValid this "matlabw:mx:Array:getSizeOfElement" ;;
  p <- get this ;; query F_mxGetElementSize mxGetElementSize p.

Definition isNumeric (this : addr) : M W bool :=
  checkValid this "matlabw:mx:Array:isNumeric" ;;
  p <- get this ;; query F_mxIsNumeric mxIsNumeric p.

Definition isComplex (this : addr) : M W bool :=
  checkValid this "matlabw:mx:Array:isComplex" ;;
  p <- get this ;; query F_mxIsComplex mxIsComplex p.

Definition isEmpty (this : addr) : M W bool :=
  checkValid this "matlabw:mx:Array:isEmpty" ;;
  p <- get this ;; query F_mxIsEmpty mxIsEmpty p.

Definition isScalar (this : addr) : M W bool :=
  checkValid this "matlabw:mx:Array:isScalar" ;;
  p <- get this ;; query F_mxIsScalar mxIsScalar p.

Definition isDouble (this : addr) : M W bool :=
  checkValid this "matlabw:mx:Array:isDouble" ;;
  p <- get this ;; query F_mxIsDouble mxIsDouble p.

Definition isSingle (this : addr) : M W bool :=
  checkValid this "matlabw:mx:Array:isSingle" ;;
  p <- get this ;; query F_mxIsSingle mxIsSingle p.

Definition isInt8 (this : addr) : M W bool :=
  checkValid this "matlabw:mx:Array:isInt8" ;;
  p <- get this ;; query F_mxIsInt8 mxIsInt8 p.

Definition isUint8 (this : addr) : M W bool :=
  checkValid this "matlabw:mx:Array:isUint8" ;;
  p <- get this ;; query F_mxIsUint8 mxIsUint8 p.

Definition isInt16 (this : addr) : M W bool :=
  checkValid this "matlabw:mx:Array:isInt16" ;;
  p <- get this ;; query F_mxIsInt16 mxIsInt16 p.

Definition isUint16 (this : addr) : M W bool :=
  checkValid this "matlabw:mx:Array:isUint16" ;;
  p <- get this ;; query F_mxIsUint16 mxIsUint16 p.

Definition isInt32 (this : addr) : M W bool :=
  checkValid this "matlabw:mx:Array:isInt32" ;;
  p <- get this ;; query F_mxIsInt32 mxIsInt32 p.

Definition isUint32 (this : addr) : M W bool :=
  checkValid this "matlabw:mx:Array:isUint32" ;;
  p <- get this ;; query F_mxIsUint32 mxIsUint32 p.

Definition isInt64 (this : addr) : M W bool :=
  checkValid this "matlabw:mx:Array:isInt64" ;;
  p <- get this ;; query F_mxIsInt64 mxIsInt64 p.

Definition isUint64 (this : addr) : M W bool :=
  checkValid this "matlabw:mx:Array:isUint64" ;;
  p <- get this ;; query F_mxIsUint64 mxIsUint64 p.

Definition isSparse (this : addr) : M W bool :=
  checkValid this "matlabw:mx:Array:isSparse" ;;
  p <- get this ;; query F_mxIsSparse mxIsSparse p.

Definition isChar (this : addr) : M W bool :=
  checkValid this "matlabw:mx:Array:isChar" ;;
  p <- get this ;; query F_mxIsChar mxIsChar p.

Definition isLogical (this : addr) : M W bool :=
  checkValid this "matlabw:mx:Array:isLogical" ;;
  p <- get this ;; query F_mxIsLogical mxIsLogical p.

Definition isLogicalScalar (this : addr) : M W bool :=
  checkValid this "matlabw:mx:Array:isLogicalScalar" ;;
  p <- get this ;; query F_mxIsLogicalScalar mxIsLogicalScalar p.

Definition isLogicalScalarTrue (this : addr) : M W bool :=
  checkValid this "matlabw:mx:Array:isLogicalScalarTrue" ;;
  p <- get this ;; query F_mxIsLogicalScalarTrue mxIsLogicalScalarTrue p.

(** [bool isClass(const char* name) const] *)
Definition isClass (this : addr) (name : c_str) : M W bool :=
  checkValid this "matlabw:mx:Array:isClass" ;;
  match name with
  | None => throw (Exception1 "invalid class name")
  | Some n => p <- get this ;; native (C_mxIsClass p n) (λ w, mxIsClass w p n)
  end.

Definition isStruct (this : addr) : M W bool :=
  checkValid this "matlabw:mx:Array:isStruct" ;;
  p <- get this ;; query F_mxIsStruct mxIsStruct p.

Definition isCell (this : addr) : M W bool :=
  checkValid this "matlabw:mx:Array:isCell" ;;
  p <- get this ;; query F_mxIsCell mxIsCell p.

(** [static_cast<ClassId>(mxGetClassID(mArray))]: [ClassId] (common.hpp)
    is the enumeration of the native class ids, so the conversion keeps the
    number. *)
Definition getClassId (this : addr) : M W Z :=
  checkValid this "matlabw:mx:Array:getClassId" ;;
  p <- get this ;; query F_mxGetClassID mxGetClassID p.

Definition getClassName (this : addr) : M W c_str :=
  checkValid this "matlabw:mx:Array:getClassName" ;;
  p <- get this ;; query F_mxGetClassName mxGetClassName p.

(** [const void* getData() const] and [void* getData()] *)
Definition getData (this : addr) : M W ptr :=
  checkValid this "matlabw:mx:Array:getData" ;;
  p <- get this ;; query F_mxGetData mxGetData p.

End Methods.
End mx_Array.

(** ** References (ArrayRef.hpp, TypedArrayRef.hpp) *)

Module mx_ArrayCref.
Section Methods.
Context {W : Type} `{!MxApi W}.

(** Modelled from the spec: ArrayRef.hpp and TypedArrayRef.hpp, which
    declare the accessors of the non-owning references, are not among the
    sources; every operation being "a thin, one-to-one forwarding call to a
    pre-existing native library function", a reference's [getRank],
    [getDimM], [getDimN] and [getData] are the native functions on the
    pointer it holds. *)
Definition getRank (this : ArrayCref) : M W Z :=
  mx_Array.query F_mxGetNumberOfDimensions mxGetNumberOfDimensions (cref_get this).

Definition getDimM (this : ArrayCref) : M W Z :=
  mx_Array.query F_mxGetM mxGetM (cref_get this).

Definition getDimN (this : ArrayCref) : M W Z :=
  mx_Array.query F_mxGetN mxGetN (cref_get this).

Definition getData (this : ArrayCref) : M W ptr :=
  mx_Array.query F_mxGetData mxGetData (cref_get this).

End Methods.
End mx_ArrayCref.

(** ** mx::CharArrayCref and toAscii (CharArrayRef.hpp) *)

(** The line feed that ends the messages of [toAscii]. *)
Definition LF : string := String (Ascii.ascii_of_nat 10) EmptyString.

Module mx_CharArrayCref.
Section Methods.
Context {W : Type} `{!MxApi W}.

(** [(getRank() <= 2) && (getDimM() == 1)] *)
Definition isSingleString (this : ArrayCref) : M W bool :=
  r <- mx_ArrayCref.getRank this ;;
  if r <=? 2 then m <- mx_ArrayCref.getDimM this ;; ret (m =? 1)
  else ret false.

(** [explicit operator std::u16string_view() const]: the view is given by
    the code units it spans. *)
Definition operator_u16string_view (this : ArrayCref) : M W (list Z) :=
  s <- isSingleString this ;;
  if negb s then
    throw (Exception2 "matlabw:mx:CharArrayCref:operatorU16StringView"
                      "array must be a single string")
  else
    d <- mx_ArrayCref.getData this ;;
    n <- mx_ArrayCref.getDimN this ;;
    peek (λ w, load_char16 w d n).

(** [std::string toAscii(CharArrayCref array)] *)
Definition toAscii (array : ArrayCref) : M W string :=
  s <- isSingleString array ;;
  if s then
    throw (Exception2 "matlabw:mx:toAscii" ("Input must be a single string." +:+ LF))
  else
    d <- mx_ArrayCref.getData array ;;
    size <- peek (λ w, char16_length w d) ;;
    r <- native (C_mxGetString (cref_get array) (static_cast_size_t (size + 1)))
                (λ w, mxGetString w (cref_get array) (static_cast_size_t (size + 1))) ;;
    if negb (r.1 =? 0) then
      throw (Exception2 "matlabw:mx:toAscii"
                        ("Failed to convert char16_t array to string." +:+ LF))
    else ret r.2.

End Methods.
End mx_CharArrayCref.

(** ** mx::CharArray (the CharArray part of propery.hpp) *)

Module mx_CharArray.
Section Methods.
Context {W : Type} `{!MxApi W}.

(** Modelled from the spec: TypedArray.hpp, which declares the typed
    accessors of [CharArray]'s base class, is not among the sources; a typed
    array being a one-to-one wrapper, its [getData()] and [begin()] are
    [Array::getData()], the start of the element buffer. *)

(** [bool isSingleString() const], on the accessors inherited from
    [Array]. *)
Definition isSingleString (this : addr) : M W bool :=
  r <- mx_Array.getRank this ;;
  if r <=? 2 then m <- mx_Array.getDimM this ;; ret (m =? 1)
  else ret false.

(** [explicit operator std::u16string_view() const] *)
Definition operator_u16string_view (this : addr) : M W (list Z) :=
  s <- isSingleString this ;;
  if negb s then
    throw (Exception2 "matlabw:mx:CharArray:operatorU16StringView"
                      "array must be a single string")
  else
    d <- mx_Array.getData this ;;
    n <- mx_Array.getDimN this ;;
    peek (λ w, load_char16 w d n).

(** [CharArray makeCharArray(View<std::size_t> dims)]; the view is given
    by the sizes it spans. *)
Definition makeCharArray (dims : list Z) : M W Array :=
  array <- native_upd (C_mxCreateCharArray dims)
                      (λ w, mxCreateCharArray w dims) ;;
  if array =? nullptr
  then throw (Exception1 "failed to create char array")
  else mx_Array.Array_adopt array.

(** [CharArray makeCharArray(std::u16string_view str)].  The named local
    [array] is constructed in place as the returned object (named return
    value optimisation), at the address the caller provides.
    [array.begin()] (TypedArray.hpp) is the start of the element buffer. *)
Definition makeCharArray_u16 (array : addr) (str : list Z) : M W unit :=
  mx_Array.construct array
    (makeCharArray [static_cast_size_t (Z.of_nat (length str) + 1)]) ;;
  first <- mx_Array.getData array ;;
  poke (λ w, store_char16 w first str).

End Methods.
End mx_CharArray.

(** ** mx::StructArrayRef (StructArrayRef.hpp) *)

Module mx_StructArrayRef.
Section Methods.
Context {W : Type} `{!MxApi W}.

(** [FieldIndex] (common.hpp) is an enumeration over an integer type; an
    index is given by its number, and the number of [FieldIndex::invalid]
    is a parameter. *)
Variable invalid : Z.

(** [std::size_t getFieldCount() const] *)
Definition getFieldCount (this : ArrayRef) : M W Z :=
  n <- mx_Array.query F_mxGetNumberOfFields mxGetNumberOfFields (ref_get this) ;;
  ret (static_cast_size_t n).

(** [FieldIndex getFieldIndex(const char* fieldName) const] *)
Definition getFieldIndex (this : ArrayRef) (fieldName : c_str) : M W Z :=
  fieldIdx <- native (C_mxGetFieldNumber (ref_get this) fieldName)
                     (λ w, mxGetFieldNumber w (ref_get this) fieldName) ;;
  if fieldIdx =? -1 then ret invalid else ret fieldIdx.

(** [std::optional<ArrayRef> getField(std::size_t i, FieldIndex fieldIndex)] *)
Definition getField (this : ArrayRef) (i : Z) (fieldIndex : Z)
  : M W (option ArrayRef) :=
  if fieldIndex =? invalid then ret None
  else
    count <- getFieldCount this ;;
    if static_cast_size_t fieldIndex >=? count then
      throw (Exception1 "field index out of range")
    else
      field <- native (C_mxGetFieldByNumber (ref_get this) i (static_cast_int fieldIndex))
                      (λ w, mxGetFieldByNumber w (ref_get this) i (static_cast_int fieldIndex)) ;;
      if field =? nullptr then ret None else ret (Some (mkArrayRef field)).

(** [std::optional<ArrayRef> getField(std::size_t i, const char* fieldName)] *)
Definition getField_name (this : ArrayRef) (i : Z) (fieldName : c_str)
  : M W (option ArrayRef) :=
  fieldIndex <- getFieldIndex this fieldName ;; getField this i fieldIndex.

End Methods.
End mx_StructArrayRef.

(** ** makeObjectArray (the ObjectArray header, unnamed/part_000) *)

Module mx_ObjectArray.
Section Methods.
Context {W : Type} `{!MxApi W}.

(** [Array makeObjectArray(StructArray&& srcArray, const char* className)].
    [StructArray] is an [Array] by inheritance, so [Array{std::move(srcArray)}]
    is the move constructor. *)
Definition makeObjectArray (srcArray : addr) (className : c_str) : M W Array :=
  v <- mx_Array.isValid srcArray ;;
  if negb v then throw (Exception1 "invalid source array")
  else match className with
  | None => throw (Exception1 "invalid class name")
  | Some name =>
    p <- mx_Array.release srcArray ;;
    rc <- native_upd (λ _, C_mxSetClassName p name)
                     (λ w, mxSetClassName w p name) ;;
    if negb (rc =? 0) then throw (Exception1 "failed to set class name")
    else mx_Array.Array_move srcArray
  end.

End Methods.
End mx_ObjectArray.

(** ** Workspace variables (mex/variable.hpp) *)

Module mex.

Inductive Workspace := base | global | caller.

(** [constexpr const char* getWorkspaceName(Workspace workspace)]; the
    [default] case of the switch is for numbers outside the enumeration. *)
Definition getWorkspaceName (workspace : Workspace) : string :=
  match workspace with
  | base => "base"
  | global => "global"
  | caller => "caller"
  end.

Section Functions.
Context {W : Type} `{!MxApi W}.

(** [void putVariable(Workspace workspace, const char* name, mx::ArrayCref value)] *)
Definition putVariable (workspace : Workspace) (name : c_str) (value : ArrayCref)
  : M W unit :=
  match name with
  | None => throw (Exception1 "invalid variable name")
  | Some name =>
    let workspaceName := getWorkspaceName workspace in
    rc <- native_upd (λ _, C_mexPutVariable workspaceName name (cref_get value))
                     (λ w, mexPutVariable w workspaceName name (cref_get value)) ;;
    if negb (rc =? 0) then throw (Exception1 "failed to put variable")
    else ret tt
  end.

(** [std::optional<mx::ArrayCref> getVariableCref(Workspace, const char* name)] *)
Definition getVariableCref (workspace : Workspace) (name : c_str)
  : M W (option ArrayCref) :=
  match name with
  | None => throw (Exception1 "invalid variable name")
  | Some name =>
    let workspaceName := getWorkspaceName workspace in
    array <- native (C_mexGetVariablePtr workspaceName name)
                    (λ w, mexGetVariablePtr w workspaceName name) ;;
    if array =? nullptr then ret None else ret (Some (mkArrayCref array))
  end.

(** [std::optional<mx::Array> getVariable(Workspace, const char* name)].
    In [return mx::Array{std::move(array)}] the temporary [Array] adopts the
    pointer, the value of the [std::optional] is move-constructed from it,
    and the emptied temporary is destroyed. *)
Definition getVariable (workspace : Workspace) (name : c_str)
  : M W (option Array) :=
  match name with
  | None => throw (Exception1 "invalid variable name")
  | Some name =>
    let workspaceName := getWorkspaceName workspace in
    array <- native_upd (C_mexGetVariable workspaceName name)
                        (λ w, mexGetVariable w workspaceName name) ;;
    if array =? nullptr then ret None
    else
      tmp <- mx_Array.Array_adopt array ;;
      let '(value, tmp') := mx_Array.move_temporary tmp in
      mx_Array.destroy_temporary tmp' ;;
      ret (Some value)
  end.

End Functions.
End mex.

(** ** A reference runtime *)

(** A small executable model of the native library, after the MATLAB C
    Matrix API and MEX API reference: arrays live in a heap, creation and
    duplication allocate (and fail when the runtime is out of memory),
    the rest reads or updates the array a pointer designates.  It serves to
    run the wrappers on concrete arrays; the general statements below hold
    for every instance of [MxApi]. *)
Module Ref.

Record mxArrayData := mkData {
  classID : Z;
  className : string;
  dims : list Z;
  is_complex : bool;
  is_sparse : bool;
  (** integer payload in column-major order: the UTF-16 units of a char
      array, the truth values of a logical array *)
  elems : list Z;
  fieldNames : list string;
  (** field values of a struct array, element by element *)
  fieldValues : list ptr }.

Record Runtime := mkRuntime {
  heap : gmap Z mxArrayData;
  next : Z;
  (** workspace name, variable name, array *)
  variables : list (string * string * ptr);
  out_of_memory : bool }.

Definition mxCELL_CLASS : Z := 1.
Definition mxSTRUCT_CLASS : Z := 2.
Definition mxLOGICAL_CLASS : Z := 3.
Definition mxCHAR_CLASS : Z := 4.
Definition mxDOUBLE_CLASS : Z := 6.
Definition mxSINGLE_CLASS : Z := 7.
Definition mxINT8_CLASS : Z := 8.
Definition mxUINT8_CLASS : Z := 9.
Definition mxINT16_CLASS : Z := 10.
Definition mxUINT16_CLASS : Z := 11.
Definition mxINT32_CLASS : Z := 12.
Definition mxUINT32_CLASS : Z := 13.
Definition mxINT64_CLASS : Z := 14.
Definition mxUINT64_CLASS : Z := 15.

Definition on {A} (rt : Runtime) (p : ptr) (dflt : A) (f : mxArrayData → A) : A :=
  from_option f dflt (heap rt !! p).

Definition numel (d : mxArrayData) : Z := fold_right Z.mul 1 (dims d).

Definition has_class (c : Z) (rt : Runtime) (p : ptr) : bool :=
  on rt p false (λ d, classID d =? c).

Definition alloc (d : mxArrayData) (rt : Runtime) : ptr * Runtime :=
  if out_of_memory rt then (nullptr, rt)
  else (next rt,
        mkRuntime (<[next rt := d]> (heap rt)) (next rt + 16)
                  (variables rt) (out_of_memory rt)).

Definition duplicate (rt : Runtime) (p : ptr) : ptr * Runtime :=
  match heap rt !! p with
  | Some d => alloc d rt
  | None => (nullptr, rt)
  end.

Definition destroy (rt : Runtime) (p : ptr) : Runtime :=
  mkRuntime (delete p (heap rt)) (next rt) (variables rt) (out_of_memory rt).

Definition update (rt : Runtime) (p : ptr) (d : mxArrayData) : Runtime :=
  mkRuntime (<[p := d]> (heap rt)) (next rt) (variables rt) (out_of_memory rt).

(** Creation functions make at least two dimensions: missing trailing
    sizes are 1. *)
Definition pad_dims (ds : list Z) : list Z :=
  match ds with
  | [] => [1; 1]
  | [m] => [m; 1]
  | _ => ds
  end.

Definition create_char (rt : Runtime) (ds : list Z) : ptr * Runtime :=
  let ds' := pad_dims ds in
  alloc (mkData mxCHAR_CLASS "char" ds' false false
                (replicate (Z.to_nat (fold_right Z.mul 1 ds')) 0) [] []) rt.

Definition element_size (d : mxArrayData) : Z :=
  let c := classID d in
  if (c =? mxCHAR_CLASS) || (c =? mxINT16_CLASS) || (c =? mxUINT16_CLASS) then 2
  else if (c =? mxLOGICAL_CLASS) || (c =? mxINT8_CLASS) || (c =? mxUINT8_CLASS) then 1
  else if (c =? mxSINGLE_CLASS) || (c =? mxINT32_CLASS) || (c =? mxUINT32_CLASS) then 4
  else 8.

Definition set_class_name (rt : Runtime) (p : ptr) (name : string) : Z * Runtime :=
  match heap rt !! p with
  | Some d =>
    if classID d =? mxSTRUCT_CLASS then
      (0, update rt p (mkData (classID d) name (dims d) (is_complex d)
                              (is_sparse d) (elems d) (fieldNames d) (fieldValues d)))
    else (1, rt)
  | None => (1, rt)
  end.

Definition ascii_of_unit (c : Z) : Ascii.ascii := Ascii.ascii_of_nat (Z.to_nat c).

Definition get_string (rt : Runtime) (p : ptr) (buflen : Z) : Z * string :=
  match heap rt !! p with
  | Some d =>
    let s := String.string_of_list_ascii
               (map ascii_of_unit (take (Z.to_nat (buflen - 1)) (elems d))) in
    if (classID d =? mxCHAR_CLASS) && (numel d + 1 <=? buflen) then (0, s) else (1, s)
  | None => (1, "")
  end.

Fixpoint index_of (name : string) (names : list string) (k : Z) : Z :=
  match names with
  | [] => -1
  | n :: names' => if String.eqb n name then k else index_of name names' (k + 1)
  end.

Definition field_number (rt : Runtime) (p : ptr) (name : c_str) : Z :=
  match name with
  | None => -1
  | Some n => on rt p (-1) (λ d, index_of n (fieldNames d) 0)
  end.

Definition field_by_number (rt : Runtime) (p : ptr) (i k : Z) : ptr :=
  on rt p nullptr (λ d,
    let nf := Z.of_nat (length (fieldNames d)) in
    if (0 <=? i) && (i <? numel d) && (0 <=? k) && (k <? nf)
    then default nullptr (fieldValues d !! Z.to_nat (i * nf + k))
    else nullptr).

Fixpoint find_variable (ws name : string) (vs : list (string * string * ptr)) : ptr :=
  match vs with
  | [] => nullptr
  | (w, n, p) :: vs' =>
    if String.eqb w ws && String.eqb n name then p else find_variable ws name vs'
  end.

Definition known_workspace (ws : string) : bool :=
  String.eqb ws "base" || String.eqb ws "global" || String.eqb ws "caller".

Definition put_variable (rt : Runtime) (ws name : string) (p : ptr) : Z * Runtime :=
  if known_workspace ws then
    match duplicate rt p with
    | (q, rt') =>
      if q =? nullptr then (1, rt)
      else (0, mkRuntime (heap rt') (next rt') ((ws, name, q) :: variables rt')
                         (out_of_memory rt'))
    end
  else (1, rt).

Definition get_variable (rt : Runtime) (ws name : string) : ptr * Runtime :=
  duplicate rt (find_variable ws name (variables rt)).

(** The element buffer of the array at [p] starts at [p + 8], its sizes at
    [p + 4]. *)
Definition data_of (p : ptr) : ptr := p + 8.
Definition owner_of (data : ptr) : ptr := data - 8.

Fixpoint length_to_nul (l : list Z) : Z :=
  match l with
  | [] => 0
  | c :: l' => if c =? 0 then 0 else 1 + length_to_nul l'
  end.

Definition store (rt : Runtime) (data : ptr) (l : list Z) : Runtime :=
  match heap rt !! owner_of data with
  | Some d =>
    update rt (owner_of data)
      (mkData (classID d) (className d) (dims d) (is_complex d) (is_sparse d)
              (take (length (elems d)) (l ++ drop (length l) (elems d)))
              (fieldNames d) (fieldValues d))
  | None => rt
  end.

#[global] Instance api : MxApi Runtime := {|
  mxDuplicateArray := duplicate;
  mxDestroyArray := destroy;
  mxGetNumberOfDimensions rt p := on rt p 0 (λ d, Z.of_nat (length (dims d)));
  mxGetDimensions rt p := on rt p nullptr (λ _, p + 4);
  mxGetM rt p := on rt p 0 (λ d, hd 0 (dims d));
  mxGetN rt p := on rt p 0 (λ d, fold_right Z.mul 1 (tl (dims d)));
  mxGetNumberOfElements rt p := on rt p 0 numel;
  mxGetElementSize rt p := on rt p 0 element_size;
  mxIsNumeric rt p := on rt p false (λ d, (mxDOUBLE_CLASS <=? classID d) && (classID d <=? mxUINT64_CLASS));
  mxIsComplex rt p := on rt p false is_complex;
  mxIsEmpty rt p := on rt p true (λ d, numel d =? 0);
  mxIsScalar rt p := on rt p false (λ d, numel d =? 1);
  mxIsDouble := has_class mxDOUBLE_CLASS;
  mxIsSingle := has_class mxSINGLE_CLASS;
  mxIsInt8 := has_class mxINT8_CLASS;
  mxIsUint8 := has_class mxUINT8_CLASS;
  mxIsInt16 := has_class mxINT16_CLASS;
  mxIsUint16 := has_class mxUINT16_CLASS;
  mxIsInt32 := has_class mxINT32_CLASS;
  mxIsUint32 := has_class mxUINT32_CLASS;
  mxIsInt64 := has_class mxINT64_CLASS;
  mxIsUint64 := has_class mxUINT64_CLASS;
  mxIsSparse rt p := on rt p false is_sparse;
  mxIsChar := has_class mxCHAR_CLASS;
  mxIsLogical := has_class mxLOGICAL_CLASS;
  mxIsLogicalScalar rt p := on rt p false (λ d, (classID d =? mxLOGICAL_CLASS) && (numel d =? 1));
  mxIsLogicalScalarTrue rt p :=
    on rt p false (λ d, (classID d =? mxLOGICAL_CLASS) && (numel d =? 1)
                        && negb (hd 0 (elems d) =? 0));
  mxIsClass rt p name := on rt p false (λ d, String.eqb (className d) name);
  mxIsStruct := has_class mxSTRUCT_CLASS;
  mxIsCell := has_class mxCELL_CLASS;
  mxGetClassID rt p := on rt p 0 classID;
  mxGetClassName rt p := on rt p None (λ d, Some (className d));
  mxGetData rt p := on rt p nullptr (λ _, data_of p);
  mxSetClassName := set_class_name;
  mxGetString := get_string;
  mxCreateCharArray := create_char;
  mxGetNumberOfFields rt p :=
    on rt p 0 (λ d, if classID d =? mxSTRUCT_CLASS
                    then Z.of_nat (length (fieldNames d)) else 0);
  mxGetFieldNumber := field_number;
  mxGetFieldByNumber := field_by_number;
  mexPutVariable := put_variable;
  mexGetVariable := get_variable;
  mexGetVariablePtr rt ws name := find_variable ws name (variables rt);
  char16_length rt data := on rt (owner_of data) 0 (λ d, length_to_nul (elems d));
  load_char16 rt data n := on rt (owner_of data) [] (λ d, take (Z.to_nat n) (elems d));
  store_char16 := store |}.

(** *** Sample arrays and states *)

(** The 1-by-3 char array ['abc']. *)
Definition abc : mxArrayData :=
  mkData mxCHAR_CLASS "char" [1; 3] false false [97; 98; 99] [] [].

(** A 2-by-2 char array. *)
Definition chars2x2 : mxArrayData :=
  mkData mxCHAR_CLASS "char" [2; 2] false false [97; 98; 99; 0] [] [].

(** A 1-by-1 struct with fields [x] and [y]; [x] is the array at 16, [y]
    is unset. *)
Definition point : mxArrayData :=
  mkData mxSTRUCT_CLASS "struct" [1; 1] false false [] ["x"; "y"] [16; 0].

(** A runtime holding [abc] at 16, [chars2x2] at 32 and [point] at 48,
    with the base workspace variable [v] bound to the array at 16. *)
Definition runtime (oom : bool) : Runtime :=
  mkRuntime (<[16 := abc]> (<[32 := chars2x2]> (<[48 := point]> ∅))) 64
            [("base", "v", 16)] oom.

(** A program state over [runtime]: the [Array] object at address 1 owns
    the array at 16, the one at 2 owns the struct at 48, the one at 3 is
    empty, and no native call has been made. *)
Definition state (oom : bool) : State Runtime :=
  mkState (<[1%positive := mkArray 16]>
             (<[2%positive := mkArray 48]> (<[3%positive := mkArray nullptr]> ∅)))
          (runtime oom) [].

End Ref.

(** * The rest of the wrappers *)

(** ** More of the native interface *)

(** The native functions that only the wrappers of this part call.  They
    act on the runtime; their calls are not entered in [calls], whose entries
    are the natives of [MxApi]. *)
Class MxApi2 (W : Type) := {
  mxSetDimensions : W → ptr → list Z → Z * W;
  (** [mxCreateStringFromNChars(str, n)], given by the [n] characters *)
  mxCreateStringFromNChars : W → string → ptr * W;
  mxSetFieldByNumber : W → ptr → Z → Z → ptr → W;
  mxAddField : W → ptr → string → Z * W;
  mxRemoveField : W → ptr → Z → W;
  mxGetFieldNameByNumber : W → ptr → Z → c_str;
  mxGetProperty : W → ptr → Z → string → ptr * W;
  mxSetProperty : W → ptr → Z → string → ptr → W }.

Section RuntimeCalls.
Context {W : Type}.

(** A call of a native of [MxApi2]. *)
Definition runtime_upd {A} (f : W → A * W) : M W A :=
  λ st, (Returned (f (world st)).1, mkState (objects st) (f (world st)).2 (calls st)).

(** [release()] on a temporary [Array]: the pointer and the emptied
    temporary. *)
Definition release_temporary (tmp : Array) : ptr * Array :=
  (mArray tmp, mkArray nullptr).

End RuntimeCalls.

(** ** mx::Array, the remaining members (Array.hpp) *)

Module mx_Array_rest.
Section Methods.
Context {W : Type} `{!MxApi W} `{!MxApi2 W}.

(** [void resize(View<std::size_t> dims)]; the view is given by the sizes
    it spans. *)
Definition resize (this : addr) (dims : list Z) : M W unit :=
  mx_Array.checkValid this "matlabw:mx:Array:resize" ;;
  p <- mx_Array.get this ;;
  rc <- runtime_upd (λ w, mxSetDimensions w p dims) ;;
  if negb (rc =? 0) then throw (Exception1 "failed to resize array") else ret tt.

(** [void resize(std::size_t m, std::size_t n)] *)
Definition resize_mn (this : addr) (m n : Z) : M W unit := resize this [m; n].

(** [const T* getDataAs() const] and [T* getDataAs()];
    [TypeProperties<T>::classId] (typeTraits.hpp) is the parameter
    [classId]. *)
Definition getDataAs (classId : Z) (this : addr) : M W ptr :=
  c <- mx_Array.getClassId this ;;
  if negb (c =? classId) then
    throw (Exception2 "matlabw:mx:Array:getDataAs" "type must match the array class ID")
  else mx_Array.getData this.

(** [operator ArrayRef()] *)
Definition operator_ArrayRef (this : addr) : M W ArrayRef :=
  mx_Array.checkValid this "matlabw:mx:Array:operatorArrayRef" ;;
  p <- mx_Array.get this ;; ret (mkArrayRef p).

(** [operator ArrayCref() const] *)
Definition operator_ArrayCref (this : addr) : M W ArrayCref :=
  mx_Array.checkValid this "matlabw:mx:Array:operatorArrayCref" ;;
  p <- mx_Array.get this ;; ret (mkArrayCref p).

End Methods.
End mx_Array_rest.

(** ** mx::CharArray, the remaining members *)

Module mx_CharArray_rest.
Section Methods.
Context {W : Type} `{!MxApi W} `{!MxApi2 W}.

(** [CharArray makeCharArray(std::string_view str)]; the view is given by
    the characters it spans. *)
Definition makeCharArray_str (str : string) : M W Array :=
  array <- runtime_upd (λ w, mxCreateStringFromNChars w str) ;;
  if array =? nullptr
  then throw (Exception1 "failed to create char array")
  else mx_Array.Array_adopt array.

(** [operator CharArrayRef()] *)
Definition operator_CharArrayRef (this : addr) : M W ArrayRef :=
  mx_Array.checkValid this "matlabw:mx:CharArray:operatorCharArrayRef" ;;
  p <- mx_Array.get this ;; ret (mkArrayRef p).

(** [operator CharArrayCref() const] *)
Definition operator_CharArrayCref (this : addr) : M W ArrayCref :=
  mx_Array.checkValid this "matlabw:mx:CharArray:operatorCharArrayCref" ;;
  p <- mx_Array.get this ;; ret (mkArrayCref p).

End Methods.
End mx_CharArray_rest.

(** ** mx::StructArrayRef, the remaining members (StructArrayRef.hpp) *)

Module mx_StructArrayRef_rest.
Section Methods.
Context {W : Type} `{!MxApi W} `{!MxApi2 W}.

(** The number of [FieldIndex::invalid], as in [mx_StructArrayRef]. *)
Variable invalid : Z.

(** [void setField(std::size_t i, FieldIndex fieldIndex, ArrayCref value)].
    The temporary [Array{value}] is a copy of [value]; it is released into
    the native call and destroyed, empty, after it. *)
Definition setField (this : ArrayRef) (i fieldIndex : Z) (value : ArrayCref)
  : M W unit :=
  if fieldIndex =? invalid then throw (Exception1 "invalid field index")
  else
    count <- mx_StructArrayRef.getFieldCount this ;;
    if static_cast_size_t fieldIndex >=? count then
      throw (Exception1 "invalid field index")
    else
      tmp <- mx_Array.Array_copy_cref value ;;
      let '(p, tmp') := release_temporary tmp in
      runtime_upd (λ w, (tt, mxSetFieldByNumber w (ref_get this) i
                               (static_cast_int fieldIndex) p)) ;;
      mx_Array.destroy_temporary tmp'.

(** [void setField(std::size_t i, FieldIndex fieldIndex, Array&& value)] *)
Definition setField_move (this : ArrayRef) (i fieldIndex : Z) (value : addr)
  : M W unit :=
  if fieldIndex =? invalid then throw (Exception1 "invalid field index")
  else
    count <- mx_StructArrayRef.getFieldCount this ;;
    if static_cast_size_t fieldIndex >=? count then
      throw (Exception1 "invalid field index")
    else
      p <- mx_Array.release value ;;
      runtime_upd (λ w, (tt, mxSetFieldByNumber w (ref_get this) i
                               (static_cast_int fieldIndex) p)).

(** [void setField(std::size_t i, const char* fieldName, ArrayCref value)] *)
Definition setField_name (this : ArrayRef) (i : Z) (fieldName : c_str)
    (value : ArrayCref) : M W unit :=
  fieldIndex <- mx_StructArrayRef.getFieldIndex invalid this fieldName ;;
  setField this i fieldIndex value.

(** [void setField(std::size_t i, const char* fieldName, Array&& value)] *)
Definition setField_name_move (this : ArrayRef) (i : Z) (fieldName : c_str)
    (value : addr) : M W unit :=
  fieldIndex <- mx_StructArrayRef.getFieldIndex invalid this fieldName ;;
  setField_move this i fieldIndex value.

(** [const char* getFieldName(FieldIndex fieldIdx) const] *)
Definition getFieldName (this : ArrayRef) (fieldIdx : Z) : M W string :=
  fieldName <- peek (λ w, mxGetFieldNameByNumber w (ref_get this)
                            (static_cast_int fieldIdx)) ;;
  match fieldName with
  | None => throw (Exception1 "failed to get field name")
  | Some name => ret name
  end.

(** [void addField(const char* fieldName)]; the test is
    [!mxAddField(get(), fieldName)]. *)
Definition addField (this : ArrayRef) (fieldName : c_str) : M W unit :=
  match fieldName with
  | None => throw (Exception1 "invalid field name")
  | Some name =>
    r <- runtime_upd (λ w, mxAddField w (ref_get this) name) ;;
    if r =? 0 then throw (Exception1 "failed to add field") else ret tt
  end.

(** [void removeField(FieldIndex fieldIndex)] *)
Definition removeField_index (this : ArrayRef) (fieldIndex : Z) : M W unit :=
  if negb (fieldIndex =? invalid) then
    count <- mx_StructArrayRef.getFieldCount this ;;
    if static_cast_size_t fieldIndex >=? count then
      throw (Exception1 "field index out of range")
    else
      runtime_upd (λ w, (tt, mxRemoveField w (ref_get this) (static_cast_int fieldIndex)))
  else ret tt.

(** [void removeField(const char* fieldName)] *)
Definition removeField (this : ArrayRef) (fieldName : c_str) : M W unit :=
  match fieldName with
  | None => throw (Exception1 "invalid field name")
  | Some _ =>
    fieldIndex <- mx_StructArrayRef.getFieldIndex invalid this fieldName ;;
    removeField_index this fieldIndex
  end.

End Methods.
End mx_StructArrayRef_rest.

(** ** Object properties (the property part of propery.hpp) *)

Module mx_property.
Section Functions.
Context {W : Type} `{!MxApi W} `{!MxApi2 W}.

(** [std::optional<ArrayCref> getProperty(ArrayRef array, std::size_t index,
    const char* propName)] *)
Definition getProperty (array : ArrayRef) (index : Z) (propName : c_str)
  : M W (option ArrayCref) :=
  match propName with
  | None => throw (Exception1 "property name must not be null")
  | Some name =>
    prop <- runtime_upd (λ w, mxGetProperty w (ref_get array) index name) ;;
    if prop =? nullptr then ret None else ret (Some (mkArrayCref prop))
  end.

(** [getProperty(ArrayRef array, const char* propName)] *)
Definition getProperty0 (array : ArrayRef) (propName : c_str)
  : M W (option ArrayCref) :=
  getProperty array 0 propName.

(** [void setProperty(ArrayRef array, std::size_t index, const char* propName,
    ArrayCref value)] *)
Definition setProperty (array : ArrayRef) (index : Z) (propName : c_str)
    (value : ArrayCref) : M W unit :=
  match propName with
  | None => throw (Exception1 "property name must not be null")
  | Some name =>
    runtime_upd (λ w, (tt, mxSetProperty w (ref_get array) index name (cref_get value)))
  end.

(** [setProperty(ArrayRef array, const char* propName, ArrayCref value)] *)
Definition setProperty0 (array : ArrayRef) (propName : c_str) (value : ArrayCref)
  : M W unit :=
  setProperty array 0 propName value.

End Functions.
End mx_property.

(** ** The reference runtime, continued *)

Module Ref2.
Import Ref.

Definition with_dims (d : mxArrayData) (ds : list Z) : mxArrayData :=
  mkData (classID d) (className d) ds (is_complex d) (is_sparse d)
         (elems d) (fieldNames d) (fieldValues d).

Definition with_fields (d : mxArrayData) (names : list string) (values : list ptr)
  : mxArrayData :=
  mkData (classID d) (className d) (dims d) (is_complex d) (is_sparse d)
         (elems d) names values.

Definition set_dims (rt : Runtime) (p : ptr) (ds : list Z) : Z * Runtime :=
  match heap rt !! p with
  | Some d =>
    if forallb (λ n, 0 <=? n) ds then (0, update rt p (with_dims d (pad_dims ds)))
    else (1, rt)
  | None => (1, rt)
  end.

Definition units_of_string (s : string) : list Z :=
  map (λ a, Z.of_nat (Ascii.nat_of_ascii a)) (String.list_ascii_of_string s).

(** A 1-by-n row of the characters. *)
Definition create_string (rt : Runtime) (s : string) : ptr * Runtime :=
  alloc (mkData mxCHAR_CLASS "char" [1; Z.of_nat (length (units_of_string s))]
                false false (units_of_string s) [] []) rt.

Definition set_field (rt : Runtime) (p : ptr) (i k : Z) (v : ptr) : Runtime :=
  match heap rt !! p with
  | Some d =>
    let nf := Z.of_nat (length (fieldNames d)) in
    if (classID d =? mxSTRUCT_CLASS) && (0 <=? i) && (i <? numel d)
       && (0 <=? k) && (k <? nf)
    then update rt p (with_fields d (fieldNames d)
                        (<[Z.to_nat (i * nf + k) := v]> (fieldValues d)))
    else rt
  | None => rt
  end.

(** The values of element [j] of a struct array with [nf] fields. *)
Definition row (nf : nat) (values : list ptr) (j : nat) : list ptr :=
  take nf (drop (j * nf) values).

Definition add_field (rt : Runtime) (p : ptr) (name : string) : Z * Runtime :=
  match heap rt !! p with
  | Some d =>
    if classID d =? mxSTRUCT_CLASS then
      if index_of name (fieldNames d) 0 =? -1 then
        let nf := length (fieldNames d) in
        (Z.of_nat nf,
         update rt p (with_fields d (fieldNames d ++ [name])
                        (flat_map (λ j, row nf (fieldValues d) j ++ [nullptr])
                                  (seq 0 (Z.to_nat (numel d))))))
      else (index_of name (fieldNames d) 0, rt)
    else (-1, rt)
  | None => (-1, rt)
  end.

Definition remove_field (rt : Runtime) (p : ptr) (k : Z) : Runtime :=
  match heap rt !! p with
  | Some d =>
    let nf := length (fieldNames d) in
    if (classID d =? mxSTRUCT_CLASS) && (0 <=? k) && (k <? Z.of_nat nf) then
      update rt p (with_fields d (delete (Z.to_nat k) (fieldNames d))
                     (flat_map (λ j, delete (Z.to_nat k) (row nf (fieldValues d) j))
                               (seq 0 (Z.to_nat (numel d)))))
    else rt
  | None => rt
  end.

Definition field_name (rt : Runtime) (p : ptr) (k : Z) : c_str :=
  on rt p None (λ d, if 0 <=? k then fieldNames d !! Z.to_nat k else None).

(** Properties of an object are kept like the fields of a struct;
    [mxGetProperty] gives a copy. *)
Definition get_property (rt : Runtime) (p : ptr) (i : Z) (name : string)
  : ptr * Runtime :=
  match heap rt !! p with
  | Some d => duplicate rt (field_by_number rt p i (index_of name (fieldNames d) 0))
  | None => (nullptr, rt)
  end.

Definition set_property (rt : Runtime) (p : ptr) (i : Z) (name : string) (v : ptr)
  : Runtime :=
  match heap rt !! p with
  | Some d =>
    match duplicate rt v with
    | (q, rt') =>
      if q =? nullptr then rt
      else set_field rt' p i (index_of name (fieldNames d) 0) q
    end
  | None => rt
  end.

#[global] Instance api2 : MxApi2 Runtime := {|
  mxSetDimensions := set_dims;
  mxCreateStringFromNChars := create_string;
  mxSetFieldByNumber := set_field;
  mxAddField := add_field;
  mxRemoveField := remove_field;
  mxGetFieldNameByNumber := field_name;
  mxGetProperty := get_property;
  mxSetProperty := set_property |}.

(** A 1-by-1 struct without fields. *)
Definition bare : mxArrayData :=
  mkData mxSTRUCT_CLASS "struct" [1; 1] false false [] [] [].

(** [Ref.state] with the struct [bare] added at 80. *)
Definition state_with_bare : State Runtime :=
  mkState (objects (state false))
          (mkRuntime (<[80 := bare]> (heap (runtime false))) 96
                     (variables (runtime false)) false)
          [].

End Ref2.

(** * Vocabulary of the statements *)

Section Vocabulary.
Context {W : Type} `{!MxApi W}.

Implicit Types (st : State W) (this other : addr) (src p : ptr).

(** [op] guards with [checkValid] under the id ["matlabw:mx:Array:" +:+ name]
    and then makes the one native call [f], whose value it returns. *)
Definition forwards {A} (op : addr → M W A) (name : string)
    (f : MxFun) (sem : W → ptr → A) : Prop :=
  ∀ (st : State W) (this : addr),
    op this st =
      if mx_Array.field st this =? nullptr
      then (Thrown (Exception2 ("matlabw:mx:Array:" +:+ name) "accessing invalid array"), st)
      else (Returned (sem (world st) (mx_Array.field st this)),
            log (Query f (mx_Array.field st this)) st).

(** The state after [destroy()] on the object at [this]: the object holds
    null and its pointer has been given to [mxDestroyArray]. *)
Definition destroyed st this : State W :=
  mkState (<[this := mkArray nullptr]> (objects st))
          (mxDestroyArray (world st) (mx_Array.field st this))
          (calls st ++ [C_mxDestroyArray (mx_Array.field st this)]).

(** The state after the call [mxDuplicateArray(src)]. *)
Definition duplicated st src : State W :=
  mkState (objects st) (mxDuplicateArray (world st) src).2
          (calls st ++ [C_mxDuplicateArray src (mxDuplicateArray (world st) src).1]).

(** The state in which the object at [this] holds [p]. *)
Definition holding st this p : State W :=
  mkState (<[this := mkArray p]> (objects st)) (world st) (calls st).

(** Copy construction from the pointer [src] ([other.get()] in the three
    overloads). *)
Definition copy_run st this src : Outcome unit * State W :=
  if src =? nullptr then (Returned tt, holding st this nullptr)
  else if (mxDuplicateArray (world st) src).1 =? nullptr
       then (Thrown (Exception1 "failed to duplicate array"), duplicated st src)
       else (Returned tt,
             holding (duplicated st src) this (mxDuplicateArray (world st) src).1).

(** Copy assignment from the pointer [src]. *)
Definition assign_run st this src : Outcome unit * State W :=
  if mx_Array.field st this =? src then (Returned tt, st)
  else if src =? nullptr then (Returned tt, destroyed st this)
  else if (mxDuplicateArray (world (destroyed st this)) src).1 =? nullptr
       then (Thrown (Exception1 "failed to duplicate array"),
             duplicated (destroyed st this) src)
       else (Returned tt,
             holding (duplicated (destroyed st this) src) this
                     (mxDuplicateArray (world (destroyed st this)) src).1).

(** What a copy is made from: the three overloads of the copy constructor
    and of copy assignment. *)
Inductive Source :=
| from_Array (other : addr)
| from_ArrayRef (other : ArrayRef)
| from_ArrayCref (other : ArrayCref).

(** The constructors of [Array]. *)
Inductive Ctor :=
| ctor_default
| ctor_adopt (array : ptr)
| ctor_copy (other : Source)
| ctor_move (other : addr).

(** What can be done to a live [Array] that changes what it owns. *)
Inductive Step :=
| assign_copy (other : Source)
| assign_move (other : addr)
| call_release.

(** [other.get()] *)
Definition source_ptr st (s : Source) : ptr :=
  match s with
  | from_Array other => mx_Array.field st other
  | from_ArrayRef other => ref_get other
  | from_ArrayCref other => cref_get other
  end.

Definition run_ctor (c : Ctor) : M W Array :=
  match c with
  | ctor_default => mx_Array.Array_default
  | ctor_adopt array => mx_Array.Array_adopt array
  | ctor_copy (from_Array other) => mx_Array.Array_copy other
  | ctor_copy (from_ArrayRef other) => mx_Array.Array_copy_ref other
  | ctor_copy (from_ArrayCref other) => mx_Array.Array_copy_cref other
  | ctor_move other => mx_Array.Array_move other
  end.

Definition run_step this (s : Step) : M W unit :=
  match s with
  | assign_copy (from_Array other) => mx_Array.operator_assign this other
  | assign_copy (from_ArrayRef other) => mx_Array.operator_assign_ref this other
  | assign_copy (from_ArrayCref other) => mx_Array.operator_assign_cref this other
  | assign_move other => mx_Array.operator_assign_move this other
  | call_release => _ <- mx_Array.release this ;; ret tt
  end.

(** The caller catches what [m] throws and goes on. *)
Definition attempt (m : M W unit) : M W unit :=
  λ st, (Returned tt, (m st).2).

Fixpoint run_steps this (l : list Step) : M W unit :=
  match l with
  | [] => ret tt
  | s :: l' => attempt (run_step this s) ;; run_steps this l'
  end.

(** A lifetime: construction at [this], operations on the object, then
    its destructor.  When the constructor throws there is no object and
    nothing else happens. *)
Definition lifetime this (c : Ctor) (l : list Step) : M W unit :=
  mx_Array.construct this (run_ctor c) ;;
  run_steps this l ;;
  mx_Array.Array_dtor this.

(** Lifetimes made of default or copy construction and copy assignments. *)
Definition copy_ctor (c : Ctor) : bool :=
  match c with ctor_default | ctor_copy _ => true | _ => false end.
Definition copy_step (s : Step) : bool :=
  match s with assign_copy _ => true | _ => false end.
Definition copy_only (c : Ctor) (l : list Step) : bool :=
  copy_ctor c && forallb copy_step l.

(** The pointers that [mxDuplicateArray] handed out, and the non-null
    pointers given to [mxDestroyArray], in call order. *)
Definition duplicate_of (c : Call) : option ptr :=
  match c with
  | C_mxDuplicateArray _ q => if q =? nullptr then None else Some q
  | _ => None
  end.
Definition destroy_of (c : Call) : option ptr :=
  match c with
  | C_mxDestroyArray p => if p =? nullptr then None else Some p
  | _ => None
  end.
Definition duplicates (t : list Call) : list ptr := omap duplicate_of t.
Definition destroys (t : list Call) : list ptr := omap destroy_of t.

(** The pointer the object at [this] owns, if any. *)
Definition held st this : list ptr :=
  if mx_Array.field st this =? nullptr then [] else [mx_Array.field st this].

(** Any operation on an [Array] object. *)
Inductive Op :=
| op_construct (c : Ctor)
| op_step (s : Step)
| op_destruct.

Definition run_op this (o : Op) : M W unit :=
  match o with
  | op_construct c => mx_Array.construct this (run_ctor c)
  | op_step s => run_step this s
  | op_destruct => mx_Array.Array_dtor this
  end.

(** No two objects hold the same non-null pointer. *)
Definition exclusive st : Prop :=
  ∀ a b : addr,
    mx_Array.field st a ≠ nullptr → mx_Array.field st a = mx_Array.field st b → a = b.

(** [p] is not held by an object other than [this]. *)
Definition unowned st this p : Prop :=
  ∀ b : addr, b ≠ this → mx_Array.field st b ≠ nullptr → mx_Array.field st b ≠ p.

(** The raw pointer given to the adopting constructor is not owned. *)
Definition adopts_unowned st this (o : Op) : Prop :=
  match o with
  | op_construct (ctor_adopt array) => unowned st this array
  | _ => True
  end.

(** The runtime hands out duplicates that no other object holds. *)
Definition duplicates_fresh st this (o : Op) : Prop :=
  ∀ (t : list Call) (q : ptr),
    calls (run_op this o st).2 = calls st ++ t → q ∈ duplicates t → unowned st this q.

(** The state after the call [mexGetVariable(workspaceName, name)]. *)
Definition looked_up st (workspace : mex.Workspace) (name : string) : State W :=
  mkState (objects st)
          (mexGetVariable (world st) (mex.getWorkspaceName workspace) name).2
          (calls st ++ [C_mexGetVariable (mex.getWorkspaceName workspace) name
                          (mexGetVariable (world st)
                             (mex.getWorkspaceName workspace) name).1]).

(** The state after [mxSetClassName(srcArray.release(), name)]. *)
Definition class_named (st : State W) (srcArray : addr) (name : string) : State W :=
  mkState (<[srcArray := mkArray nullptr]> (objects st))
          (mxSetClassName (world st) (mx_Array.field st srcArray) name).2
          (calls st ++ [C_mxSetClassName (mx_Array.field st srcArray) name]).

End Vocabulary.

Section ReferenceVocabulary.
Import Ref.

Implicit Types (st : State Runtime) (array : addr) (s : list Z).

(** What [makeCharArray(std::u16string_view)] leaves in the heap for the
    string [s]: a column of [length s + 1] rows, [s] followed by a zero. *)
Definition column s : mxArrayData :=
  mkData mxCHAR_CLASS "char" [Z.of_nat (length s) + 1; 1] false false (s ++ [0]) [] [].

(** The state after [makeCharArray(s)] has built its array in the object
    at [array]. *)
Definition made st array s : State Runtime :=
  mkState (<[array := mkArray (next (world st))]> (objects st))
          (mkRuntime (<[next (world st) := column s]> (heap (world st)))
                     (next (world st) + 16) (variables (world st))
                     (out_of_memory (world st)))
          (calls st ++ [C_mxCreateCharArray [Z.of_nat (length s) + 1] (next (world st));
                        Query F_mxGetData (next (world st))]).

End ReferenceVocabulary.

Section LedgerVocabulary.
Context {W : Type} `{!MxApi W}.

Implicit Types (st : State W) (this other : addr) (src p : ptr).

Definition nonnull p : list ptr := if p =? nullptr then [] else [p].

(** The pointer a constructor takes over without duplicating: the raw
    pointer it adopts, or what it moves out of [other]. *)
Definition ctor_taken st (c : Ctor) : list ptr :=
  match c with
  | ctor_adopt array => nonnull array
  | ctor_move other => nonnull (mx_Array.field st other)
  | _ => []
  end.

(** The pointer a step moves into the object at [this]. *)
Definition step_taken st this (s : Step) : list ptr :=
  match s with
  | assign_move other =>
    if decide (this = other) then [] else nonnull (mx_Array.field st other)
  | _ => []
  end.

(** The pointer a step hands out to the caller. *)
Definition step_given st this (s : Step) : list ptr :=
  match s with
  | call_release => held st this
  | _ => []
  end.

Fixpoint taken this (l : list Step) st : list ptr :=
  match l with
  | [] => []
  | s :: l' => step_taken st this s ++ taken this l' (run_step this s st).2
  end.

Fixpoint given this (l : list Step) st : list ptr :=
  match l with
  | [] => []
  | s :: l' => step_given st this s ++ given this l' (run_step this s st).2
  end.

End LedgerVocabulary.

Section ProgramVocabulary.
Context {W : Type} `{!MxApi W}.

(** A program over several [Array] objects: each operation with the
    object it is applied to; what an operation throws is caught. *)
Fixpoint run_program (prog : list (addr * Op)) : M W unit :=
  match prog with
  | [] => ret tt
  | (this, o) :: prog' => attempt (run_op this o) ;; run_program prog'
  end.

(** The operations that only pass pointers on: default and move
    construction, move assignment, [release()] and destruction. *)
Definition transfer_op (o : Op) : bool :=
  match o with
  | op_construct ctor_default | op_construct (ctor_move _)
  | op_step (assign_move _) | op_step call_release | op_destruct => true
  | _ => false
  end.

End ProgramVocabulary.

Section ReferenceVocabulary2.
Import Ref Ref2.

Implicit Types (st : State Runtime) (array : addr).

(** What [makeCharArray(std::string_view)] leaves in the heap for the
    string [s]: the row of its characters. *)
Definition row_of (s : string) : mxArrayData :=
  mkData mxCHAR_CLASS "char" [1; Z.of_nat (length (units_of_string s))]
         false false (units_of_string s) [] [].

(** The state after the array of [makeCharArray(s)] has been constructed
    in the object at [array]. *)
Definition made_str st array (s : string) : State Runtime :=
  mkState (<[array := mkArray (next (world st))]> (objects st))
          (mkRuntime (<[next (world st) := row_of s]> (heap (world st)))
                     (next (world st) + 16) (variables (world st))
                     (out_of_memory (world st)))
          (calls st).

(** The runtime after [mexPutVariable] has stored a copy of [d] under
    [name] in [workspace]. *)
Definition stored (rt : Runtime) (workspace : mex.Workspace) (name : string)
    (d : mxArrayData) : Runtime :=
  mkRuntime (<[next rt := d]> (heap rt)) (next rt + 16)
            ((mex.getWorkspaceName workspace, name, next rt) :: variables rt)
            (out_of_memory rt).

End ReferenceVocabulary2.

(** * Properties *)

(** ** Introspection forwards to the native library *)

Section Introspection.
Context {W : Type} `{!MxApi W}.

Lemma checkValid_run (st : State W) (this : addr) (id : string) :
  mx_Array.checkValid this id st =
    if mx_Array.field st this =? nullptr
    then (Thrown (Exception2 id "accessing invalid array"), st)
    else (Returned tt, st).
Proof.
  unfold mx_Array.checkValid, mx_Array.isValid, mx_Array.get, bind, ret, throw.
  simpl. destruct (mx_Array.field st this =? nullptr); reflexivity.
Qed.

Lemma forwards_intro {A} (name : string) (f : MxFun) (sem : W → ptr → A) :
  forwards (λ this, mx_Array.checkValid this ("matlabw:mx:Array:" +:+ name) ;;
                    p <- mx_Array.get this ;; mx_Array.query f sem p)
           name f sem.
Proof.
  intros st this. unfold bind at 1. rewrite checkValid_run.
  destruct (mx_Array.field st this =? nullptr); reflexivity.
Qed.

Lemma getRank_forwards :
  forwards mx_Array.getRank "getRank" F_mxGetNumberOfDimensions mxGetNumberOfDimensions.
Proof. exact (forwards_intro _ _ _). Qed.

Lemma getDimM_forwards : forwards mx_Array.getDimM "getDimM" F_mxGetM mxGetM.
Proof. exact (forwards_intro _ _ _). Qed.

Lemma getDimN_forwards : forwards mx_Array.getDimN "getDimN" F_mxGetN mxGetN.
Proof. exact (forwards_intro _ _ _). Qed.

Lemma getSize_forwards :
  forwards mx_Array.getSize "getSize" F_mxGetNumberOfElements mxGetNumberOfElements.
Proof. exact (forwards_intro _ _ _). Qed.

Lemma getData_forwards : forwards mx_Array.getData "getData" F_mxGetData mxGetData.
Proof. exact (forwards_intro _ _ _). Qed.

End Introspection.

(** C1 (as amended).  On an [Array] holding a null pointer every
    introspection operation throws the exception of [checkValid], with the
    operation's id and the message "accessing invalid array", and makes no
    native call.  On a valid [Array], [getRank], [getDimM], [getDimN],
    [getSize], [getSizeOfElement], the parameterless [is*] predicates,
    [getClassId], [getClassName] and [getData] make exactly one native call,
    on the held pointer, and return its value; [getDims] makes two,
    [mxGetDimensions] and then [mxGetNumberOfDimensions], and returns the
    view built from both; [isClass(name)] throws "invalid class name" for a
    null [name] and otherwise forwards to [mxIsClass]. *)
Theorem array_introspection_forwards {W : Type} `{!MxApi W} :
  forwards mx_Array.getRank "getRank" F_mxGetNumberOfDimensions mxGetNumberOfDimensions
  ∧ forwards mx_Array.getDimM "getDimM" F_mxGetM mxGetM
  ∧ forwards mx_Array.getDimN "getDimN" F_mxGetN mxGetN
  ∧ forwards mx_Array.getSize "getSize" F_mxGetNumberOfElements mxGetNumberOfElements
  ∧ forwards mx_Array.getSizeOfElement "getSizeOfElement" F_mxGetElementSize mxGetElementSize
  ∧ forwards mx_Array.isNumeric "isNumeric" F_mxIsNumeric mxIsNumeric
  ∧ forwards mx_Array.isComplex "isComplex" F_mxIsComplex mxIsComplex
  ∧ forwards mx_Array.isEmpty "isEmpty" F_mxIsEmpty mxIsEmpty
  ∧ forwards mx_Array.isScalar "isScalar" F_mxIsScalar mxIsScalar
  ∧ forwards mx_Array.isDouble "isDouble" F_mxIsDouble mxIsDouble
  ∧ forwards mx_Array.isSingle "isSingle" F_mxIsSingle mxIsSingle
  ∧ forwards mx_Array.isInt8 "isInt8" F_mxIsInt8 mxIsInt8
  ∧ forwards mx_Array.isUint8 "isUint8" F_mxIsUint8 mxIsUint8
  ∧ forwards mx_Array.isInt16 "isInt16" F_mxIsInt16 mxIsInt16
  ∧ forwards mx_Array.isUint16 "isUint16" F_mxIsUint16 mxIsUint16
  ∧ forwards mx_Array.isInt32 "isInt32" F_mxIsInt32 mxIsInt32
  ∧ forwards mx_Array.isUint32 "isUint32" F_mxIsUint32 mxIsUint32
  ∧ forwards mx_Array.isInt64 "isInt64" F_mxIsInt64 mxIsInt64
  ∧ forwards mx_Array.isUint64 "isUint64" F_mxIsUint64 mxIsUint64
  ∧ forwards mx_Array.isSparse "isSparse" F_mxIsSparse mxIsSparse
  ∧ forwards mx_Array.isChar "isChar" F_mxIsChar mxIsChar
  ∧ forwards mx_Array.isLogical "isLogical" F_mxIsLogical mxIsLogical
  ∧ forwards mx_Array.isLogicalScalar "isLogicalScalar" F_mxIsLogicalScalar mxIsLogicalScalar
  ∧ forwards mx_Array.isLogicalScalarTrue "isLogicalScalarTrue"
             F_mxIsLogicalScalarTrue mxIsLogicalScalarTrue
  ∧ forwards mx_Array.isStruct "isStruct" F_mxIsStruct mxIsStruct
  ∧ forwards mx_Array.isCell "isCell" F_mxIsCell mxIsCell
  ∧ forwards mx_Array.getClassId "getClassId" F_mxGetClassID mxGetClassID
  ∧ forwards mx_Array.getClassName "getClassName" F_mxGetClassName mxGetClassName
  ∧ forwards mx_Array.getData "getData" F_mxGetData mxGetData
  ∧ (∀ (st : State W) (this : addr),
       let p := mx_Array.field st this in
       mx_Array.getDims this st =
         if p =? nullptr
         then (Thrown (Exception2 "matlabw:mx:Array:getDims" "accessing invalid array"), st)
         else (Returned (mkView (mxGetDimensions (world st) p)
                                (mxGetNumberOfDimensions (world st) p)),
               log (Query F_mxGetNumberOfDimensions p)
                   (log (Query F_mxGetDimensions p) st)))
  ∧ (∀ (st : State W) (this : addr) (name : c_str),
       let p := mx_Array.field st this in
       mx_Array.isClass this name st =
         if p =? nullptr
         then (Thrown (Exception2 "matlabw:mx:Array:isClass" "accessing invalid array"), st)
         else match name with
              | None => (Thrown (Exception1 "invalid class name"), st)
              | Some n => (Returned (mxIsClass (world st) p n), log (C_mxIsClass p n) st)
              end).
Proof.
  repeat match goal with |- _ ∧ _ => split end;
    try exact (forwards_intro _ _ _).
  - intros st this p. unfold mx_Array.getDims.
    unfold bind at 1. rewrite checkValid_run. subst p.
    destruct (mx_Array.field st this =? nullptr) eqn:E; [reflexivity|].
    unfold bind, mx_Array.get, mx_Array.query, native. cbn [fst snd].
    unfold mx_Array.getRank, bind. rewrite checkValid_run.
    unfold mx_Array.field, log in *. cbn [objects world calls].
    rewrite E. reflexivity.
  - intros st this name p. unfold mx_Array.isClass.
    unfold bind at 1. rewrite checkValid_run. subst p.
    destruct (mx_Array.field st this =? nullptr); [reflexivity|].
    destruct name; reflexivity.
Qed.

(** C1, the claim as stated fails.  The [Array] at address 1 of
    [Ref.state] is valid, yet [isClass] with a null name throws instead of
    returning the value of [mxIsClass], and [getDims] makes two native calls
    rather than one. *)
Lemma array_isClass_null_name_throws :
  (mx_Array.isValid 1%positive (Ref.state false)).1 = Returned true
  ∧ (mx_Array.isClass 1%positive None (Ref.state false)).1
    = Thrown (Exception1 "invalid class name")
  ∧ calls (mx_Array.getDims 1%positive (Ref.state false)).2
    = [Query F_mxGetDimensions 16; Query F_mxGetNumberOfDimensions 16].
Proof. repeat split; vm_compute; reflexivity. Qed.

(** ** Ownership: what each operation of [Array] does *)

Section Ownership.
Context {W : Type} `{!MxApi W}.

Implicit Types (st : State W) (this other : addr) (src p : ptr).

Lemma field_holding st this other p :
  mx_Array.field (holding st this p) other
  = if decide (this = other) then p else mx_Array.field st other.
Proof.
  unfold mx_Array.field, holding. cbn [objects].
  rewrite lookup_insert. destruct (decide (this = other)); reflexivity.
Qed.

Lemma field_destroyed st this other :
  mx_Array.field (destroyed st this) other
  = if decide (this = other) then nullptr else mx_Array.field st other.
Proof.
  unfold mx_Array.field, destroyed. cbn [objects].
  rewrite lookup_insert. destruct (decide (this = other)); reflexivity.
Qed.

Lemma field_duplicated st src other :
  mx_Array.field (duplicated st src) other = mx_Array.field st other.
Proof. reflexivity. Qed.

Lemma release_run st this :
  mx_Array.release this st = (Returned (mx_Array.field st this), holding st this nullptr).
Proof. reflexivity. Qed.

Lemma destroy_run st this :
  mx_Array.destroy this st = (Returned tt, destroyed st this).
Proof. reflexivity. Qed.

Lemma duplicateArray_run st src :
  mx_Array.duplicateArray src st =
    if src =? nullptr then (Returned nullptr, st)
    else if (mxDuplicateArray (world st) src).1 =? nullptr
         then (Thrown (Exception1 "failed to duplicate array"), duplicated st src)
         else (Returned (mxDuplicateArray (world st) src).1, duplicated st src).
Proof.
  unfold mx_Array.duplicateArray, duplicated, bind, native_upd, ret, throw.
  destruct (src =? nullptr); [reflexivity|]. cbn [negb].
  destruct (mxDuplicateArray (world st) src) as [q w]. cbn [fst snd].
  destruct (q =? nullptr); reflexivity.
Qed.

Lemma dtor_run st this :
  mx_Array.Array_dtor this st =
    (Returned tt,
     mkState (delete this (objects st))
             (mxDestroyArray (world st) (mx_Array.field st this))
             (calls st ++ [C_mxDestroyArray (mx_Array.field st this)])).
Proof.
  unfold mx_Array.Array_dtor, bind. rewrite destroy_run.
  unfold destroyed. cbn [objects world calls].
  by rewrite delete_insert_eq.
Qed.

Lemma holding_destroyed_null st this :
  holding (destroyed st this) this nullptr = destroyed st this.
Proof.
  unfold holding, destroyed. cbn [objects world calls].
  by rewrite insert_insert_eq.
Qed.

Lemma construct_copy_ref_run st this src :
  mx_Array.construct this (mx_Array.Array_copy_ref (mkArrayRef src)) st
  = copy_run st this src.
Proof.
  unfold mx_Array.construct, mx_Array.Array_copy_ref, mx_Array.Array_adopt, bind, copy_run.
  rewrite duplicateArray_run. cbn [ref_get].
  destruct (src =? nullptr); [reflexivity|].
  destruct (_ =? nullptr); reflexivity.
Qed.

Lemma construct_copy_cref_run st this src :
  mx_Array.construct this (mx_Array.Array_copy_cref (mkArrayCref src)) st
  = copy_run st this src.
Proof.
  unfold mx_Array.construct, mx_Array.Array_copy_cref, mx_Array.Array_adopt, bind, copy_run.
  rewrite duplicateArray_run. cbn [cref_get].
  destruct (src =? nullptr); [reflexivity|].
  destruct (_ =? nullptr); reflexivity.
Qed.

Lemma construct_copy_run st this other :
  mx_Array.construct this (mx_Array.Array_copy other) st
  = copy_run st this (mx_Array.field st other).
Proof.
  unfold mx_Array.construct, mx_Array.Array_copy, mx_Array.Array_adopt, bind, copy_run.
  unfold mx_Array.get at 1. rewrite duplicateArray_run.
  destruct (mx_Array.field st other =? nullptr); [reflexivity|].
  destruct (_ =? nullptr); reflexivity.
Qed.

Lemma assign_ptr_run st this src :
  (a <- mx_Array.get this ;;
   if negb (a =? src) then
     mx_Array.destroy this ;;
     p <- mx_Array.duplicateArray src ;; mx_Array.set_mArray this p
   else ret tt) st
  = assign_run st this src.
Proof.
  unfold bind at 1. unfold mx_Array.get at 1. unfold assign_run.
  destruct (mx_Array.field st this =? src); [reflexivity|]. cbn [negb].
  unfold bind. rewrite destroy_run, duplicateArray_run.
  destruct (src =? nullptr).
  - unfold mx_Array.set_mArray. f_equal. apply holding_destroyed_null.
  - destruct (_ =? nullptr); reflexivity.
Qed.

Lemma operator_assign_ref_run st this src :
  mx_Array.operator_assign_ref this (mkArrayRef src) st = assign_run st this src.
Proof. apply assign_ptr_run. Qed.

Lemma operator_assign_cref_run st this src :
  mx_Array.operator_assign_cref this (mkArrayCref src) st = assign_run st this src.
Proof. apply assign_ptr_run. Qed.

Lemma operator_assign_run st this other :
  mx_Array.operator_assign this other st
  = assign_run st this (mx_Array.field st other).
Proof.
  rewrite <- assign_ptr_run.
  unfold mx_Array.operator_assign, bind, mx_Array.get.
  destruct (mx_Array.field st this =? mx_Array.field st other) eqn:E; [reflexivity|].
  cbn [negb]. rewrite destroy_run, field_destroyed.
  destruct (decide (this = other)) as [->|]; [|reflexivity].
  rewrite Z.eqb_refl in E. discriminate.
Qed.

(** Move assignment. *)
Lemma operator_assign_move_run st this other :
  mx_Array.operator_assign_move this other st =
    if decide (this = other) then (Returned tt, st)
    else (Returned tt,
          holding (holding (destroyed st this) other nullptr) this
                  (mx_Array.field st other)).
Proof.
  unfold mx_Array.operator_assign_move.
  destruct (decide (this = other)) as [->|Hne].
  - rewrite bool_decide_eq_true_2; done.
  - rewrite bool_decide_eq_false_2 by done. cbn [negb].
    unfold bind. rewrite destroy_run, release_run, field_destroyed.
    destruct (decide (this = other)); done.
Qed.

End Ownership.

(** ** Lifetimes of an [Array] object *)

Section Lifetime.
Context {W : Type} `{!MxApi W}.

Implicit Types (st : State W) (this other : addr) (src p : ptr).

Lemma ctor_copy_run st this (s : Source) :
  mx_Array.construct this (run_ctor (ctor_copy s)) st
  = copy_run st this (source_ptr st s).
Proof.
  destruct s as [other|[src]|[src]]; cbn [run_ctor source_ptr ref_get cref_get].
  - apply construct_copy_run.
  - apply construct_copy_ref_run.
  - apply construct_copy_cref_run.
Qed.

Lemma assign_copy_run st this (s : Source) :
  run_step this (assign_copy s) st = assign_run st this (source_ptr st s).
Proof.
  destruct s as [other|[src]|[src]]; cbn [run_step source_ptr ref_get cref_get].
  - apply operator_assign_run.
  - apply operator_assign_ref_run.
  - apply operator_assign_cref_run.
Qed.

Lemma duplicates_app t1 t2 : duplicates (t1 ++ t2) = duplicates t1 ++ duplicates t2.
Proof. apply omap_app. Qed.

Lemma destroys_app t1 t2 : destroys (t1 ++ t2) = destroys t1 ++ destroys t2.
Proof. apply omap_app. Qed.

Lemma held_holding st this p :
  held (holding st this p) this = if p =? nullptr then [] else [p].
Proof. unfold held. rewrite field_holding. by destruct (decide (this = this)). Qed.

Lemma held_destroyed st this : held (destroyed st this) this = [].
Proof. unfold held. rewrite field_destroyed. by destruct (decide (this = this)). Qed.

Lemma destroys_held st this :
  destroys [C_mxDestroyArray (mx_Array.field st this)] = held st this.
Proof.
  unfold destroys, held. cbn. by destruct (mx_Array.field st this =? nullptr).
Qed.

(** One copy assignment, whether it returns or throws, destroys what the
    object held and leaves it holding what it duplicated. *)
Lemma assign_run_trace st this src :
  ∃ t, calls (assign_run st this src).2 = calls st ++ t
       ∧ held st this ++ duplicates t
         = destroys t ++ held (assign_run st this src).2 this.
Proof.
  unfold assign_run.
  destruct (mx_Array.field st this =? src).
  { exists []. cbn [snd]. split; [by rewrite app_nil_r|].
    cbn. by rewrite app_nil_r. }
  destruct (src =? nullptr).
  { exists [C_mxDestroyArray (mx_Array.field st this)]. cbn [snd].
    split; [reflexivity|].
    rewrite held_destroyed, destroys_held. reflexivity. }
  set (q := (mxDuplicateArray (world (destroyed st this)) src).1).
  assert (Hcalls : ∀ o, calls (holding (duplicated (destroyed st this) src) this o)
                        = calls st ++ [C_mxDestroyArray (mx_Array.field st this);
                                       C_mxDuplicateArray src q]).
  { intros o. unfold holding, duplicated, destroyed. cbn [calls].
    by rewrite <- app_assoc. }
  exists [C_mxDestroyArray (mx_Array.field st this); C_mxDuplicateArray src q].
  change [C_mxDestroyArray (mx_Array.field st this); C_mxDuplicateArray src q]
    with ([C_mxDestroyArray (mx_Array.field st this)] ++ [C_mxDuplicateArray src q]).
  rewrite duplicates_app, destroys_app, destroys_held.
  destruct (q =? nullptr) eqn:E; cbn [snd].
  - split; [exact (Hcalls nullptr)|].
    change (held (duplicated (destroyed st this) src) this)
      with (held (destroyed st this) this).
    rewrite held_destroyed. clearbody q.
    unfold duplicates, destroys. cbn. rewrite E. by rewrite !app_nil_r.
  - split; [exact (Hcalls q)|].
    rewrite held_holding, E. clearbody q.
    unfold duplicates, destroys. cbn. rewrite E. by rewrite !app_nil_r.
Qed.

Lemma copy_steps_trace (l : list Step) st this :
  forallb copy_step l = true →
  ∃ t, calls (run_steps this l st).2 = calls st ++ t
       ∧ held st this ++ duplicates t
         = destroys t ++ held (run_steps this l st).2 this.
Proof.
  revert st. induction l as [|s l IH]; intros st Hl.
  - exists []. cbn [run_steps ret snd]. split; [by rewrite app_nil_r|].
    cbn. by rewrite app_nil_r.
  - cbn [forallb] in Hl. apply andb_prop in Hl as [Hs Hl].
    destruct s as [src| |]; try discriminate.
    cbn [run_steps]. unfold bind, attempt. rewrite assign_copy_run.
    destruct (assign_run_trace st this (source_ptr st src)) as (t1 & Hc1 & Hp1).
    set (st1 := (assign_run st this (source_ptr st src)).2) in *.
    destruct (IH st1 Hl) as (t2 & Hc2 & Hp2).
    exists (t1 ++ t2). split.
    + rewrite Hc2, Hc1. by rewrite app_assoc.
    + rewrite duplicates_app, destroys_app.
      rewrite app_assoc, Hp1, <- app_assoc, Hp2. by rewrite app_assoc.
Qed.

Lemma run_steps_returns (l : list Step) st this :
  (run_steps this l st).1 = Returned tt.
Proof.
  revert st. induction l as [|s l IH]; intros st; [reflexivity|].
  cbn [run_steps]. unfold bind, attempt. apply IH.
Qed.

(** From a state whose calls so far pair up to the array the object
    holds, the rest of a copy-only lifetime ends with all of them paired. *)
Lemma lifetime_tail (l : list Step) st0 this (start t0 : list Call) :
  forallb copy_step l = true →
  calls st0 = start ++ t0 →
  duplicates t0 = destroys t0 ++ held st0 this →
  ∃ t, calls ((run_steps this l ;; mx_Array.Array_dtor this) st0).2 = start ++ t
       ∧ duplicates t = destroys t.
Proof.
  intros Hl Hc0 Hd0.
  destruct (copy_steps_trace l st0 this Hl) as (t1 & Hc1 & Hp1).
  pose proof (run_steps_returns l st0 this) as Hret.
  unfold bind. destruct (run_steps this l st0) as [o st1].
  cbn [fst snd] in *. subst o. rewrite dtor_run. cbn [snd calls].
  exists (t0 ++ t1 ++ [C_mxDestroyArray (mx_Array.field st1 this)]). split.
  - rewrite Hc1, Hc0. by rewrite <- !app_assoc.
  - rewrite !duplicates_app, !destroys_app, destroys_held.
    rewrite Hd0, <- !app_assoc. f_equal.
    change (duplicates [C_mxDestroyArray (mx_Array.field st1 this)]) with (@nil ptr).
    rewrite app_nil_r, Hp1. reflexivity.
Qed.

End Lifetime.

(** ** Duplicate and destroy over a lifetime *)

(** C2 (as amended).  Copy construction and copy assignment, from an
    [Array], an [ArrayRef] or an [ArrayCref], take ownership through
    [mxDuplicateArray] on the source pointer when it is non-null ([copy_run],
    [assign_run]: assignment does nothing when the source pointer is the held
    one, and destroys the held array first otherwise) and throw "failed to
    duplicate array" when the duplicate is null; the destructor always calls
    [mxDestroyArray] on the held pointer.  Over a lifetime made of default or
    copy construction, copy assignments and destruction, the pointers handed
    out by [mxDuplicateArray] are exactly the non-null pointers given to
    [mxDestroyArray], in the same order: each is destroyed once. *)
Theorem copy_lifetime_pairs_duplicate_destroy {W : Type} `{!MxApi W} :
  (∀ (st : State W) (this : addr) (s : Source),
     mx_Array.construct this (run_ctor (ctor_copy s)) st
     = copy_run st this (source_ptr st s))
  ∧ (∀ (st : State W) (this : addr) (s : Source),
       run_step this (assign_copy s) st = assign_run st this (source_ptr st s))
  ∧ (∀ (st : State W) (this : addr),
       mx_Array.Array_dtor this st =
         (Returned tt,
          mkState (delete this (objects st))
                  (mxDestroyArray (world st) (mx_Array.field st this))
                  (calls st ++ [C_mxDestroyArray (mx_Array.field st this)])))
  ∧ (∀ (st : State W) (this : addr) (c : Ctor) (l : list Step),
       copy_only c l = true →
       ∃ t, calls (lifetime this c l st).2 = calls st ++ t
            ∧ duplicates t = destroys t).
Proof.
  split; [exact ctor_copy_run|]. split; [exact assign_copy_run|].
  split; [exact dtor_run|].
  intros st this c l Hc. unfold copy_only in Hc.
  apply andb_prop in Hc as [Hc Hl]. unfold lifetime. unfold bind at 1.
  destruct c as [| |s|]; try discriminate.
  - change (mx_Array.construct this (run_ctor ctor_default) st)
      with (Returned tt, holding st this nullptr).
    apply (lifetime_tail l _ this (calls st) []); [done|by rewrite app_nil_r|].
    by rewrite held_holding.
  - rewrite ctor_copy_run. unfold copy_run.
    set (src := source_ptr st s).
    destruct (src =? nullptr).
    { apply (lifetime_tail l _ this (calls st) []); [done|by rewrite app_nil_r|].
      by rewrite held_holding. }
    set (q := (mxDuplicateArray (world st) src).1).
    destruct (q =? nullptr) eqn:E.
    + exists [C_mxDuplicateArray src q]. split; [reflexivity|].
      clearbody q. unfold duplicates, destroys. cbn. by rewrite E.
    + apply (lifetime_tail l _ this (calls st) [C_mxDuplicateArray src q]);
        [done|reflexivity|].
      rewrite held_holding, E. clearbody q.
      unfold duplicates, destroys. cbn. by rewrite E.
Qed.

(** A copy-only lifetime on the reference runtime: a copy of the array of
    object 1, assigned from a reference and from the empty object 3. *)
Lemma copy_lifetime_pairs_witness :
  copy_only (ctor_copy (from_Array 1%positive))
            [assign_copy (from_ArrayRef (mkArrayRef 32));
             assign_copy (from_Array 3%positive)] = true
  ∧ ∃ t, calls (lifetime 5%positive (ctor_copy (from_Array 1%positive))
                  [assign_copy (from_ArrayRef (mkArrayRef 32));
                   assign_copy (from_Array 3%positive)] (Ref.state false)).2
         = calls (Ref.state false) ++ t
         ∧ duplicates t = destroys t.
Proof.
  split; [reflexivity|].
  apply (proj2 (proj2 (proj2 copy_lifetime_pairs_duplicate_destroy))).
  reflexivity.
Defined.

(** C2, the claim as stated fails: calls do not pair over every lifetime.
    An [Array] that adopts the raw pointer 32 destroys it without any
    duplicate, and an [Array] that copies and is then released duplicates
    once and destroys only the null pointer. *)
Lemma adopt_and_release_lifetimes_unpaired :
  calls (lifetime 5%positive (ctor_adopt 32) [] (Ref.state false)).2
  = [C_mxDestroyArray 32]
  ∧ calls (lifetime 5%positive (ctor_copy (from_Array 1%positive)) [call_release]
             (Ref.state false)).2
    = [C_mxDuplicateArray 16 64; C_mxDestroyArray nullptr].
Proof. split; vm_compute; reflexivity. Qed.

(** ** Copy assignment that throws *)

(** C8 (as amended).  Copy assignment destroys before it duplicates: when
    [operator=] (from an [Array], an [ArrayRef] or an [ArrayCref]) throws, the
    exception is "failed to duplicate array", the array the target held has
    already been given to [mxDestroyArray], and the target is left holding
    the null pointer; the other objects keep their pointers. *)
Theorem failed_copy_assignment_empties_target {W : Type} `{!MxApi W}
    (st st' : State W) (this : addr) (s : Source) (e : Exception) :
  run_step this (assign_copy s) st = (Thrown e, st') →
  e = Exception1 "failed to duplicate array"
  ∧ mx_Array.field st this ≠ source_ptr st s
  ∧ mx_Array.field st' this = nullptr
  ∧ calls st' = calls st ++ [C_mxDestroyArray (mx_Array.field st this);
                             C_mxDuplicateArray (source_ptr st s) nullptr]
  ∧ ∀ other : addr, other ≠ this → mx_Array.field st' other = mx_Array.field st other.
Proof.
  rewrite assign_copy_run. unfold assign_run.
  set (src := source_ptr st s).
  destruct (mx_Array.field st this =? src) eqn:Heq; [discriminate|].
  destruct (src =? nullptr); [discriminate|].
  destruct (_ =? nullptr) eqn:E; [|discriminate].
  intros [= <- <-]. apply Z.eqb_neq in Heq. apply Z.eqb_eq in E.
  split; [reflexivity|]. split; [exact Heq|]. split; [|split].
  - change (mx_Array.field (duplicated (destroyed st this) src) this)
      with (mx_Array.field (destroyed st this) this).
    rewrite field_destroyed. by destruct (decide (this = this)).
  - unfold duplicated. cbn [calls]. rewrite E.
    unfold destroyed. cbn [calls]. by rewrite <- app_assoc.
  - intros other Hne.
    change (mx_Array.field (duplicated (destroyed st this) src) other)
      with (mx_Array.field (destroyed st this) other).
    rewrite field_destroyed. destruct (decide (this = other)); congruence.
Qed.

(** On a runtime that is out of memory, assigning the struct of object 2
    to object 1 throws. *)
Lemma failed_copy_assignment_witness :
  (run_step 1%positive (assign_copy (from_Array 2%positive)) (Ref.state true)).1
  = Thrown (Exception1 "failed to duplicate array")
  ∧ mx_Array.field
      (run_step 1%positive (assign_copy (from_Array 2%positive)) (Ref.state true)).2
      1%positive = nullptr
  ∧ calls (run_step 1%positive (assign_copy (from_Array 2%positive)) (Ref.state true)).2
    = [C_mxDestroyArray 16; C_mxDuplicateArray 48 nullptr].
Proof.
  destruct (failed_copy_assignment_empties_target
              (Ref.state true)
              (run_step 1%positive (assign_copy (from_Array 2%positive)) (Ref.state true)).2
              1%positive (from_Array 2%positive)
              (Exception1 "failed to duplicate array"))
    as (_ & _ & Hfield & Hcalls & _).
  { vm_compute. reflexivity. }
  split; [vm_compute; reflexivity|]. split; [exact Hfield|exact Hcalls].
Defined.

(** C8, the claim as stated fails: object 1 of [Ref.state] owns the array
    at 16; after a copy assignment that throws it no longer owns it, it holds
    the null pointer, and the array has been destroyed. *)
Lemma failed_copy_assignment_not_atomic :
  has_thrown (mx_Array.operator_assign 1%positive 2%positive (Ref.state true)).1 = true
  ∧ mx_Array.field (Ref.state true) 1%positive = 16
  ∧ mx_Array.field
      (mx_Array.operator_assign 1%positive 2%positive (Ref.state true)).2 1%positive
    = nullptr
  ∧ Ref.heap (world (mx_Array.operator_assign 1%positive 2%positive (Ref.state true)).2)
      !! 16 = None.
Proof. repeat split; vm_compute; reflexivity. Qed.

(** ** Exclusive ownership *)

Section Exclusive.
Context {W : Type} `{!MxApi W}.

Implicit Types (st : State W) (this other : addr) (src p : ptr).

Lemma exclusive_update st st' this :
  exclusive st →
  (∀ b, b ≠ this → mx_Array.field st' b = mx_Array.field st b) →
  mx_Array.field st' this = mx_Array.field st this
  ∨ mx_Array.field st' this = nullptr
  ∨ unowned st this (mx_Array.field st' this) →
  exclusive st'.
Proof.
  intros Hex Hsame Hthis a b Ha Hab.
  destruct (decide (a = this)) as [->|Hna], (decide (b = this)) as [->|Hnb];
    [done| | |].
  - rewrite (Hsame b Hnb) in Hab. destruct Hthis as [H|[H|H]].
    + rewrite H in Ha, Hab. by apply Hex.
    + congruence.
    + exfalso. apply (H b Hnb); congruence.
  - rewrite (Hsame a Hna) in Ha, Hab. destruct Hthis as [H|[H|H]].
    + rewrite H in Hab. by apply Hex.
    + congruence.
    + exfalso. apply (H a Hna); congruence.
  - rewrite (Hsame a Hna) in Ha, Hab. rewrite (Hsame b Hnb) in Hab. by apply Hex.
Qed.

Lemma field_holding_ne st this b p :
  b ≠ this → mx_Array.field (holding st this p) b = mx_Array.field st b.
Proof. intros. rewrite field_holding. destruct (decide (this = b)); congruence. Qed.

Lemma field_holding_eq st this p : mx_Array.field (holding st this p) this = p.
Proof. rewrite field_holding. by destruct (decide (this = this)). Qed.

Lemma field_destroyed_ne st this b :
  b ≠ this → mx_Array.field (destroyed st this) b = mx_Array.field st b.
Proof. intros. rewrite field_destroyed. destruct (decide (this = b)); congruence. Qed.

Lemma field_destroyed_eq st this : mx_Array.field (destroyed st this) this = nullptr.
Proof. rewrite field_destroyed. by destruct (decide (this = this)). Qed.

Lemma exclusive_holding_null st this : exclusive st → exclusive (holding st this nullptr).
Proof.
  intros Hex. apply (exclusive_update st _ this Hex).
  - intros b Hb. by apply field_holding_ne.
  - right; left. apply field_holding_eq.
Qed.

Lemma exclusive_destroyed st this : exclusive st → exclusive (destroyed st this).
Proof.
  intros Hex. apply (exclusive_update st _ this Hex).
  - intros b Hb. by apply field_destroyed_ne.
  - right; left. apply field_destroyed_eq.
Qed.

(** Taking over the pointer of [other], which is left null. *)
Lemma exclusive_transfer st this other :
  this ≠ other → exclusive st →
  exclusive (holding (holding st other nullptr) this (mx_Array.field st other)).
Proof.
  intros Hne Hex.
  apply (exclusive_update (holding st other nullptr) _ this).
  - by apply exclusive_holding_null.
  - intros b Hb. by apply field_holding_ne.
  - right; right. rewrite field_holding_eq. intros b Hb Hnz Heq.
    destruct (decide (b = other)) as [->|Hbo].
    + by rewrite field_holding_eq in Hnz.
    + rewrite field_holding_ne in Hnz, Heq by done.
      apply Hbo. by apply Hex.
Qed.

Lemma in_duplicates_last (t : list Call) src q :
  q ≠ nullptr → q ∈ duplicates (t ++ [C_mxDuplicateArray src q]).
Proof.
  intros Hq. rewrite duplicates_app. apply elem_of_app. right.
  unfold duplicates. cbn. apply Z.eqb_neq in Hq. rewrite Hq. apply list_elem_of_singleton.
  reflexivity.
Qed.

Lemma exclusive_copy_run st this src :
  exclusive st →
  (∀ t q, calls (copy_run st this src).2 = calls st ++ t →
          q ∈ duplicates t → unowned st this q) →
  exclusive (copy_run st this src).2.
Proof.
  intros Hex Hfresh. unfold copy_run in *.
  destruct (src =? nullptr); [by apply exclusive_holding_null|].
  destruct (_ =? nullptr) eqn:E; cbn [snd] in *; [exact Hex|].
  apply (exclusive_update st _ this Hex).
  - intros b Hb. by rewrite field_holding_ne.
  - right; right. rewrite field_holding_eq.
    apply (Hfresh [C_mxDuplicateArray src (mxDuplicateArray (world st) src).1]);
      [reflexivity|].
    apply (in_duplicates_last []). by apply Z.eqb_neq.
Qed.

Lemma exclusive_assign_run st this src :
  exclusive st →
  (∀ t q, calls (assign_run st this src).2 = calls st ++ t →
          q ∈ duplicates t → unowned st this q) →
  exclusive (assign_run st this src).2.
Proof.
  intros Hex Hfresh. unfold assign_run in *.
  destruct (mx_Array.field st this =? src); [exact Hex|].
  destruct (src =? nullptr); [by apply exclusive_destroyed|].
  destruct (_ =? nullptr) eqn:E; cbn [snd] in *.
  { by apply exclusive_destroyed. }
  apply (exclusive_update st _ this Hex).
  - intros b Hb. rewrite field_holding_ne by done. by apply field_destroyed_ne.
  - right; right. rewrite field_holding_eq.
    apply (Hfresh [C_mxDestroyArray (mx_Array.field st this);
                   C_mxDuplicateArray src
                     (mxDuplicateArray (world (destroyed st this)) src).1]).
    + unfold holding, duplicated, destroyed. cbn [calls]. by rewrite <- app_assoc.
    + apply (in_duplicates_last [C_mxDestroyArray (mx_Array.field st this)]).
      by apply Z.eqb_neq.
Qed.

Lemma exclusive_run_op st this (o : Op) :
  exclusive st → adopts_unowned st this o → duplicates_fresh st this o →
  exclusive (run_op this o st).2.
Proof.
  intros Hex Hadopt Hfresh. unfold duplicates_fresh in Hfresh.
  destruct o as [[|array|s|other]|[s|other|]|]; cbn [run_op] in *.
  - by apply exclusive_holding_null.
  - change (exclusive (holding st this array)).
    apply (exclusive_update st _ this Hex).
    + intros b Hb. by apply field_holding_ne.
    + right; right. rewrite field_holding_eq. exact Hadopt.
  - rewrite ctor_copy_run in *. by apply exclusive_copy_run.
  - change (exclusive (holding (holding st other nullptr) this (mx_Array.field st other))).
    destruct (decide (this = other)) as [->|Hne]; [|by apply exclusive_transfer].
    apply (exclusive_update st _ other Hex).
    + intros b Hb. by rewrite !field_holding_ne.
    + left. by rewrite field_holding_eq.
  - rewrite assign_copy_run in *. by apply exclusive_assign_run.
  - cbn [run_step]. rewrite operator_assign_move_run.
    destruct (decide (this = other)) as [->|Hne]; [exact Hex|]. cbn [snd].
    assert (mx_Array.field st other = mx_Array.field (destroyed st this) other) as ->.
    { by rewrite field_destroyed_ne. }
    apply exclusive_transfer; [done|]. by apply exclusive_destroyed.
  - by apply exclusive_holding_null.
  - rewrite dtor_run. cbn [snd].
    apply (exclusive_update st _ this Hex).
    + intros b Hb. unfold mx_Array.field. cbn [objects].
      by rewrite lookup_delete_ne.
    + right; left. unfold mx_Array.field. cbn [objects].
      by rewrite lookup_delete_eq.
Qed.

End Exclusive.

(** C9 (as amended).  After move construction from another object, after
    move assignment from another object, and after [release()], the
    moved-from or released [Array] holds the null pointer ([isValid()] is
    false) and the pointer has gone to the new owner, or to the caller, with
    no native call other than the destroy of what the target of a move
    assignment held; a move assignment of an object to itself changes
    nothing.  The destructor of an [Array] that holds null calls
    [mxDestroyArray] on the null pointer only, so the transferred pointer is
    not destroyed by it.  Every operation keeps ownership exclusive (no two
    objects hold the same non-null pointer), as long as a raw pointer given
    to the adopting constructor is not already owned and the duplicates the
    runtime hands out are held by no other object. *)
Theorem moved_from_array_is_null {W : Type} `{!MxApi W} :
  (∀ (st : State W) (this other : addr),
     this ≠ other →
     mx_Array.construct this (mx_Array.Array_move other) st
     = (Returned tt,
        holding (holding st other nullptr) this (mx_Array.field st other))
     ∧ mx_Array.field (mx_Array.construct this (mx_Array.Array_move other) st).2 other
       = nullptr
     ∧ mx_Array.field (mx_Array.construct this (mx_Array.Array_move other) st).2 this
       = mx_Array.field st other)
  ∧ (∀ (st : State W) (this other : addr),
       this ≠ other →
       (mx_Array.operator_assign_move this other st).1 = Returned tt
       ∧ mx_Array.field (mx_Array.operator_assign_move this other st).2 other = nullptr
       ∧ mx_Array.field (mx_Array.operator_assign_move this other st).2 this
         = mx_Array.field st other
       ∧ calls (mx_Array.operator_assign_move this other st).2
         = calls st ++ [C_mxDestroyArray (mx_Array.field st this)])
  ∧ (∀ (st : State W) (this : addr),
       mx_Array.operator_assign_move this this st = (Returned tt, st))
  ∧ (∀ (st : State W) (this : addr),
       mx_Array.release this st
       = (Returned (mx_Array.field st this), holding st this nullptr)
       ∧ mx_Array.field (mx_Array.release this st).2 this = nullptr)
  ∧ (∀ (st : State W) (this : addr),
       mx_Array.field st this = nullptr →
       mx_Array.isValid this st = (Returned false, st)
       ∧ calls (mx_Array.Array_dtor this st).2 = calls st ++ [C_mxDestroyArray nullptr])
  ∧ (∀ (st : State W) (this : addr) (o : Op),
       exclusive st → adopts_unowned st this o → duplicates_fresh st this o →
       exclusive (run_op this o st).2).
Proof.
  repeat match goal with |- _ ∧ _ => split end.
  - intros st this other Hne. split; [reflexivity|].
    change (mx_Array.construct this (mx_Array.Array_move other) st).2
      with (holding (holding st other nullptr) this (mx_Array.field st other)).
    split; [|apply field_holding_eq].
    rewrite field_holding_ne by done. apply field_holding_eq.
  - intros st this other Hne. rewrite operator_assign_move_run.
    destruct (decide (this = other)); [done|]. cbn [fst snd].
    split; [reflexivity|]. split; [|split].
    + rewrite field_holding_ne by done. apply field_holding_eq.
    + apply field_holding_eq.
    + reflexivity.
  - intros st this. rewrite operator_assign_move_run.
    by destruct (decide (this = this)).
  - intros st this. split; [reflexivity|].
    rewrite release_run. apply field_holding_eq.
  - intros st this Hnull. split.
    + unfold mx_Array.isValid, mx_Array.get, bind, ret. by rewrite Hnull.
    + rewrite dtor_run. cbn [snd calls]. by rewrite Hnull.
  - exact exclusive_run_op.
Qed.

(** In [Ref.state], objects 1 and 2 own distinct arrays and object 3 is
    empty. *)
Lemma ref_state_exclusive (oom : bool) : exclusive (Ref.state oom).
Proof.
  assert (Hf : ∀ a : addr,
    mx_Array.field (Ref.state oom) a
    = if decide (a = 1%positive) then 16
      else if decide (a = 2%positive) then 48 else nullptr).
  { intros a. unfold mx_Array.field, Ref.state. cbn [objects].
    repeat case_decide; subst; simplify_map_eq; [reflexivity..|].
    destruct (decide (a = 3%positive)); subst; simplify_map_eq; reflexivity. }
  intros a b Ha Hab. rewrite !Hf in *.
  repeat case_decide; subst; done.
Qed.

(** Object 3 of [Ref.state] takes over the array of object 1 by move
    assignment. *)
Lemma moved_from_array_witness :
  mx_Array.field (mx_Array.operator_assign_move 3%positive 1%positive (Ref.state false)).2
    1%positive = nullptr
  ∧ mx_Array.field (mx_Array.operator_assign_move 3%positive 1%positive (Ref.state false)).2
      3%positive = 16
  ∧ calls (mx_Array.operator_assign_move 3%positive 1%positive (Ref.state false)).2
    = [C_mxDestroyArray nullptr]
  ∧ exclusive (run_op 3%positive (op_step (assign_move 1%positive)) (Ref.state false)).2.
Proof.
  destruct (@moved_from_array_is_null Ref.Runtime Ref.api)
    as (_ & Hmove & _ & _ & _ & Hexcl).
  destruct (Hmove (Ref.state false) 3%positive 1%positive ltac:(lia))
    as (_ & Hother & Hthis & Hcalls).
  split; [exact Hother|]. split; [exact Hthis|]. split; [exact Hcalls|].
  apply Hexcl.
  - apply ref_state_exclusive.
  - exact I.
  - intros t q Ht Hq. vm_compute in Ht. subst t. vm_compute in Hq.
    inversion Hq.
Defined.

(** C9, the claim as stated fails: after the move assignment of object 1
    to itself the moved-from object still holds its array, and adopting the
    pointer that object 1 owns makes two valid owners of one array. *)
Lemma self_move_keeps_array_and_adoption_shares :
  mx_Array.isValid 1%positive
    (mx_Array.operator_assign_move 1%positive 1%positive (Ref.state false)).2
  = (Returned true, Ref.state false)
  ∧ mx_Array.field
      (mx_Array.operator_assign_move 1%positive 1%positive (Ref.state false)).2 1%positive
    = 16
  ∧ ¬ exclusive
        (run_op 5%positive (op_construct (ctor_adopt 16)) (Ref.state false)).2.
Proof.
  split; [vm_compute; reflexivity|]. split; [vm_compute; reflexivity|].
  intros Hex. specialize (Hex 1%positive 5%positive).
  assert (1%positive = 5%positive) by (apply Hex; vm_compute; congruence).
  discriminate.
Qed.

(** ** makeObjectArray *)

Section ObjectArray.
Context {W : Type} `{!MxApi W}.

Lemma makeObjectArray_run (st : State W) (srcArray : addr) (className : c_str) :
  mx_ObjectArray.makeObjectArray srcArray className st =
    if mx_Array.field st srcArray =? nullptr
    then (Thrown (Exception1 "invalid source array"), st)
    else match className with
         | None => (Thrown (Exception1 "invalid class name"), st)
         | Some name =>
           if (mxSetClassName (world st) (mx_Array.field st srcArray) name).1 =? 0
           then (Returned (mkArray nullptr), class_named st srcArray name)
           else (Thrown (Exception1 "failed to set class name"),
                 class_named st srcArray name)
         end.
Proof.
  unfold mx_ObjectArray.makeObjectArray, mx_Array.isValid, mx_Array.get, bind, ret, throw.
  destruct (mx_Array.field st srcArray =? nullptr); [reflexivity|]. cbn [negb].
  destruct className as [name|]; [|reflexivity].
  rewrite release_run. unfold native_upd, class_named.
  cbn [world objects calls holding].
  destruct (mxSetClassName (world st) (mx_Array.field st srcArray) name) as [rc w].
  cbn [fst snd]. destruct (rc =? 0); [|reflexivity]. cbn [negb].
  unfold mx_Array.Array_move, bind. rewrite release_run.
  unfold holding, mx_Array.field. cbn [objects world calls fst snd].
  rewrite lookup_insert_eq, insert_insert_eq. reflexivity.
Qed.

End ObjectArray.

(** C3 (what the code does).  [makeObjectArray] throws for an invalid
    source, for a null class name and when [mxSetClassName] reports an error.
    When [mxSetClassName] succeeds the returned [Array] holds the null
    pointer: the source was emptied by [release()] before the class name was
    set, so the move construction of the result finds nothing to take, and
    the struct array, now named, is owned by no object. *)
Theorem makeObjectArray_returns_null_array {W : Type} `{!MxApi W}
    (st : State W) (srcArray : addr) (name : string) :
  mx_Array.field st srcArray ≠ nullptr →
  (mxSetClassName (world st) (mx_Array.field st srcArray) name).1 = 0 →
  (mx_ObjectArray.makeObjectArray srcArray (Some name) st).1 = Returned (mkArray nullptr)
  ∧ mx_Array.field (mx_ObjectArray.makeObjectArray srcArray (Some name) st).2 srcArray
    = nullptr
  ∧ calls (mx_ObjectArray.makeObjectArray srcArray (Some name) st).2
    = calls st ++ [C_mxSetClassName (mx_Array.field st srcArray) name].
Proof.
  intros Hvalid Hrc. rewrite makeObjectArray_run.
  apply Z.eqb_neq in Hvalid. rewrite Hvalid, Hrc. cbn [fst snd Z.eqb].
  split; [reflexivity|]. split; [|reflexivity].
  unfold class_named, mx_Array.field. cbn [objects].
  by rewrite lookup_insert_eq.
Qed.

(** The struct of object 2 in [Ref.state], made an object of class
    [Point]: the result is an invalid [Array], and the struct, whose class
    name is now [Point], is held by no one. *)
Lemma makeObjectArray_witness :
  (mx_ObjectArray.makeObjectArray 2%positive (Some "Point") (Ref.state false)).1
  = Returned (mkArray nullptr)
  ∧ mx_Array.field
      (mx_ObjectArray.makeObjectArray 2%positive (Some "Point") (Ref.state false)).2
      2%positive = nullptr
  ∧ calls (mx_ObjectArray.makeObjectArray 2%positive (Some "Point") (Ref.state false)).2
    = calls (Ref.state false) ++ [C_mxSetClassName 48 "Point"].
Proof.
  apply (makeObjectArray_returns_null_array (Ref.state false) 2%positive "Point").
  - vm_compute. lia.
  - vm_compute. reflexivity.
Defined.

(** ** toAscii *)

Section ToAscii.
Context {W : Type} `{!MxApi W}.

Lemma cref_isSingleString_run (st : State W) (this : ArrayCref) :
  mx_CharArrayCref.isSingleString this st =
    if mxGetNumberOfDimensions (world st) (cref_get this) <=? 2
    then (Returned (mxGetM (world st) (cref_get this) =? 1),
          log (Query F_mxGetM (cref_get this))
              (log (Query F_mxGetNumberOfDimensions (cref_get this)) st))
    else (Returned false, log (Query F_mxGetNumberOfDimensions (cref_get this)) st).
Proof.
  unfold mx_CharArrayCref.isSingleString, mx_ArrayCref.getRank, mx_ArrayCref.getDimM,
    mx_Array.query, native, bind, ret. cbn [world log].
  destruct (_ <=? 2); reflexivity.
Qed.

End ToAscii.

(** C4 (what the code does).  The guard of [toAscii(CharArrayCref)] is
    inverted.  For a single string (rank at most 2 and one row) it throws
    "Input must be a single string." followed by a line feed, after the two
    native queries of [isSingleString].  For any other array it does not
    throw that exception: it goes on to [mxGetString] and returns the string
    or throws "Failed to convert char16_t array to string.". *)
Theorem toAscii_throws_on_single_string {W : Type} `{!MxApi W}
    (st : State W) (array : ArrayCref) :
  (mxGetNumberOfDimensions (world st) (cref_get array) <= 2
   ∧ mxGetM (world st) (cref_get array) = 1 →
   mx_CharArrayCref.toAscii array st
   = (Thrown (Exception2 "matlabw:mx:toAscii" ("Input must be a single string." +:+ LF)),
      log (Query F_mxGetM (cref_get array))
          (log (Query F_mxGetNumberOfDimensions (cref_get array)) st)))
  ∧ (¬ (mxGetNumberOfDimensions (world st) (cref_get array) <= 2
        ∧ mxGetM (world st) (cref_get array) = 1) →
     (mx_CharArrayCref.toAscii array st).1
     = if (mxGetString (world st) (cref_get array)
             (static_cast_size_t
                (char16_length (world st) (mxGetData (world st) (cref_get array)) + 1))).1
          =? 0
       then Returned
              (mxGetString (world st) (cref_get array)
                 (static_cast_size_t
                    (char16_length (world st) (mxGetData (world st) (cref_get array)) + 1))).2
       else Thrown (Exception2 "matlabw:mx:toAscii"
                      ("Failed to convert char16_t array to string." +:+ LF))).
Proof.
  split.
  - intros [Hrank Hm]. unfold mx_CharArrayCref.toAscii, bind.
    rewrite cref_isSingleString_run.
    apply Z.leb_le in Hrank. rewrite Hrank, Hm. reflexivity.
  - intros Hnot. unfold mx_CharArrayCref.toAscii. unfold bind at 1.
    rewrite cref_isSingleString_run.
    assert (Hs : (if mxGetNumberOfDimensions (world st) (cref_get array) <=? 2
                  then mxGetM (world st) (cref_get array) =? 1 else false) = false).
    { destruct (Z.leb_spec (mxGetNumberOfDimensions (world st) (cref_get array)) 2);
        [|reflexivity].
      apply Z.eqb_neq. intros Hm. apply Hnot. by split. }
    destruct (mxGetNumberOfDimensions (world st) (cref_get array) <=? 2);
      rewrite ?Hs;
      unfold bind, mx_ArrayCref.getData, mx_Array.query, native, peek, ret, throw;
      cbn [world log fst snd];
      match goal with
      | |- context [mxGetString ?w ?p ?n] =>
        destruct ((mxGetString w p n).1 =? 0); reflexivity
      end.
Qed.

(** The 1-by-3 char array ['abc'] of [Ref.state] is a single string, and
    [toAscii] throws on it. *)
Lemma toAscii_witness :
  mx_CharArrayCref.isSingleString (mkArrayCref 16) (Ref.state false)
  = (Returned true,
     log (Query F_mxGetM 16) (log (Query F_mxGetNumberOfDimensions 16) (Ref.state false)))
  ∧ mx_CharArrayCref.toAscii (mkArrayCref 16) (Ref.state false)
    = (Thrown (Exception2 "matlabw:mx:toAscii" ("Input must be a single string." +:+ LF)),
       log (Query F_mxGetM 16) (log (Query F_mxGetNumberOfDimensions 16) (Ref.state false))).
Proof.
  split; [vm_compute; reflexivity|].
  apply (proj1 (toAscii_throws_on_single_string (Ref.state false) (mkArrayCref 16))).
  split; vm_compute; [discriminate|reflexivity].
Defined.

(** ** Workspace variables *)

Section WorkspaceVariables.
Context {W : Type} `{!MxApi W}.

Lemma getVariable_run (st : State W) (workspace : mex.Workspace) (name : string) :
  mex.getVariable workspace (Some name) st
  = (if (mexGetVariable (world st) (mex.getWorkspaceName workspace) name).1 =? nullptr
     then (Returned None, looked_up st workspace name)
     else (Returned
             (Some (mkArray
                      (mexGetVariable (world st) (mex.getWorkspaceName workspace) name).1)),
           mkState (objects st)
                   (mxDestroyArray (world (looked_up st workspace name)) nullptr)
                   (calls (looked_up st workspace name) ++ [C_mxDestroyArray nullptr]))).
Proof.
  unfold mex.getVariable, looked_up, native_upd, bind, ret, mx_Array.Array_adopt,
    mx_Array.move_temporary, mx_Array.destroy_temporary.
  destruct (mexGetVariable (world st) (mex.getWorkspaceName workspace) name) as [p w].
  cbn [fst snd]. destruct (p =? nullptr); reflexivity.
Qed.

End WorkspaceVariables.

(** C5.  For every workspace and name, [getVariable] and
    [getVariableCref] throw "invalid variable name" when the name is null
    (and make no native call); otherwise they make the one native lookup
    ([mexGetVariable], [mexGetVariablePtr]) under the workspace's name and
    return [std::nullopt] exactly when it gave the null pointer, and else the
    variable: [getVariable] an [Array] that owns the copy the runtime
    allocated (the emptied temporary it is moved from is destroyed, a call of
    [mxDestroyArray] on the null pointer), [getVariableCref] a reference to
    the runtime's own array. *)
Theorem getVariable_nullopt_iff_native_null {W : Type} `{!MxApi W}
    (st : State W) (workspace : mex.Workspace) :
  mex.getVariable workspace None st
  = (Thrown (Exception1 "invalid variable name"), st)
  ∧ mex.getVariableCref workspace None st
    = (Thrown (Exception1 "invalid variable name"), st)
  ∧ ∀ name : string,
      mex.getVariableCref workspace (Some name) st
      = (Returned
           (if mexGetVariablePtr (world st) (mex.getWorkspaceName workspace) name =? nullptr
            then None
            else Some (mkArrayCref
                         (mexGetVariablePtr (world st) (mex.getWorkspaceName workspace) name))),
         log (C_mexGetVariablePtr (mex.getWorkspaceName workspace) name) st)
      ∧ ((mex.getVariableCref workspace (Some name) st).1 = Returned None
         ↔ mexGetVariablePtr (world st) (mex.getWorkspaceName workspace) name = nullptr)
      ∧ mex.getVariable workspace (Some name) st
        = (if (mexGetVariable (world st) (mex.getWorkspaceName workspace) name).1 =? nullptr
           then (Returned None, looked_up st workspace name)
           else (Returned
                   (Some (mkArray
                            (mexGetVariable (world st)
                               (mex.getWorkspaceName workspace) name).1)),
                 mkState (objects st)
                         (mxDestroyArray (world (looked_up st workspace name)) nullptr)
                         (calls (looked_up st workspace name)
                          ++ [C_mxDestroyArray nullptr])))
      ∧ ((mex.getVariable workspace (Some name) st).1 = Returned None
         ↔ (mexGetVariable (world st) (mex.getWorkspaceName workspace) name).1 = nullptr).
Proof.
  split; [reflexivity|]. split; [reflexivity|]. intros name.
  assert (Hcref : mex.getVariableCref workspace (Some name) st
      = (Returned
           (if mexGetVariablePtr (world st) (mex.getWorkspaceName workspace) name =? nullptr
            then None
            else Some (mkArrayCref
                         (mexGetVariablePtr (world st) (mex.getWorkspaceName workspace) name))),
         log (C_mexGetVariablePtr (mex.getWorkspaceName workspace) name) st)).
  { unfold mex.getVariableCref, native, bind, ret.
    destruct (_ =? nullptr); reflexivity. }
  pose proof (getVariable_run st workspace name) as Hvar.
  split; [exact Hcref|]. split; [|split; [exact Hvar|]].
  - rewrite Hcref. cbn [fst].
    destruct (Z.eqb_spec (mexGetVariablePtr (world st) (mex.getWorkspaceName workspace) name)
                         nullptr); split; intros; congruence.
  - rewrite Hvar.
    destruct (Z.eqb_spec (mexGetVariable (world st) (mex.getWorkspaceName workspace) name).1
                         nullptr); cbn [fst]; split; intros; congruence.
Qed.

(** On the reference runtime the base variable [v] is the array at 16:
    [getVariableCref] refers to it, [getVariable] owns a fresh copy at 64, and
    an unknown name gives [std::nullopt]. *)
Lemma getVariable_witness :
  (mex.getVariableCref mex.base (Some "v") (Ref.state false)).1
  = Returned (Some (mkArrayCref 16))
  ∧ (mex.getVariable mex.base (Some "v") (Ref.state false)).1
    = Returned (Some (mkArray 64))
  ∧ Ref.heap (world (mex.getVariable mex.base (Some "v") (Ref.state false)).2) !! 64
    = Some Ref.abc
  ∧ calls (mex.getVariable mex.base (Some "v") (Ref.state false)).2
    = [C_mexGetVariable "base" "v" 64; C_mxDestroyArray nullptr]
  ∧ (mex.getVariable mex.caller (Some "w") (Ref.state false)).1 = Returned None.
Proof.
  destruct (getVariable_nullopt_iff_native_null (Ref.state false) mex.base)
    as (_ & _ & Hbase).
  destruct (Hbase "v") as (Hcref & _ & Hvar & _).
  destruct (getVariable_nullopt_iff_native_null (Ref.state false) mex.caller)
    as (_ & _ & Hcaller).
  destruct (Hcaller "w") as (_ & _ & _ & Hnone).
  rewrite Hcref, Hvar.
  split; [vm_compute; reflexivity|]. split; [vm_compute; reflexivity|].
  split; [vm_compute; reflexivity|]. split; [vm_compute; reflexivity|].
  apply Hnone. vm_compute. reflexivity.
Defined.

(** C6.  [putVariable] throws "invalid variable name" when the name is
    null, without a native call; otherwise it makes the single call
    [mexPutVariable(workspaceName, name, value.get())], where the workspace
    name is "base" for [Workspace::base], "global" for [Workspace::global]
    and "caller" for [Workspace::caller], throws "failed to put variable"
    when the call returns a non-zero code and returns normally when it
    returns zero. *)
Theorem putVariable_forwards_once {W : Type} `{!MxApi W}
    (st : State W) (workspace : mex.Workspace) (value : ArrayCref) :
  mex.putVariable workspace None value st
  = (Thrown (Exception1 "invalid variable name"), st)
  ∧ (mex.getWorkspaceName mex.base = "base"
     ∧ mex.getWorkspaceName mex.global = "global"
     ∧ mex.getWorkspaceName mex.caller = "caller")
  ∧ ∀ name : string,
      let workspaceName :=
        match workspace with
        | mex.base => "base"
        | mex.global => "global"
        | mex.caller => "caller"
        end in
      mex.putVariable workspace (Some name) value st
      = (if (mexPutVariable (world st) workspaceName name (cref_get value)).1 =? 0
         then Returned tt
         else Thrown (Exception1 "failed to put variable"),
         mkState (objects st)
                 (mexPutVariable (world st) workspaceName name (cref_get value)).2
                 (calls st ++ [C_mexPutVariable workspaceName name (cref_get value)])).
Proof.
  split; [reflexivity|]. split; [by repeat split|].
  intros name workspaceName.
  assert (mex.getWorkspaceName workspace = workspaceName) as Hname
    by by destruct workspace.
  unfold mex.putVariable, native_upd, bind, ret, throw. rewrite Hname.
  destruct (mexPutVariable (world st) workspaceName name (cref_get value)) as [rc w].
  cbn [fst snd]. destruct (rc =? 0); reflexivity.
Qed.

(** Putting the array at 32 into the caller, the base and the global
    workspace of the reference runtime, and failing to when the runtime is
    out of memory. *)
Lemma putVariable_witness :
  (mex.putVariable mex.caller (Some "w") (mkArrayCref 32) (Ref.state false)).1
  = Returned tt
  ∧ calls (mex.putVariable mex.caller (Some "w") (mkArrayCref 32) (Ref.state false)).2
    = [C_mexPutVariable "caller" "w" 32]
  ∧ calls (mex.putVariable mex.base (Some "w") (mkArrayCref 32) (Ref.state false)).2
    = [C_mexPutVariable "base" "w" 32]
  ∧ calls (mex.putVariable mex.global (Some "w") (mkArrayCref 32) (Ref.state false)).2
    = [C_mexPutVariable "global" "w" 32]
  ∧ (mex.putVariable mex.caller (Some "w") (mkArrayCref 32) (Ref.state true)).1
    = Thrown (Exception1 "failed to put variable").
Proof.
  destruct (putVariable_forwards_once (Ref.state false) mex.caller (mkArrayCref 32))
    as (_ & _ & Hput).
  destruct (putVariable_forwards_once (Ref.state false) mex.base (mkArrayCref 32))
    as (_ & _ & Hbase).
  destruct (putVariable_forwards_once (Ref.state false) mex.global (mkArrayCref 32))
    as (_ & _ & Hglobal).
  destruct (putVariable_forwards_once (Ref.state true) mex.caller (mkArrayCref 32))
    as (_ & _ & Hfail).
  rewrite (Hput "w"), (Hbase "w"), (Hglobal "w"), (Hfail "w").
  repeat split; vm_compute; reflexivity.
Defined.

(** ** Struct fields *)

Section StructFields.
Context {W : Type} `{!MxApi W}.

Lemma getField_run (invalid : Z) (st : State W) (this : ArrayRef) (i fieldIndex : Z) :
  mx_StructArrayRef.getField invalid this i fieldIndex st =
    if fieldIndex =? invalid then (Returned None, st)
    else if static_cast_size_t fieldIndex
            >=? static_cast_size_t (mxGetNumberOfFields (world st) (ref_get this))
    then (Thrown (Exception1 "field index out of range"),
          log (Query F_mxGetNumberOfFields (ref_get this)) st)
    else (Returned
            (if mxGetFieldByNumber (world st) (ref_get this) i (static_cast_int fieldIndex)
                =? nullptr
             then None
             else Some (mkArrayRef (mxGetFieldByNumber (world st) (ref_get this) i
                                      (static_cast_int fieldIndex)))),
          log (C_mxGetFieldByNumber (ref_get this) i (static_cast_int fieldIndex))
              (log (Query F_mxGetNumberOfFields (ref_get this)) st)).
Proof.
  unfold mx_StructArrayRef.getField, mx_StructArrayRef.getFieldCount,
    mx_Array.query, native, bind, ret, throw.
  destruct (fieldIndex =? invalid); [reflexivity|]. cbn [world log].
  destruct (_ >=? _); [reflexivity|].
  destruct (_ =? nullptr); reflexivity.
Qed.

Lemma getFieldIndex_run (invalid : Z) (st : State W) (this : ArrayRef) (fieldName : c_str) :
  mx_StructArrayRef.getFieldIndex invalid this fieldName st =
    (Returned (if mxGetFieldNumber (world st) (ref_get this) fieldName =? -1
               then invalid
               else mxGetFieldNumber (world st) (ref_get this) fieldName),
     log (C_mxGetFieldNumber (ref_get this) fieldName) st).
Proof.
  unfold mx_StructArrayRef.getFieldIndex, native, bind, ret.
  destruct (_ =? -1); reflexivity.
Qed.

End StructFields.

(** C7.  For every struct index [i] and field index,
    [StructArrayRef::getField(i, fieldIndex)] returns [std::nullopt] when
    [fieldIndex] is [FieldIndex::invalid], which is what [getFieldIndex]
    gives for a name the native lookup does not find; throws "field index out
    of range" when [fieldIndex] is valid but, as a [std::size_t], not less
    than [getFieldCount()]; and otherwise returns [std::nullopt] when
    [mxGetFieldByNumber] gives the null pointer and a reference to the field
    array when it does not.  This holds whatever number [FieldIndex::invalid]
    has. *)
Theorem getField_nullopt_throw_or_reference {W : Type} `{!MxApi W}
    (invalid : Z) (st : State W) (this : ArrayRef) (i fieldIndex : Z) :
  (fieldIndex = invalid →
   mx_StructArrayRef.getField invalid this i fieldIndex st = (Returned None, st))
  ∧ (fieldIndex ≠ invalid →
     static_cast_size_t fieldIndex
       >= (static_cast_size_t (mxGetNumberOfFields (world st) (ref_get this))) →
     mx_StructArrayRef.getField invalid this i fieldIndex st
     = (Thrown (Exception1 "field index out of range"),
        log (Query F_mxGetNumberOfFields (ref_get this)) st))
  ∧ (fieldIndex ≠ invalid →
     static_cast_size_t fieldIndex
       < static_cast_size_t (mxGetNumberOfFields (world st) (ref_get this)) →
     (mxGetFieldByNumber (world st) (ref_get this) i (static_cast_int fieldIndex) = nullptr →
      (mx_StructArrayRef.getField invalid this i fieldIndex st).1 = Returned None)
     ∧ (mxGetFieldByNumber (world st) (ref_get this) i (static_cast_int fieldIndex) ≠ nullptr →
        (mx_StructArrayRef.getField invalid this i fieldIndex st).1
        = Returned (Some (mkArrayRef (mxGetFieldByNumber (world st) (ref_get this) i
                                        (static_cast_int fieldIndex)))))
     ∧ calls (mx_StructArrayRef.getField invalid this i fieldIndex st).2
       = calls st ++ [Query F_mxGetNumberOfFields (ref_get this);
                      C_mxGetFieldByNumber (ref_get this) i (static_cast_int fieldIndex)])
  ∧ (∀ fieldName : c_str,
       mxGetFieldNumber (world st) (ref_get this) fieldName = -1 →
       (mx_StructArrayRef.getFieldIndex invalid this fieldName st).1 = Returned invalid
       ∧ (mx_StructArrayRef.getField_name invalid this i fieldName st).1 = Returned None).
Proof.
  rewrite getField_run.
  split; [|split; [|split]].
  - intros ->. by rewrite Z.eqb_refl.
  - intros Hne Hge. apply Z.eqb_neq in Hne. rewrite Hne.
    apply Z.ge_le, Z.geb_le in Hge. by rewrite Hge.
  - intros Hne Hlt. apply Z.eqb_neq in Hne. rewrite Hne.
    assert (Hge : (static_cast_size_t fieldIndex
                   >=? static_cast_size_t (mxGetNumberOfFields (world st) (ref_get this)))
                  = false).
    { rewrite Z.geb_leb. apply Z.leb_gt. exact Hlt. }
    rewrite Hge. cbn [fst snd]. split; [|split].
    + intros ->. reflexivity.
    + intros Hnz. apply Z.eqb_neq in Hnz. by rewrite Hnz.
    + unfold log. cbn [calls]. by rewrite <- app_assoc.
  - intros fieldName Hnum.
    unfold mx_StructArrayRef.getField_name, bind.
    rewrite getFieldIndex_run, Hnum, Z.eqb_refl.
    split; [reflexivity|].
    rewrite getField_run. by rewrite Z.eqb_refl.
Qed.

(** The struct [point] of the reference runtime, with
    [FieldIndex::invalid] numbered -1: field 0 is the array at 16, field 1 is
    unset, index 2 is out of range, and the name [z] is not a field. *)
Lemma getField_witness :
  mx_StructArrayRef.getField (-1) (mkArrayRef 48) 0 (-1) (Ref.state false)
  = (Returned None, Ref.state false)
  ∧ mx_StructArrayRef.getField (-1) (mkArrayRef 48) 0 2 (Ref.state false)
    = (Thrown (Exception1 "field index out of range"),
       log (Query F_mxGetNumberOfFields 48) (Ref.state false))
  ∧ (mx_StructArrayRef.getField (-1) (mkArrayRef 48) 0 1 (Ref.state false)).1
    = Returned None
  ∧ (mx_StructArrayRef.getField (-1) (mkArrayRef 48) 0 0 (Ref.state false)).1
    = Returned (Some (mkArrayRef 16))
  ∧ (mx_StructArrayRef.getField_name (-1) (mkArrayRef 48) 0 (Some "z") (Ref.state false)).1
    = Returned None.
Proof.
  destruct (getField_nullopt_throw_or_reference (-1) (Ref.state false) (mkArrayRef 48) 0 (-1))
    as (Hinvalid & _).
  destruct (getField_nullopt_throw_or_reference (-1) (Ref.state false) (mkArrayRef 48) 0 2)
    as (_ & Hrange & _).
  destruct (getField_nullopt_throw_or_reference (-1) (Ref.state false) (mkArrayRef 48) 0 1)
    as (_ & _ & Hunset & _).
  destruct (getField_nullopt_throw_or_reference (-1) (Ref.state false) (mkArrayRef 48) 0 0)
    as (_ & _ & Hset & Hname).
  split; [|split; [|split; [|split]]].
  - apply Hinvalid. reflexivity.
  - apply Hrange; vm_compute; congruence.
  - apply Hunset; vm_compute; congruence.
  - apply Hset; vm_compute; congruence.
  - apply (Hname (Some "z")). vm_compute. reflexivity.
Defined.

(** ** Char arrays made from UTF-16 strings *)

Section CharArrayOnReference.
Import Ref.

Implicit Types (st : State Runtime) (array : addr) (s : list Z).

Lemma store_into_zeros s :
  take (length (replicate (Z.to_nat ((Z.of_nat (length s) + 1) * (1 * 1))) 0))
       (s ++ drop (length s) (replicate (Z.to_nat ((Z.of_nat (length s) + 1) * (1 * 1))) 0))
  = s ++ [0].
Proof.
  replace (Z.to_nat ((Z.of_nat (length s) + 1) * (1 * 1))) with (S (length s)) by lia.
  rewrite length_replicate, drop_replicate.
  replace (S (length s) - length s)%nat with 1%nat by lia.
  apply take_ge. rewrite length_app. cbn. lia.
Qed.

Lemma create_char_run (rt : Runtime) (n : Z) :
  out_of_memory rt = false →
  mxCreateCharArray rt [n]
  = (next rt,
     mkRuntime (<[next rt := mkData mxCHAR_CLASS "char" [n; 1] false false
                               (replicate (Z.to_nat (n * (1 * 1))) 0) [] []]> (heap rt))
               (next rt + 16) (variables rt) (out_of_memory rt)).
Proof.
  intros Hoom. cbn [mxCreateCharArray api]. unfold create_char, alloc.
  by rewrite Hoom.
Qed.

Lemma getData_run st array (d : mxArrayData) :
  mx_Array.field st array ≠ nullptr →
  heap (world st) !! mx_Array.field st array = Some d →
  mx_Array.getData array st
  = (Returned (data_of (mx_Array.field st array)),
     log (Query F_mxGetData (mx_Array.field st array)) st).
Proof.
  intros Hp Hd. rewrite (getData_forwards st array).
  apply Z.eqb_neq in Hp. rewrite Hp.
  cbn [mxGetData api]. unfold on. by rewrite Hd.
Qed.

Lemma makeCharArray_u16_run st array s :
  out_of_memory (world st) = false →
  next (world st) ≠ nullptr →
  Z.of_nat (length s) + 1 < size_max →
  mx_CharArray.makeCharArray_u16 array s st = (Returned tt, made st array s).
Proof.
  intros Hoom Hnext Hlen.
  unfold mx_CharArray.makeCharArray_u16, mx_CharArray.makeCharArray.
  unfold static_cast_size_t. rewrite Z.mod_small by lia.
  unfold bind at 1. unfold mx_Array.construct, bind at 1 2. unfold native_upd.
  rewrite (create_char_run _ _ Hoom).
  pose proof Hnext as Hnz. apply Z.eqb_neq in Hnz. rewrite Hnz.
  unfold mx_Array.Array_adopt, ret. cbn [objects world calls].
  match goal with
  | |- (x <- mx_Array.getData array ;; _) ?st1 = _ => set (created := st1)
  end.
  assert (Hfield : mx_Array.field created array = next (world st)).
  { unfold mx_Array.field, created. cbn [objects]. by rewrite lookup_insert_eq. }
  unfold bind. erewrite getData_run; cycle 1.
  { by rewrite Hfield. }
  { rewrite Hfield. unfold created. cbn [world heap]. apply lookup_insert_eq. }
  rewrite Hfield. unfold poke, made. f_equal.
  cbn [log objects world calls created].
  cbn [store_char16 api]. unfold store, owner_of, data_of.
  replace (next (world st) + 8 - 8) with (next (world st)) by lia.
  cbn [heap]. rewrite lookup_insert_eq.
  unfold update. cbn [heap next variables out_of_memory classID className dims
                      is_complex is_sparse elems fieldNames fieldValues].
  rewrite insert_insert_eq, store_into_zeros, <- app_assoc. reflexivity.
Qed.

Lemma made_field st array s : mx_Array.field (made st array s) array = next (world st).
Proof. unfold mx_Array.field, made. cbn [objects]. by rewrite lookup_insert_eq. Qed.

Lemma made_heap st array s :
  heap (world (made st array s)) !! next (world st) = Some (column s).
Proof. unfold made. cbn [world heap]. apply lookup_insert_eq. Qed.

(** The shape queries on a valid object of the reference runtime. *)
Lemma shape_on_reference st array (d : mxArrayData) :
  mx_Array.field st array ≠ nullptr →
  heap (world st) !! mx_Array.field st array = Some d →
  mx_Array.getRank array st
  = (Returned (Z.of_nat (length (dims d))),
     log (Query F_mxGetNumberOfDimensions (mx_Array.field st array)) st)
  ∧ mx_Array.getDimM array st
    = (Returned (hd 0 (dims d)), log (Query F_mxGetM (mx_Array.field st array)) st)
  ∧ mx_Array.getDimN array st
    = (Returned (fold_right Z.mul 1 (tl (dims d))),
       log (Query F_mxGetN (mx_Array.field st array)) st)
  ∧ mx_Array.getSize array st
    = (Returned (numel d), log (Query F_mxGetNumberOfElements (mx_Array.field st array)) st).
Proof.
  intros Hp Hd. apply Z.eqb_neq in Hp.
  rewrite (getRank_forwards st array), (getDimM_forwards st array),
    (getDimN_forwards st array), (getSize_forwards st array).
  rewrite Hp.
  cbn [mxGetNumberOfDimensions mxGetM mxGetN mxGetNumberOfElements api].
  unfold on. rewrite Hd. cbn [from_option]. done.
Qed.

End CharArrayOnReference.

Section RoundTrip.
Import Ref.

Implicit Types (st : State Runtime) (array : addr) (s : list Z).

Lemma isSingleString_made st array s :
  next (world st) ≠ nullptr →
  mx_CharArray.isSingleString array (made st array s)
  = (Returned (Z.of_nat (length s) + 1 =? 1),
     log (Query F_mxGetM (next (world st)))
         (log (Query F_mxGetNumberOfDimensions (next (world st))) (made st array s))).
Proof.
  intros Hnext. unfold mx_CharArray.isSingleString, bind.
  destruct (shape_on_reference (made st array s) array (column s)) as (-> & _).
  { by rewrite made_field. }
  { rewrite made_field. apply made_heap. }
  rewrite made_field.
  change (Z.of_nat (length (dims (column s))) <=? 2) with true. cbv beta iota.
  match goal with
  | |- context [mx_Array.getDimM array ?st1] =>
    destruct (shape_on_reference st1 array (column s)) as (_ & H & _)
  end.
  { change (mx_Array.field (made st array s) array ≠ nullptr). by rewrite made_field. }
  { change (heap (world (made st array s)) !! mx_Array.field (made st array s) array
            = Some (column s)).
    rewrite made_field. apply made_heap. }
  rewrite H.
  change (mx_Array.field (log (Query F_mxGetNumberOfDimensions (next (world st)))
                              (made st array s)) array)
    with (mx_Array.field (made st array s) array).
  rewrite made_field. reflexivity.
Qed.

Lemma u16string_view_made st array s :
  next (world st) ≠ nullptr →
  (mx_CharArray.operator_u16string_view array (made st array s)).1
  = if Z.of_nat (length s) + 1 =? 1 then Returned [0]
    else Thrown (Exception2 "matlabw:mx:CharArray:operatorU16StringView"
                            "array must be a single string").
Proof.
  intros Hnext. unfold mx_CharArray.operator_u16string_view. unfold bind at 1.
  rewrite (isSingleString_made st array s Hnext).
  destruct (Z.eqb_spec (Z.of_nat (length s) + 1) 1) as [Hlen|Hlen]; [|reflexivity].
  cbn [negb]. assert (s = []) as -> by (destruct s; [done|cbn in Hlen; lia]).
  match goal with
  | |- ((d <- mx_Array.getData array ;; _) ?st1).1 = _ => set (st2 := st1)
  end.
  assert (Hfield : mx_Array.field st2 array = next (world st)) by apply made_field.
  assert (Hheap : heap (world st2) !! next (world st) = Some (column []))
    by apply made_heap.
  unfold bind at 1. erewrite getData_run; [|by rewrite Hfield|by rewrite Hfield].
  unfold bind at 1.
  match goal with
  | |- context [mx_Array.getDimN array ?st3] =>
    destruct (shape_on_reference st3 array (column [])) as (_ & _ & -> & _);
      [change (mx_Array.field st2 array ≠ nullptr); by rewrite Hfield
      |change (heap (world st2) !! mx_Array.field st2 array = Some (column []));
       by rewrite Hfield|]
  end.
  unfold peek. cbn [fst world log load_char16 api]. rewrite Hfield.
  unfold on, owner_of, data_of.
  replace (next (world st) + 8 - 8) with (next (world st)) by lia.
  unfold st2, made. cbn [world heap log]. rewrite lookup_insert_eq. reflexivity.
Qed.

End RoundTrip.

(** C10 (what the code does).  On the reference runtime,
    [makeCharArray(std::u16string_view)] asks for the single dimension
    [s.size() + 1], so the array it returns is a column of [length s + 1]
    rows and one column: its number of elements is [length s + 1], not
    [length s]; it is a single string only when [s] is empty; converting it
    back throws "array must be a single string" for every non-empty [s] and
    gives the one-unit string holding a zero for the empty [s].  The round
    trip gives back [s] for no string at all. *)
Theorem utf16_round_trip_fails (st : State Ref.Runtime) (array : addr) (s : list Z) :
  Ref.out_of_memory (world st) = false →
  Ref.next (world st) ≠ nullptr →
  Z.of_nat (length s) + 1 < size_max →
  mx_CharArray.makeCharArray_u16 array s st = (Returned tt, made st array s)
  ∧ (mx_Array.getSize array (made st array s)).1 = Returned (Z.of_nat (length s) + 1)
  ∧ (mx_Array.getDimM array (made st array s)).1 = Returned (Z.of_nat (length s) + 1)
  ∧ (mx_Array.getDimN array (made st array s)).1 = Returned 1
  ∧ (mx_CharArray.isSingleString array (made st array s)).1
    = Returned (Z.of_nat (length s) + 1 =? 1)
  ∧ (mx_CharArray.operator_u16string_view array (made st array s)).1
    = (if Z.of_nat (length s) + 1 =? 1 then Returned [0]
       else Thrown (Exception2 "matlabw:mx:CharArray:operatorU16StringView"
                               "array must be a single string"))
  ∧ (mx_CharArray.operator_u16string_view array (made st array s)).1 ≠ Returned s.
Proof.
  intros Hoom Hnext Hlen.
  destruct (shape_on_reference (made st array s) array (column s))
    as (_ & HM & HN & Hsize).
  { by rewrite made_field. }
  { rewrite made_field. apply made_heap. }
  split; [by apply makeCharArray_u16_run|].
  split; [rewrite Hsize; cbn; f_equal; lia|].
  split; [by rewrite HM|]. split; [by rewrite HN|].
  split; [by rewrite isSingleString_made|].
  rewrite (u16string_view_made st array s Hnext).
  split; [reflexivity|].
  destruct (Z.eqb_spec (Z.of_nat (length s) + 1) 1) as [Hl|Hl]; [|discriminate].
  intros [= <-]. cbn in Hl. lia.
Qed.

(** The string "hi" on the reference runtime: the array made from it has
    three elements in three rows, is not a single string, and cannot be
    converted back. *)
Lemma utf16_round_trip_witness :
  mx_CharArray.makeCharArray_u16 5%positive [104; 105] (Ref.state false)
  = (Returned tt, made (Ref.state false) 5%positive [104; 105])
  ∧ (mx_Array.getSize 5%positive (made (Ref.state false) 5%positive [104; 105])).1
    = Returned 3
  ∧ (mx_CharArray.isSingleString 5%positive
       (made (Ref.state false) 5%positive [104; 105])).1 = Returned false
  ∧ (mx_CharArray.operator_u16string_view 5%positive
       (made (Ref.state false) 5%positive [104; 105])).1
    = Thrown (Exception2 "matlabw:mx:CharArray:operatorU16StringView"
                         "array must be a single string").
Proof.
  destruct (utf16_round_trip_fails (Ref.state false) 5%positive [104; 105])
    as (Hmade & Hsize & _ & _ & Hsingle & Hview & _).
  - reflexivity.
  - vm_compute. discriminate.
  - vm_compute. reflexivity.
  - split; [exact Hmade|]. split; [exact Hsize|]. split; [exact Hsingle|exact Hview].
Defined.

(** * Further properties *)

(** ** Every pointer an [Array] acquires is destroyed or handed out once *)

Section Ledger.
Context {W : Type} `{!MxApi W}.

Implicit Types (st : State W) (this other : addr) (src p : ptr).

Lemma held_nonnull st this : held st this = nonnull (mx_Array.field st this).
Proof. reflexivity. Qed.

Lemma step_ledger st this (s : Step) :
  ∃ t, calls (run_step this s st).2 = calls st ++ t
       ∧ held st this ++ step_taken st this s ++ duplicates t
         ≡ₚ destroys t ++ step_given st this s ++ held (run_step this s st).2 this.
Proof.
  destruct s as [src|other|].
  - rewrite assign_copy_run.
    destruct (assign_run_trace st this (source_ptr st src)) as (t & Hc & Hp).
    exists t. split; [exact Hc|]. cbn [step_taken step_given app]. by rewrite Hp.
  - cbn [run_step step_taken step_given]. rewrite operator_assign_move_run.
    destruct (decide (this = other)) as [->|Hne]; cbn [snd app].
    + exists []. split; [by rewrite app_nil_r|]. cbn. by rewrite app_nil_r.
    + exists [C_mxDestroyArray (mx_Array.field st this)]. split; [reflexivity|].
      rewrite destroys_held, held_holding.
      change (duplicates [C_mxDestroyArray (mx_Array.field st this)]) with (@nil ptr).
      rewrite app_nil_r. reflexivity.
  - exists []. cbn [run_step step_taken step_given app].
    change ((_ <- mx_Array.release this ;; ret tt) st).2 with (holding st this nullptr).
    split; [by rewrite app_nil_r|].
    rewrite held_holding. cbn. by rewrite !app_nil_r.
Qed.

Lemma steps_ledger (l : list Step) st this :
  ∃ t, calls (run_steps this l st).2 = calls st ++ t
       ∧ held st this ++ taken this l st ++ duplicates t
         ≡ₚ destroys t ++ given this l st ++ held (run_steps this l st).2 this.
Proof.
  revert st. induction l as [|s l IH]; intros st.
  - exists []. cbn [run_steps ret snd taken given app].
    split; [by rewrite app_nil_r|]. cbn. by rewrite app_nil_r.
  - cbn [run_steps taken given]. unfold bind, attempt.
    destruct (step_ledger st this s) as (t1 & Hc1 & Hp1).
    set (st1 := (run_step this s st).2) in *.
    destruct (IH st1) as (t2 & Hc2 & Hp2).
    set (st2 := (run_steps this l st1).2) in *.
    exists (t1 ++ t2). split; [rewrite Hc2, Hc1; by rewrite app_assoc|].
    rewrite duplicates_app, destroys_app.
    trans ((held st this ++ step_taken st this s ++ duplicates t1)
           ++ taken this l st1 ++ duplicates t2).
    { rewrite <- !app_assoc. do 2 f_equiv.
      rewrite !app_assoc. f_equiv. apply Permutation_app_comm. }
    rewrite Hp1.
    trans (destroys t1 ++ step_given st this s
           ++ (held st1 this ++ taken this l st1 ++ duplicates t2)).
    { by rewrite <- !app_assoc. }
    rewrite Hp2. rewrite <- !app_assoc. f_equiv.
    rewrite !app_assoc. do 2 f_equiv. apply Permutation_app_comm.
Qed.

End Ledger.

(** X1.  Over any lifetime of an [Array] object, whatever its constructor
    and whatever is done to it (copy and move assignments, [release()], in
    any number and order, failing or not), the pointers it acquires, by
    duplication, by adopting a raw pointer or by moving from another object,
    are, counted with multiplicity, exactly the non-null pointers it gives to
    [mxDestroyArray] together with those it hands out through [release()]:
    nothing it owned is leaked and nothing is destroyed twice.  When the
    constructor throws, nothing was acquired and nothing is destroyed. *)
Theorem any_lifetime_balances {W : Type} `{!MxApi W}
    (st : State W) (this : addr) (c : Ctor) (l : list Step) :
  ∃ t, calls (lifetime this c l st).2 = calls st ++ t
       ∧ match mx_Array.construct this (run_ctor c) st with
         | (Returned _, st1) =>
           ctor_taken st c ++ taken this l st1 ++ duplicates t
           ≡ₚ destroys t ++ given this l st1
         | (Thrown _, _) => duplicates t = [] ∧ destroys t = []
         end.
Proof.
  assert (Hgo : ∀ st1 t0 (acquired : list ptr),
    calls st1 = calls st ++ t0 → destroys t0 = [] →
    acquired ++ duplicates t0 ≡ₚ held st1 this →
    ∃ t, calls ((run_steps this l ;; mx_Array.Array_dtor this) st1).2 = calls st ++ t
         ∧ acquired ++ taken this l st1 ++ duplicates t
           ≡ₚ destroys t ++ given this l st1).
  { intros st1 t0 acquired Hc0 Hd0 Hp0.
    destruct (steps_ledger l st1 this) as (t1 & Hc1 & Hp1).
    pose proof (run_steps_returns l st1 this) as Hret.
    unfold bind. destruct (run_steps this l st1) as [o st2].
    cbn [fst snd] in *. subst o. rewrite dtor_run. cbn [snd calls].
    exists (t0 ++ t1 ++ [C_mxDestroyArray (mx_Array.field st2 this)]). split.
    { rewrite Hc1, Hc0. by rewrite <- !app_assoc. }
    rewrite !duplicates_app, !destroys_app, destroys_held, Hd0.
    change (duplicates [C_mxDestroyArray (mx_Array.field st2 this)]) with (@nil ptr).
    rewrite app_nil_r. cbn [app].
    trans ((acquired ++ duplicates t0) ++ taken this l st1 ++ duplicates t1).
    { rewrite <- !app_assoc. f_equiv. rewrite !app_assoc. f_equiv.
      apply Permutation_app_comm. }
    rewrite Hp0, Hp1. rewrite <- !app_assoc. f_equiv. apply Permutation_app_comm. }
  unfold lifetime. unfold bind at 1.
  destruct c as [|array|s|other].
  - change (mx_Array.construct this (run_ctor ctor_default) st)
      with (Returned tt, holding st this nullptr).
    cbn [ctor_taken].
    apply (Hgo _ [] []); [by rewrite app_nil_r|done|].
    by rewrite held_holding.
  - change (mx_Array.construct this (run_ctor (ctor_adopt array)) st)
      with (Returned tt, holding st this array).
    cbn [ctor_taken].
    apply (Hgo _ [] (nonnull array)); [by rewrite app_nil_r|done|].
    rewrite held_holding. cbn. by rewrite app_nil_r.
  - rewrite ctor_copy_run. unfold copy_run.
    set (src := source_ptr st s).
    destruct (src =? nullptr).
    { cbn [ctor_taken]. apply (Hgo _ [] []); [by rewrite app_nil_r|done|].
      by rewrite held_holding. }
    set (q := (mxDuplicateArray (world st) src).1).
    destruct (q =? nullptr) eqn:E.
    + exists [C_mxDuplicateArray src q]. split; [reflexivity|].
      clearbody q. unfold duplicates, destroys. cbn. by rewrite E.
    + cbn [ctor_taken].
      apply (Hgo _ [C_mxDuplicateArray src q] []); [reflexivity|done|].
      rewrite held_holding, E. clearbody q.
      unfold duplicates. cbn. by rewrite E.
  - change (mx_Array.construct this (run_ctor (ctor_move other)) st)
      with (Returned tt,
            holding (holding st other nullptr) this (mx_Array.field st other)).
    cbn [ctor_taken].
    apply (Hgo _ [] (nonnull (mx_Array.field st other))); [by rewrite app_nil_r|done|].
    rewrite held_holding. cbn. by rewrite app_nil_r.
Qed.

(** ** Typed data access, references and resizing *)

(** X2.  [getDataAs<T>()] gives the data pointer only for an array of
    [T]'s class: on a valid [Array] whose class id is not [T]'s it throws
    "type must match the array class ID" after the one query [mxGetClassID],
    without asking for the data; when the ids agree it returns [mxGetData] of
    the held pointer.  On an [Array] that holds null it throws "accessing
    invalid array" under the id of [getClassId], the operation that made the
    check, and makes no native call. *)
Theorem getDataAs_checks_class {W : Type} `{!MxApi W} `{!MxApi2 W}
    (classId : Z) (st : State W) (this : addr) :
  mx_Array_rest.getDataAs classId this st =
    if mx_Array.field st this =? nullptr
    then (Thrown (Exception2 "matlabw:mx:Array:getClassId" "accessing invalid array"), st)
    else if mxGetClassID (world st) (mx_Array.field st this) =? classId
    then (Returned (mxGetData (world st) (mx_Array.field st this)),
          log (Query F_mxGetData (mx_Array.field st this))
              (log (Query F_mxGetClassID (mx_Array.field st this)) st))
    else (Thrown (Exception2 "matlabw:mx:Array:getDataAs"
                             "type must match the array class ID"),
          log (Query F_mxGetClassID (mx_Array.field st this)) st).
Proof.
  unfold mx_Array_rest.getDataAs, bind.
  rewrite (forwards_intro "getClassId" F_mxGetClassID mxGetClassID st this
           : mx_Array.getClassId this st = _).
  destruct (mx_Array.field st this =? nullptr) eqn:E; [reflexivity|].
  destruct (_ =? classId); [|reflexivity]. cbn [negb].
  rewrite (getData_forwards _ this).
  change (mx_Array.field (log _ st) this) with (mx_Array.field st this).
  by rewrite E.
Qed.

(** X3.  Assigning an [Array] from itself, or from a reference converted
    from it ([operator ArrayRef], [operator ArrayCref]), changes nothing: the
    array is neither destroyed nor duplicated and no native call is made.
    The conversion of a valid [Array] gives a reference to the held pointer
    and leaves the [Array] the owner; the conversion of an [Array] that holds
    null throws, so the assignment is not reached. *)
Theorem assignment_from_own_reference_is_noop {W : Type} `{!MxApi W} `{!MxApi2 W}
    (st : State W) (this : addr) :
  mx_Array.operator_assign this this st = (Returned tt, st)
  ∧ (r <- mx_Array_rest.operator_ArrayRef this ;; mx_Array.operator_assign_ref this r) st
    = (if mx_Array.field st this =? nullptr
       then Thrown (Exception2 "matlabw:mx:Array:operatorArrayRef" "accessing invalid array")
       else Returned tt, st)
  ∧ (r <- mx_Array_rest.operator_ArrayCref this ;; mx_Array.operator_assign_cref this r) st
    = (if mx_Array.field st this =? nullptr
       then Thrown (Exception2 "matlabw:mx:Array:operatorArrayCref" "accessing invalid array")
       else Returned tt, st)
  ∧ (mx_Array.field st this ≠ nullptr →
     mx_Array_rest.operator_ArrayRef this st
     = (Returned (mkArrayRef (mx_Array.field st this)), st)
     ∧ mx_Array_rest.operator_ArrayCref this st
       = (Returned (mkArrayCref (mx_Array.field st this)), st)).
Proof.
  assert (Href : mx_Array_rest.operator_ArrayRef this st
    = if mx_Array.field st this =? nullptr
      then (Thrown (Exception2 "matlabw:mx:Array:operatorArrayRef"
                               "accessing invalid array"), st)
      else (Returned (mkArrayRef (mx_Array.field st this)), st)).
  { unfold mx_Array_rest.operator_ArrayRef, bind. rewrite checkValid_run.
    by destruct (mx_Array.field st this =? nullptr). }
  assert (Hcref : mx_Array_rest.operator_ArrayCref this st
    = if mx_Array.field st this =? nullptr
      then (Thrown (Exception2 "matlabw:mx:Array:operatorArrayCref"
                               "accessing invalid array"), st)
      else (Returned (mkArrayCref (mx_Array.field st this)), st)).
  { unfold mx_Array_rest.operator_ArrayCref, bind. rewrite checkValid_run.
    by destruct (mx_Array.field st this =? nullptr). }
  split; [|split; [|split]].
  - rewrite operator_assign_run. unfold assign_run. by rewrite Z.eqb_refl.
  - unfold bind. rewrite Href.
    destruct (mx_Array.field st this =? nullptr); [reflexivity|].
    rewrite operator_assign_ref_run. unfold assign_run. by rewrite Z.eqb_refl.
  - unfold bind. rewrite Hcref.
    destruct (mx_Array.field st this =? nullptr); [reflexivity|].
    rewrite operator_assign_cref_run. unfold assign_run. by rewrite Z.eqb_refl.
  - intros Hp. apply Z.eqb_neq in Hp. rewrite Href, Hcref, Hp. done.
Qed.

(** Object 1 of [Ref.state] assigned from a reference to itself. *)
Lemma assignment_from_own_reference_witness :
  mx_Array_rest.operator_ArrayRef 1%positive (Ref.state false)
  = (Returned (mkArrayRef 16), Ref.state false)
  ∧ (r <- mx_Array_rest.operator_ArrayRef 1%positive ;;
     mx_Array.operator_assign_ref 1%positive r) (Ref.state false)
    = (Returned tt, Ref.state false).
Proof.
  destruct (assignment_from_own_reference_is_noop (Ref.state false) 1%positive)
    as (_ & Hassign & _ & Hconv).
  split.
  - apply Hconv. vm_compute. discriminate.
  - rewrite Hassign. reflexivity.
Defined.

(** X4.  [resize] never changes which pointer an [Array] holds: on an
    [Array] that holds null it throws "accessing invalid array" and the
    runtime is not touched; otherwise it makes the call [mxSetDimensions] on
    the held pointer with the given sizes and throws "failed to resize array"
    exactly when the call returns a non-zero code.  In no case does it
    duplicate or destroy an array: it adds nothing to the trace of such
    calls.  [resize(m, n)] is [resize] with the two sizes [m], [n]. *)
Theorem resize_keeps_pointer {W : Type} `{!MxApi W} `{!MxApi2 W}
    (st : State W) (this : addr) (dims : list Z) :
  objects (mx_Array_rest.resize this dims st).2 = objects st
  ∧ calls (mx_Array_rest.resize this dims st).2 = calls st
  ∧ (mx_Array.field st this = nullptr →
     mx_Array_rest.resize this dims st
     = (Thrown (Exception2 "matlabw:mx:Array:resize" "accessing invalid array"), st))
  ∧ (mx_Array.field st this ≠ nullptr →
     world (mx_Array_rest.resize this dims st).2
     = (mxSetDimensions (world st) (mx_Array.field st this) dims).2
     ∧ (mx_Array_rest.resize this dims st).1
       = if (mxSetDimensions (world st) (mx_Array.field st this) dims).1 =? 0
         then Returned tt else Thrown (Exception1 "failed to resize array"))
  ∧ ∀ m n : Z, mx_Array_rest.resize_mn this m n st = mx_Array_rest.resize this [m; n] st.
Proof.
  assert (Hrun : mx_Array_rest.resize this dims st =
    if mx_Array.field st this =? nullptr
    then (Thrown (Exception2 "matlabw:mx:Array:resize" "accessing invalid array"), st)
    else (if (mxSetDimensions (world st) (mx_Array.field st this) dims).1 =? 0
          then Returned tt else Thrown (Exception1 "failed to resize array"),
          mkState (objects st)
                  (mxSetDimensions (world st) (mx_Array.field st this) dims).2
                  (calls st))).
  { unfold mx_Array_rest.resize. unfold bind at 1. rewrite checkValid_run.
    destruct (mx_Array.field st this =? nullptr); [reflexivity|].
    unfold bind, mx_Array.get, runtime_upd, ret, throw. cbn [fst snd].
    destruct (_ =? 0); reflexivity. }
  rewrite Hrun.
  destruct (Z.eqb_spec (mx_Array.field st this) nullptr) as [Hp|Hp];
    repeat split; try reflexivity; try congruence.
Qed.

(** Resizing object 1 of [Ref.state] (the 1-by-3 ['abc']) to 3-by-1, and
    the empty object 3. *)
Lemma resize_witness :
  (mx_Array_rest.resize 1%positive [3; 1] (Ref.state false)).1 = Returned tt
  ∧ (mx_Array.getDimM 1%positive
       (mx_Array_rest.resize 1%positive [3; 1] (Ref.state false)).2).1 = Returned 3
  ∧ mx_Array.field (mx_Array_rest.resize 1%positive [3; 1] (Ref.state false)).2 1%positive
    = 16
  ∧ mx_Array_rest.resize 3%positive [3; 1] (Ref.state false)
    = (Thrown (Exception2 "matlabw:mx:Array:resize" "accessing invalid array"),
       Ref.state false).
Proof.
  destruct (resize_keeps_pointer (Ref.state false) 1%positive [3; 1])
    as (_ & _ & _ & Hvalid & _).
  destruct (resize_keeps_pointer (Ref.state false) 3%positive [3; 1])
    as (_ & _ & Hnull & _).
  destruct Hvalid as (_ & Hout); [vm_compute; discriminate|].
  split; [rewrite Hout; vm_compute; reflexivity|].
  split; [vm_compute; reflexivity|]. split; [vm_compute; reflexivity|].
  apply Hnull. vm_compute. reflexivity.
Defined.

(** ** Setting, adding and removing struct fields *)

Section StructFieldUpdates.
Context {W : Type} `{!MxApi W} `{!MxApi2 W}.

Implicit Types (st : State W) (this : ArrayRef) (i k invalid : Z).

Lemma getFieldCount_run st this :
  mx_StructArrayRef.getFieldCount this st
  = (Returned (static_cast_size_t (mxGetNumberOfFields (world st) (ref_get this))),
     log (Query F_mxGetNumberOfFields (ref_get this)) st).
Proof. reflexivity. Qed.

Lemma setField_move_run invalid st this i k (value : addr) :
  mx_StructArrayRef_rest.setField_move invalid this i k value st =
    if k =? invalid then (Thrown (Exception1 "invalid field index"), st)
    else if static_cast_size_t k
            >=? static_cast_size_t (mxGetNumberOfFields (world st) (ref_get this))
    then (Thrown (Exception1 "invalid field index"),
          log (Query F_mxGetNumberOfFields (ref_get this)) st)
    else (Returned tt,
          mkState (<[value := mkArray nullptr]> (objects st))
                  (mxSetFieldByNumber (world st) (ref_get this) i (static_cast_int k)
                     (mx_Array.field st value))
                  (calls st ++ [Query F_mxGetNumberOfFields (ref_get this)])).
Proof.
  unfold mx_StructArrayRef_rest.setField_move.
  destruct (k =? invalid); [reflexivity|].
  unfold bind at 1. rewrite getFieldCount_run.
  destruct (_ >=? _); [reflexivity|].
  unfold bind. rewrite release_run. reflexivity.
Qed.

Lemma setField_run invalid st this i k (value : ArrayCref) :
  mx_StructArrayRef_rest.setField invalid this i k value st =
    if k =? invalid then (Thrown (Exception1 "invalid field index"), st)
    else if static_cast_size_t k
            >=? static_cast_size_t (mxGetNumberOfFields (world st) (ref_get this))
    then (Thrown (Exception1 "invalid field index"),
          log (Query F_mxGetNumberOfFields (ref_get this)) st)
    else if cref_get value =? nullptr
    then (Returned tt,
          mkState (objects st)
                  (mxDestroyArray
                     (mxSetFieldByNumber (world st) (ref_get this) i (static_cast_int k)
                        nullptr) nullptr)
                  (calls st ++ [Query F_mxGetNumberOfFields (ref_get this);
                                C_mxDestroyArray nullptr]))
    else if (mxDuplicateArray (world st) (cref_get value)).1 =? nullptr
    then (Thrown (Exception1 "failed to duplicate array"),
          mkState (objects st) (mxDuplicateArray (world st) (cref_get value)).2
                  (calls st ++ [Query F_mxGetNumberOfFields (ref_get this);
                                C_mxDuplicateArray (cref_get value) nullptr]))
    else (Returned tt,
          mkState (objects st)
                  (mxDestroyArray
                     (mxSetFieldByNumber (mxDuplicateArray (world st) (cref_get value)).2
                        (ref_get this) i (static_cast_int k)
                        (mxDuplicateArray (world st) (cref_get value)).1) nullptr)
                  (calls st ++ [Query F_mxGetNumberOfFields (ref_get this);
                                C_mxDuplicateArray (cref_get value)
                                  (mxDuplicateArray (world st) (cref_get value)).1;
                                C_mxDestroyArray nullptr])).
Proof.
  unfold mx_StructArrayRef_rest.setField.
  destruct (k =? invalid); [reflexivity|].
  unfold bind at 1. rewrite getFieldCount_run.
  destruct (_ >=? _); [reflexivity|].
  unfold bind at 1. unfold mx_Array.Array_copy_cref, bind at 1.
  rewrite duplicateArray_run. cbn [world log].
  destruct (cref_get value =? nullptr).
  { unfold mx_Array.Array_adopt, ret, release_temporary, bind, runtime_upd,
      mx_Array.destroy_temporary, native_upd.
    cbn [fst snd objects world calls log mArray]. by rewrite <- app_assoc. }
  destruct (Z.eqb_spec (mxDuplicateArray (world st) (cref_get value)).1 nullptr)
    as [E|E].
  { unfold duplicated, log. cbn [objects world calls]. rewrite E.
    by rewrite <- app_assoc. }
  unfold mx_Array.Array_adopt, ret, release_temporary, bind, runtime_upd,
    mx_Array.destroy_temporary, native_upd, duplicated.
  cbn [fst snd objects world calls log mArray]. by rewrite <- !app_assoc.
Qed.

Lemma removeField_index_run invalid st this k :
  mx_StructArrayRef_rest.removeField_index invalid this k st =
    if k =? invalid then (Returned tt, st)
    else if static_cast_size_t k
            >=? static_cast_size_t (mxGetNumberOfFields (world st) (ref_get this))
    then (Thrown (Exception1 "field index out of range"),
          log (Query F_mxGetNumberOfFields (ref_get this)) st)
    else (Returned tt,
          mkState (objects st)
                  (mxRemoveField (world st) (ref_get this) (static_cast_int k))
                  (calls st ++ [Query F_mxGetNumberOfFields (ref_get this)])).
Proof.
  unfold mx_StructArrayRef_rest.removeField_index.
  destruct (k =? invalid); [reflexivity|]. cbn [negb].
  unfold bind. rewrite getFieldCount_run.
  destruct (_ >=? _); reflexivity.
Qed.

End StructFieldUpdates.

(** X5.  [setField(i, fieldIndex, Array&& value)] either transfers or
    keeps: it throws "invalid field index" exactly when [fieldIndex] is
    [FieldIndex::invalid] or, as a [std::size_t], not less than
    [getFieldCount()], and then [value] still holds its pointer and the
    runtime is untouched; otherwise it returns, [value] is left holding null,
    and the pointer it held (null included) has been given to
    [mxSetFieldByNumber]. *)
Theorem setField_move_transfers_or_keeps {W : Type} `{!MxApi W} `{!MxApi2 W}
    (invalid : Z) (st : State W) (this : ArrayRef) (i fieldIndex : Z) (value : addr) :
  (fieldIndex = invalid
   ∨ static_cast_size_t fieldIndex
     >= static_cast_size_t (mxGetNumberOfFields (world st) (ref_get this)) →
   (mx_StructArrayRef_rest.setField_move invalid this i fieldIndex value st).1
   = Thrown (Exception1 "invalid field index")
   ∧ objects (mx_StructArrayRef_rest.setField_move invalid this i fieldIndex value st).2
     = objects st
   ∧ world (mx_StructArrayRef_rest.setField_move invalid this i fieldIndex value st).2
     = world st)
  ∧ (fieldIndex ≠ invalid →
     static_cast_size_t fieldIndex
       < static_cast_size_t (mxGetNumberOfFields (world st) (ref_get this)) →
     (mx_StructArrayRef_rest.setField_move invalid this i fieldIndex value st).1
     = Returned tt
     ∧ mx_Array.field
         (mx_StructArrayRef_rest.setField_move invalid this i fieldIndex value st).2 value
       = nullptr
     ∧ world (mx_StructArrayRef_rest.setField_move invalid this i fieldIndex value st).2
       = mxSetFieldByNumber (world st) (ref_get this) i (static_cast_int fieldIndex)
           (mx_Array.field st value)).
Proof.
  rewrite setField_move_run. split.
  - intros Hbad. destruct (Z.eqb_spec fieldIndex invalid) as [|Hne]; [done|].
    destruct Hbad as [|Hge]; [done|].
    apply Z.ge_le, Z.geb_le in Hge. by rewrite Hge.
  - intros Hne Hlt. apply Z.eqb_neq in Hne. rewrite Hne.
    assert ((static_cast_size_t fieldIndex
             >=? static_cast_size_t (mxGetNumberOfFields (world st) (ref_get this)))
            = false) as ->.
    { rewrite Z.geb_leb. by apply Z.leb_gt. }
    cbn [fst snd world]. split; [done|]. split; [|done].
    unfold mx_Array.field. cbn [objects]. by rewrite lookup_insert_eq.
Qed.

(** Object 1 of [Ref.state] moved into the unset field [y] of the struct
    [point], and into the index 2, which [point] does not have. *)
Lemma setField_move_witness :
  ((mx_StructArrayRef_rest.setField_move (-1) (mkArrayRef 48) 0 1 1%positive
      (Ref.state false)).1 = Returned tt
   ∧ mx_Array.field
       (mx_StructArrayRef_rest.setField_move (-1) (mkArrayRef 48) 0 1 1%positive
          (Ref.state false)).2 1%positive = nullptr
   ∧ Ref.fieldValues
       <$> Ref.heap (world (mx_StructArrayRef_rest.setField_move (-1) (mkArrayRef 48) 0 1
                              1%positive (Ref.state false)).2) !! 48
     = Some [16; 16])
  ∧ (mx_StructArrayRef_rest.setField_move (-1) (mkArrayRef 48) 0 2 1%positive
       (Ref.state false)).1 = Thrown (Exception1 "invalid field index")
  ∧ objects (mx_StructArrayRef_rest.setField_move (-1) (mkArrayRef 48) 0 2 1%positive
               (Ref.state false)).2 = objects (Ref.state false).
Proof.
  destruct (setField_move_transfers_or_keeps (-1) (Ref.state false) (mkArrayRef 48) 0 1
              1%positive) as (_ & Hok).
  destruct (setField_move_transfers_or_keeps (-1) (Ref.state false) (mkArrayRef 48) 0 2
              1%positive) as (Hbad & _).
  destruct Hok as (Hret & Hnull & Hworld); [vm_compute; congruence..|].
  destruct Hbad as (Hthrow & Hobj & _); [right; vm_compute; congruence|].
  split; [split; [exact Hret|split; [exact Hnull|]]|split; [exact Hthrow|exact Hobj]].
  rewrite Hworld. vm_compute. reflexivity.
Defined.

(** X6.  [setField(i, fieldIndex, ArrayCref value)] stores a copy and
    checks the index before it copies.  No [Array] object changes.  With a
    bad index it throws "invalid field index" and nothing is duplicated.
    With a good index and a non-null [value] it calls [mxDuplicateArray] on
    [value]'s pointer: when that gives null it throws "failed to duplicate
    array" and [mxSetFieldByNumber] is not called; otherwise the field
    receives the duplicate, and the emptied temporary is destroyed (a call of
    [mxDestroyArray] on null).  A null [value] sets the field to null
    without a duplicate. *)
Theorem setField_stores_a_copy {W : Type} `{!MxApi W} `{!MxApi2 W}
    (invalid : Z) (st : State W) (this : ArrayRef) (i fieldIndex : Z) (value : ArrayCref) :
  objects (mx_StructArrayRef_rest.setField invalid this i fieldIndex value st).2
  = objects st
  ∧ (fieldIndex = invalid
     ∨ static_cast_size_t fieldIndex
       >= static_cast_size_t (mxGetNumberOfFields (world st) (ref_get this)) →
     (mx_StructArrayRef_rest.setField invalid this i fieldIndex value st).1
     = Thrown (Exception1 "invalid field index")
     ∧ world (mx_StructArrayRef_rest.setField invalid this i fieldIndex value st).2
       = world st
     ∧ duplicates
         (drop (length (calls st))
            (calls (mx_StructArrayRef_rest.setField invalid this i fieldIndex value st).2))
       = [])
  ∧ (fieldIndex ≠ invalid →
     static_cast_size_t fieldIndex
       < static_cast_size_t (mxGetNumberOfFields (world st) (ref_get this)) →
     mx_StructArrayRef_rest.setField invalid this i fieldIndex value st
     = if cref_get value =? nullptr
       then (Returned tt,
             mkState (objects st)
               (mxDestroyArray
                  (mxSetFieldByNumber (world st) (ref_get this) i
                     (static_cast_int fieldIndex) nullptr) nullptr)
               (calls st ++ [Query F_mxGetNumberOfFields (ref_get this);
                             C_mxDestroyArray nullptr]))
       else if (mxDuplicateArray (world st) (cref_get value)).1 =? nullptr
       then (Thrown (Exception1 "failed to duplicate array"),
             mkState (objects st) (mxDuplicateArray (world st) (cref_get value)).2
               (calls st ++ [Query F_mxGetNumberOfFields (ref_get this);
                             C_mxDuplicateArray (cref_get value) nullptr]))
       else (Returned tt,
             mkState (objects st)
               (mxDestroyArray
                  (mxSetFieldByNumber (mxDuplicateArray (world st) (cref_get value)).2
                     (ref_get this) i (static_cast_int fieldIndex)
                     (mxDuplicateArray (world st) (cref_get value)).1) nullptr)
               (calls st ++ [Query F_mxGetNumberOfFields (ref_get this);
                             C_mxDuplicateArray (cref_get value)
                               (mxDuplicateArray (world st) (cref_get value)).1;
                             C_mxDestroyArray nullptr]))).
Proof.
  rewrite setField_run. split; [|split].
  - repeat match goal with |- context [if ?b then _ else _] => destruct b end;
      reflexivity.
  - intros Hbad. destruct (Z.eqb_spec fieldIndex invalid) as [|Hne].
    { cbn [fst snd]. rewrite drop_all. done. }
    destruct Hbad as [|Hge]; [done|].
    apply Z.ge_le, Z.geb_le in Hge. rewrite Hge. cbn [fst snd log world calls].
    rewrite drop_app_length. done.
  - intros Hne Hlt. apply Z.eqb_neq in Hne. rewrite Hne.
    assert ((static_cast_size_t fieldIndex
             >=? static_cast_size_t (mxGetNumberOfFields (world st) (ref_get this)))
            = false) as ->.
    { rewrite Z.geb_leb. by apply Z.leb_gt. }
    reflexivity.
Qed.

(** The array at 32 copied into the field [y] of [point]: the field
    receives the duplicate at 64, not 32. *)
Lemma setField_copy_witness :
  (mx_StructArrayRef_rest.setField (-1) (mkArrayRef 48) 0 1 (mkArrayCref 32)
     (Ref.state false)).1 = Returned tt
  ∧ calls (mx_StructArrayRef_rest.setField (-1) (mkArrayRef 48) 0 1 (mkArrayCref 32)
             (Ref.state false)).2
    = [Query F_mxGetNumberOfFields 48; C_mxDuplicateArray 32 64; C_mxDestroyArray nullptr]
  ∧ Ref.fieldValues
      <$> Ref.heap (world (mx_StructArrayRef_rest.setField (-1) (mkArrayRef 48) 0 1
                             (mkArrayCref 32) (Ref.state false)).2) !! 48
    = Some [16; 64]
  ∧ (mx_StructArrayRef_rest.setField (-1) (mkArrayRef 48) 0 1 (mkArrayCref 32)
       (Ref.state true)).1 = Thrown (Exception1 "failed to duplicate array")
  ∧ (mx_StructArrayRef_rest.setField (-1) (mkArrayRef 48) 0 (-1) (mkArrayCref 32)
       (Ref.state false)).1 = Thrown (Exception1 "invalid field index").
Proof.
  destruct (setField_stores_a_copy (-1) (Ref.state false) (mkArrayRef 48) 0 1
              (mkArrayCref 32)) as (_ & _ & Hok).
  destruct (setField_stores_a_copy (-1) (Ref.state true) (mkArrayRef 48) 0 1
              (mkArrayCref 32)) as (_ & _ & Hoom).
  destruct (setField_stores_a_copy (-1) (Ref.state false) (mkArrayRef 48) 0 (-1)
              (mkArrayCref 32)) as (_ & Hbad & _).
  rewrite Hok, Hoom by (vm_compute; congruence).
  destruct Hbad as (Hthrow & _); [left; reflexivity|].
  repeat split; try exact Hthrow; vm_compute; reflexivity.
Defined.

(** X7.  Removing a field that is not there is a silent no-op:
    [removeField(FieldIndex::invalid)] returns with the state unchanged, and
    [removeField(name)] for a name that [mxGetFieldNumber] does not find
    returns without touching the runtime.  A null name throws "invalid field
    name"; an index that is valid but, as a [std::size_t], not less than
    [getFieldCount()] throws "field index out of range", again without
    touching the runtime; only otherwise is [mxRemoveField] called. *)
Theorem removeField_missing_is_noop {W : Type} `{!MxApi W} `{!MxApi2 W}
    (invalid : Z) (st : State W) (this : ArrayRef) :
  mx_StructArrayRef_rest.removeField_index invalid this invalid st = (Returned tt, st)
  ∧ mx_StructArrayRef_rest.removeField invalid this None st
    = (Thrown (Exception1 "invalid field name"), st)
  ∧ (∀ name : string,
       mxGetFieldNumber (world st) (ref_get this) (Some name) = -1 →
       (mx_StructArrayRef_rest.removeField invalid this (Some name) st).1 = Returned tt
       ∧ world (mx_StructArrayRef_rest.removeField invalid this (Some name) st).2
         = world st)
  ∧ (∀ fieldIndex : Z,
       fieldIndex ≠ invalid →
       (static_cast_size_t fieldIndex
          >= static_cast_size_t (mxGetNumberOfFields (world st) (ref_get this)) →
        (mx_StructArrayRef_rest.removeField_index invalid this fieldIndex st).1
        = Thrown (Exception1 "field index out of range")
        ∧ world (mx_StructArrayRef_rest.removeField_index invalid this fieldIndex st).2
          = world st)
       ∧ (static_cast_size_t fieldIndex
            < static_cast_size_t (mxGetNumberOfFields (world st) (ref_get this)) →
          (mx_StructArrayRef_rest.removeField_index invalid this fieldIndex st).1
          = Returned tt
          ∧ world (mx_StructArrayRef_rest.removeField_index invalid this fieldIndex st).2
            = mxRemoveField (world st) (ref_get this) (static_cast_int fieldIndex))).
Proof.
  split; [|split; [|split]].
  - rewrite removeField_index_run. by rewrite Z.eqb_refl.
  - reflexivity.
  - intros name Hnum. unfold mx_StructArrayRef_rest.removeField, bind.
    rewrite getFieldIndex_run, Hnum, Z.eqb_refl.
    rewrite removeField_index_run, Z.eqb_refl. done.
  - intros fieldIndex Hne. rewrite removeField_index_run.
    apply Z.eqb_neq in Hne. rewrite Hne. split.
    + intros Hge. apply Z.ge_le, Z.geb_le in Hge. by rewrite Hge.
    + intros Hlt.
      assert ((static_cast_size_t fieldIndex
               >=? static_cast_size_t (mxGetNumberOfFields (world st) (ref_get this)))
              = false) as ->.
      { rewrite Z.geb_leb. by apply Z.leb_gt. }
      done.
Qed.

(** On the struct [point]: the name [z] is not a field and removing it
    does nothing; index 2 is out of range; field 1 is removed. *)
Lemma removeField_witness :
  (mx_StructArrayRef_rest.removeField (-1) (mkArrayRef 48) (Some "z") (Ref.state false)).1
  = Returned tt
  ∧ world (mx_StructArrayRef_rest.removeField (-1) (mkArrayRef 48) (Some "z")
             (Ref.state false)).2 = world (Ref.state false)
  ∧ (mx_StructArrayRef_rest.removeField_index (-1) (mkArrayRef 48) 2 (Ref.state false)).1
    = Thrown (Exception1 "field index out of range")
  ∧ Ref.fieldNames
      <$> Ref.heap (world (mx_StructArrayRef_rest.removeField_index (-1) (mkArrayRef 48) 1
                             (Ref.state false)).2) !! 48
    = Some ["x"].
Proof.
  destruct (removeField_missing_is_noop (-1) (Ref.state false) (mkArrayRef 48))
    as (_ & _ & Hname & Hindex).
  destruct (Hname "z") as (Hret & Hworld); [vm_compute; reflexivity|].
  destruct (Hindex 2) as (Hrange & _); [congruence|].
  destruct Hrange as (Hthrow & _); [vm_compute; congruence|].
  destruct (Hindex 1) as (_ & Hremove); [congruence|].
  destruct Hremove as (_ & Hremoved); [vm_compute; congruence|].
  split; [exact Hret|]. split; [exact Hworld|]. split; [exact Hthrow|].
  rewrite Hremoved. vm_compute. reflexivity.
Defined.

(** X8.  [addField] tests [!mxAddField(...)]: it throws "failed to add
    field" exactly when [mxAddField] returns 0 and returns normally for every
    other result, -1 included; in both cases the runtime is the one
    [mxAddField] left.  A null name throws "invalid field name" before any
    call. *)
Theorem addField_throws_iff_native_zero {W : Type} `{!MxApi W} `{!MxApi2 W}
    (st : State W) (this : ArrayRef) :
  mx_StructArrayRef_rest.addField this None st
  = (Thrown (Exception1 "invalid field name"), st)
  ∧ ∀ name : string,
      mx_StructArrayRef_rest.addField this (Some name) st
      = (if (mxAddField (world st) (ref_get this) name).1 =? 0
         then Thrown (Exception1 "failed to add field") else Returned tt,
         mkState (objects st) (mxAddField (world st) (ref_get this) name).2 (calls st))
      ∧ ((mx_StructArrayRef_rest.addField this (Some name) st).1
         = Thrown (Exception1 "failed to add field")
         ↔ (mxAddField (world st) (ref_get this) name).1 = 0).
Proof.
  split; [reflexivity|]. intros name.
  assert (Hrun : mx_StructArrayRef_rest.addField this (Some name) st
      = (if (mxAddField (world st) (ref_get this) name).1 =? 0
         then Thrown (Exception1 "failed to add field") else Returned tt,
         mkState (objects st) (mxAddField (world st) (ref_get this) name).2 (calls st))).
  { unfold mx_StructArrayRef_rest.addField, bind, runtime_upd, ret, throw.
    cbn [fst snd]. by destruct (_ =? 0). }
  split; [exact Hrun|]. rewrite Hrun. cbn [fst].
  destruct (Z.eqb_spec (mxAddField (world st) (ref_get this) name).1 0);
    split; intros; congruence.
Qed.

(** On the reference runtime [mxAddField] gives the number of the new
    field and -1 on failure.  Adding the first field of the struct without
    fields at 80 throws although the field is there afterwards; adding a third
    field to [point] returns; adding a field to the char array at 16, which
    the runtime refuses, returns as well. *)
Lemma addField_witness :
  (mx_StructArrayRef_rest.addField (mkArrayRef 80) (Some "x") Ref2.state_with_bare).1
  = Thrown (Exception1 "failed to add field")
  ∧ Ref.fieldNames
      <$> Ref.heap (world (mx_StructArrayRef_rest.addField (mkArrayRef 80) (Some "x")
                             Ref2.state_with_bare).2) !! 80
    = Some ["x"]
  ∧ (mx_StructArrayRef_rest.addField (mkArrayRef 48) (Some "z") Ref2.state_with_bare).1
    = Returned tt
  ∧ (mxAddField (world Ref2.state_with_bare) 16 "x").1 = -1
  ∧ (mx_StructArrayRef_rest.addField (mkArrayRef 16) (Some "x") Ref2.state_with_bare).1
    = Returned tt.
Proof.
  destruct (addField_throws_iff_native_zero Ref2.state_with_bare (mkArrayRef 80))
    as (_ & Hbare).
  destruct (addField_throws_iff_native_zero Ref2.state_with_bare (mkArrayRef 48))
    as (_ & Hpoint).
  destruct (addField_throws_iff_native_zero Ref2.state_with_bare (mkArrayRef 16))
    as (_ & Hchar).
  destruct (Hbare "x") as (Hrun & Hiff).
  destruct (Hpoint "z") as (Hrun' & _). destruct (Hchar "x") as (Hrun'' & _).
  split; [apply Hiff; vm_compute; reflexivity|].
  rewrite Hrun, Hrun', Hrun''.
  repeat split; vm_compute; reflexivity.
Defined.

(** ** Moves never share an array *)

Section Transfers.
Context {W : Type} `{!MxApi W}.

Lemma transfer_op_calls (st : State W) (this : addr) (o : Op) :
  transfer_op o = true →
  ∃ t, calls (run_op this o st).2 = calls st ++ t ∧ duplicates t = [].
Proof.
  destruct o as [[|array|s|other]|[s|other|]|]; try discriminate; intros _;
    cbn [run_op run_step].
  - exists []. by rewrite app_nil_r.
  - exists []. by rewrite app_nil_r.
  - rewrite operator_assign_move_run. destruct (decide (this = other)).
    + exists []. by rewrite app_nil_r.
    + by exists [C_mxDestroyArray (mx_Array.field st this)].
  - exists []. by rewrite app_nil_r.
  - rewrite dtor_run. by exists [C_mxDestroyArray (mx_Array.field st this)].
Qed.

Lemma transfer_op_exclusive (st : State W) (this : addr) (o : Op) :
  transfer_op o = true → exclusive st → exclusive (run_op this o st).2.
Proof.
  intros Ho Hex. apply exclusive_run_op; [exact Hex| |].
  - by destruct o as [[| | |]| |].
  - intros t q Ht Hq. destruct (transfer_op_calls st this o Ho) as (t' & Ht' & Hd).
    rewrite Ht' in Ht. apply app_inv_head in Ht. subst t'.
    rewrite Hd in Hq. by apply elem_of_nil in Hq.
Qed.

End Transfers.

(** X9.  Moves never share an array: along any program made of default
    constructions, move constructions, move assignments, [release()] calls and
    destructions, on any objects in any order, ownership stays exclusive (no
    two objects hold the same non-null pointer) and [mxDuplicateArray] is
    never called. *)
Theorem transfers_keep_ownership_exclusive {W : Type} `{!MxApi W}
    (prog : list (addr * Op)) (st : State W) :
  forallb (λ x, transfer_op x.2) prog = true →
  exclusive st →
  exclusive (run_program prog st).2
  ∧ ∃ t, calls (run_program prog st).2 = calls st ++ t ∧ duplicates t = [].
Proof.
  revert st. induction prog as [|[this o] prog IH]; intros st Hall Hex.
  - split; [exact Hex|]. exists []. cbn. by rewrite app_nil_r.
  - cbn [forallb snd] in Hall. apply andb_prop in Hall as [Ho Hall].
    cbn [run_program]. unfold bind, attempt.
    destruct (transfer_op_calls st this o Ho) as (t1 & Hc1 & Hd1).
    pose proof (transfer_op_exclusive st this o Ho Hex) as Hex1.
    destruct (IH _ Hall Hex1) as (Hex2 & t2 & Hc2 & Hd2).
    split; [exact Hex2|]. exists (t1 ++ t2). split.
    + rewrite Hc2, Hc1. by rewrite app_assoc.
    + by rewrite duplicates_app, Hd1, Hd2.
Qed.

(** On [Ref.state]: object 3 takes the array of object 1, a new object 5
    is move-constructed from object 2, object 3 is released and object 1
    destroyed. *)
Lemma transfers_witness :
  exclusive
    (run_program [(3%positive, op_step (assign_move 1%positive));
                  (5%positive, op_construct (ctor_move 2%positive));
                  (3%positive, op_step call_release);
                  (1%positive, op_destruct)] (Ref.state false)).2
  ∧ ∃ t, calls (run_program [(3%positive, op_step (assign_move 1%positive));
                             (5%positive, op_construct (ctor_move 2%positive));
                             (3%positive, op_step call_release);
                             (1%positive, op_destruct)] (Ref.state false)).2
         = calls (Ref.state false) ++ t
         ∧ duplicates t = [].
Proof.
  apply transfers_keep_ownership_exclusive.
  - reflexivity.
  - apply ref_state_exclusive.
Defined.

(** ** makeObjectArray on every path *)

(** X10.  [makeObjectArray] never returns a valid [Array]: whatever the
    source, the class name and the runtime, an [Array] it returns holds the
    null pointer.  With an invalid source or a null class name it throws and
    the state is unchanged.  With a valid source and a class name, the source
    is emptied before [mxSetClassName] is called, so that afterwards, whether
    the call succeeded or the function threw "failed to set class name", no
    [Array] object holds the struct array any more (ownership being
    exclusive before). *)
Theorem makeObjectArray_never_returns_valid {W : Type} `{!MxApi W}
    (st : State W) (srcArray : addr) (className : c_str) :
  (∀ a : Array,
     (mx_ObjectArray.makeObjectArray srcArray className st).1 = Returned a →
     mArray a = nullptr)
  ∧ (mx_Array.field st srcArray = nullptr ∨ className = None →
     has_thrown (mx_ObjectArray.makeObjectArray srcArray className st).1 = true
     ∧ (mx_ObjectArray.makeObjectArray srcArray className st).2 = st)
  ∧ (∀ name : string,
       mx_Array.field st srcArray ≠ nullptr → className = Some name →
       mx_Array.field (mx_ObjectArray.makeObjectArray srcArray className st).2 srcArray
       = nullptr
       ∧ world (mx_ObjectArray.makeObjectArray srcArray className st).2
         = (mxSetClassName (world st) (mx_Array.field st srcArray) name).2
       ∧ ((mx_ObjectArray.makeObjectArray srcArray className st).1
          = Thrown (Exception1 "failed to set class name")
          ↔ (mxSetClassName (world st) (mx_Array.field st srcArray) name).1 ≠ 0)
       ∧ (exclusive st →
          ∀ b : addr,
            mx_Array.field (mx_ObjectArray.makeObjectArray srcArray className st).2 b
            ≠ mx_Array.field st srcArray)).
Proof.
  rewrite makeObjectArray_run. split; [|split].
  - intros a.
    destruct (mx_Array.field st srcArray =? nullptr); [discriminate|].
    destruct className as [name|]; [|discriminate].
    destruct (_ =? 0); [|discriminate]. by intros [= <-].
  - intros [Hnull| ->].
    + by rewrite Hnull.
    + by destruct (mx_Array.field st srcArray =? nullptr).
  - intros name Hvalid ->. pose proof Hvalid as Hnz.
    apply Z.eqb_neq in Hnz. rewrite Hnz.
    assert (Hfield : ∀ b, mx_Array.field (class_named st srcArray name) b
                          = if decide (srcArray = b) then nullptr
                            else mx_Array.field st b).
    { intros b. unfold mx_Array.field, class_named. cbn [objects].
      rewrite lookup_insert. by destruct (decide (srcArray = b)). }
    destruct (Z.eqb_spec (mxSetClassName (world st) (mx_Array.field st srcArray) name).1 0)
      as [Hrc|Hrc]; cbn [fst snd].
    + split; [rewrite Hfield; by destruct (decide (srcArray = srcArray))|].
      split; [reflexivity|]. split; [split; [discriminate|done]|].
      intros Hex b. rewrite Hfield. destruct (decide (srcArray = b)); [congruence|].
      intros Heq. symmetry in Heq. by apply Hex in Heq.
    + split; [rewrite Hfield; by destruct (decide (srcArray = srcArray))|].
      split; [reflexivity|]. split; [done|].
      intros Hex b. rewrite Hfield. destruct (decide (srcArray = b)); [congruence|].
      intros Heq. symmetry in Heq. by apply Hex in Heq.
Qed.

(** The char array of object 1 of [Ref.state] cannot be given a class
    name by the reference runtime: [makeObjectArray] throws, and object 1 has
    lost its array all the same. *)
Lemma makeObjectArray_failure_witness :
  (mx_ObjectArray.makeObjectArray 1%positive (Some "Point") (Ref.state false)).1
  = Thrown (Exception1 "failed to set class name")
  ∧ mx_Array.field
      (mx_ObjectArray.makeObjectArray 1%positive (Some "Point") (Ref.state false)).2
      1%positive = nullptr
  ∧ ∀ b : addr,
      mx_Array.field
        (mx_ObjectArray.makeObjectArray 1%positive (Some "Point") (Ref.state false)).2 b
      ≠ 16.
Proof.
  destruct (makeObjectArray_never_returns_valid (Ref.state false) 1%positive (Some "Point"))
    as (_ & _ & H).
  destruct (H "Point") as (Hnull & _ & Hiff & Hnone); [vm_compute; congruence|reflexivity|].
  split; [apply Hiff; vm_compute; congruence|]. split; [exact Hnull|].
  apply Hnone. apply ref_state_exclusive.
Defined.

(** ** The two conversions of a char array reference *)

(** X11.  On every char array reference exactly one of the two
    conversions of CharArrayRef.hpp gets past its single-string test:
    [toAscii] throws "Input must be a single string." precisely for the
    arrays that [operator std::u16string_view] converts, and
    [operator std::u16string_view] throws "array must be a single string"
    precisely for the arrays that [toAscii] goes on to convert.  The view,
    when given, spans the [getDimN()] units at [getData()]. *)
Theorem toAscii_rejects_what_u16string_view_accepts {W : Type} `{!MxApi W}
    (st : State W) (array : ArrayCref) :
  ((mx_CharArrayCref.toAscii array st).1
   = Thrown (Exception2 "matlabw:mx:toAscii" ("Input must be a single string." +:+ LF))
   ↔ has_thrown (mx_CharArrayCref.operator_u16string_view array st).1 = false)
  ∧ (has_thrown (mx_CharArrayCref.operator_u16string_view array st).1 = true →
     (mx_CharArrayCref.operator_u16string_view array st).1
     = Thrown (Exception2 "matlabw:mx:CharArrayCref:operatorU16StringView"
                          "array must be a single string"))
  ∧ (has_thrown (mx_CharArrayCref.operator_u16string_view array st).1 = false →
     (mx_CharArrayCref.operator_u16string_view array st).1
     = Returned (load_char16 (world st) (mxGetData (world st) (cref_get array))
                   (mxGetN (world st) (cref_get array)))).
Proof.
  assert (Hother : ∀ (status : bool) (str : string),
    (if status then Returned str
     else Thrown (Exception2 "matlabw:mx:toAscii"
                    ("Failed to convert char16_t array to string." +:+ LF)))
    ≠ Thrown (Exception2 "matlabw:mx:toAscii" ("Input must be a single string." +:+ LF))).
  { intros [] str; [discriminate|]. intros [=]. }
  set (p := cref_get array).
  assert (Hascii : (mx_CharArrayCref.toAscii array st).1 =
    if (if mxGetNumberOfDimensions (world st) p <=? 2 then mxGetM (world st) p =? 1
        else false)
    then Thrown (Exception2 "matlabw:mx:toAscii" ("Input must be a single string." +:+ LF))
    else if (mxGetString (world st) p
               (static_cast_size_t (char16_length (world st) (mxGetData (world st) p) + 1))).1
            =? 0
    then Returned (mxGetString (world st) p
                     (static_cast_size_t
                        (char16_length (world st) (mxGetData (world st) p) + 1))).2
    else Thrown (Exception2 "matlabw:mx:toAscii"
                   ("Failed to convert char16_t array to string." +:+ LF))).
  { unfold mx_CharArrayCref.toAscii. unfold bind at 1. rewrite cref_isSingleString_run.
    fold p.
    destruct (mxGetNumberOfDimensions (world st) p <=? 2);
      [destruct (mxGetM (world st) p =? 1); [reflexivity|]|];
      unfold bind, mx_ArrayCref.getData, mx_Array.query, native, peek, ret, throw;
      cbn [fst snd world log]; fold p;
      match goal with
      | |- context [mxGetString ?w ?q ?n] => destruct ((mxGetString w q n).1 =? 0)
      end; reflexivity. }
  assert (Hview : (mx_CharArrayCref.operator_u16string_view array st).1 =
    if (if mxGetNumberOfDimensions (world st) p <=? 2 then mxGetM (world st) p =? 1
        else false)
    then Returned (load_char16 (world st) (mxGetData (world st) p) (mxGetN (world st) p))
    else Thrown (Exception2 "matlabw:mx:CharArrayCref:operatorU16StringView"
                            "array must be a single string")).
  { unfold mx_CharArrayCref.operator_u16string_view. unfold bind at 1.
    rewrite cref_isSingleString_run. fold p.
    destruct (mxGetNumberOfDimensions (world st) p <=? 2);
      [destruct (mxGetM (world st) p =? 1)|]; reflexivity. }
  rewrite Hascii, Hview.
  destruct (if mxGetNumberOfDimensions (world st) p <=? 2 then mxGetM (world st) p =? 1
            else false); cbn [has_thrown].
  - split; [done|]. split; [discriminate|done].
  - split; [|split; [done|discriminate]].
    split; [|discriminate]. intros Heq. exfalso.
    exact (Hother _ _ Heq).
Qed.

(** ** Optional handles *)

(** X12.  A handle inside an optional is never null: when
    [StructArrayRef::getField], [getProperty], [getVariableCref] or
    [getVariable] return a value, the reference or [Array] in it holds a
    non-null pointer, the one the native function gave: [mxGetFieldByNumber]
    for the element and the index as an [int], [mxGetProperty] for the index
    and the name, [mexGetVariablePtr] and [mexGetVariable] for the name of
    the workspace ("base", "global" or "caller", each for its own
    enumerator) and the name of the variable.  A value is returned only for
    a name that is not null. *)
Theorem optional_handles_are_valid {W : Type} `{!MxApi W} `{!MxApi2 W}
    (st : State W) :
  (∀ (invalid : Z) (this : ArrayRef) (i fieldIndex : Z) (r : ArrayRef),
     (mx_StructArrayRef.getField invalid this i fieldIndex st).1 = Returned (Some r) →
     ref_get r ≠ nullptr
     ∧ ref_get r = mxGetFieldByNumber (world st) (ref_get this) i
                     (static_cast_int fieldIndex))
  ∧ (∀ (array : ArrayRef) (index : Z) (propName : c_str) (r : ArrayCref),
       (mx_property.getProperty array index propName st).1 = Returned (Some r) →
       cref_get r ≠ nullptr
       ∧ ∃ name, propName = Some name
                 ∧ cref_get r = (mxGetProperty (world st) (ref_get array) index name).1)
  ∧ (∀ (workspace : mex.Workspace) (name : c_str) (r : ArrayCref),
       (mex.getVariableCref workspace name st).1 = Returned (Some r) →
       cref_get r ≠ nullptr
       ∧ ∃ n, name = Some n
              ∧ cref_get r
                = mexGetVariablePtr (world st)
                    match workspace with
                    | mex.base => "base"
                    | mex.global => "global"
                    | mex.caller => "caller"
                    end n)
  ∧ (∀ (workspace : mex.Workspace) (name : c_str) (a : Array),
       (mex.getVariable workspace name st).1 = Returned (Some a) →
       mArray a ≠ nullptr
       ∧ ∃ n, name = Some n
              ∧ mArray a
                = (mexGetVariable (world st)
                     match workspace with
                     | mex.base => "base"
                     | mex.global => "global"
                     | mex.caller => "caller"
                     end n).1).
Proof.
  split; [|split; [|split]].
  - intros invalid this i k r. rewrite getField_run.
    destruct (k =? invalid); [discriminate|].
    destruct (_ >=? _); [discriminate|].
    destruct (Z.eqb_spec (mxGetFieldByNumber (world st) (ref_get this) i
                            (static_cast_int k)) nullptr); [discriminate|].
    by intros [= <-].
  - intros array index [name|] r; [|discriminate].
    unfold mx_property.getProperty, bind, runtime_upd, ret. cbn [fst snd].
    destruct (Z.eqb_spec (mxGetProperty (world st) (ref_get array) index name).1 nullptr);
      [discriminate|].
    intros [= <-]. split; [done|]. by exists name.
  - intros workspace [name|] r; [|discriminate].
    unfold mex.getVariableCref, bind, native, ret. cbn [fst snd].
    destruct (Z.eqb_spec (mexGetVariablePtr (world st) (mex.getWorkspaceName workspace) name)
                         nullptr); [discriminate|].
    intros [= <-]. split; [done|]. exists name. split; [done|].
    by destruct workspace.
  - intros workspace [name|] a; [|discriminate].
    rewrite getVariable_run.
    destruct (Z.eqb_spec (mexGetVariable (world st) (mex.getWorkspaceName workspace) name).1
                         nullptr); [discriminate|].
    intros [= <-]. split; [done|]. exists name. split; [done|].
    by destruct workspace.
Qed.

(** On [Ref.state]: the field [x] of [point], the property [x] of the
    same array, and the base variable [v], by reference and as a copy. *)
Lemma optional_handles_witness :
  (mx_StructArrayRef.getField (-1) (mkArrayRef 48) 0 0 (Ref.state false)).1
  = Returned (Some (mkArrayRef 16))
  ∧ (mx_property.getProperty (mkArrayRef 48) 0 (Some "x") (Ref.state false)).1
    = Returned (Some (mkArrayCref 64))
  ∧ (mex.getVariableCref mex.base (Some "v") (Ref.state false)).1
    = Returned (Some (mkArrayCref 16))
  ∧ (mex.getVariable mex.base (Some "v") (Ref.state false)).1
    = Returned (Some (mkArray 64))
  ∧ ref_get (mkArrayRef 16) ≠ nullptr
  ∧ cref_get (mkArrayCref 64) ≠ nullptr
  ∧ cref_get (mkArrayCref 16) ≠ nullptr
  ∧ mArray (mkArray 64) ≠ nullptr.
Proof.
  destruct (optional_handles_are_valid (Ref.state false))
    as (Hfield & Hprop & Hcref & Hvar).
  assert (H1 : (mx_StructArrayRef.getField (-1) (mkArrayRef 48) 0 0 (Ref.state false)).1
               = Returned (Some (mkArrayRef 16))) by (vm_compute; reflexivity).
  assert (H2 : (mx_property.getProperty (mkArrayRef 48) 0 (Some "x") (Ref.state false)).1
               = Returned (Some (mkArrayCref 64))) by (vm_compute; reflexivity).
  assert (H3 : (mex.getVariableCref mex.base (Some "v") (Ref.state false)).1
               = Returned (Some (mkArrayCref 16))) by (vm_compute; reflexivity).
  assert (H4 : (mex.getVariable mex.base (Some "v") (Ref.state false)).1
               = Returned (Some (mkArray 64))) by (vm_compute; reflexivity).
  split; [exact H1|]. split; [exact H2|]. split; [exact H3|]. split; [exact H4|].
  split; [|split; [|split]].
  - exact (proj1 (Hfield (-1) (mkArrayRef 48) 0 0 (mkArrayRef 16) H1)).
  - exact (proj1 (Hprop (mkArrayRef 48) 0 (Some "x") (mkArrayCref 64) H2)).
  - exact (proj1 (Hcref mex.base (Some "v") (mkArrayCref 16) H3)).
  - exact (proj1 (Hvar mex.base (Some "v") (mkArray 64) H4)).
Defined.

(** The single string ['abc'] and the 2-by-2 char array of
    [Ref.state]. *)
Lemma toAscii_u16string_view_witness :
  (mx_CharArrayCref.operator_u16string_view (mkArrayCref 16) (Ref.state false)).1
  = Returned [97; 98; 99]
  ∧ (mx_CharArrayCref.toAscii (mkArrayCref 16) (Ref.state false)).1
    = Thrown (Exception2 "matlabw:mx:toAscii" ("Input must be a single string." +:+ LF))
  ∧ (mx_CharArrayCref.operator_u16string_view (mkArrayCref 32) (Ref.state false)).1
    = Thrown (Exception2 "matlabw:mx:CharArrayCref:operatorU16StringView"
                         "array must be a single string").
Proof.
  destruct (toAscii_rejects_what_u16string_view_accepts (Ref.state false) (mkArrayCref 16))
    as (Hiff & _ & Hview).
  destruct (toAscii_rejects_what_u16string_view_accepts (Ref.state false) (mkArrayCref 32))
    as (_ & Hthrow & _).
  split; [rewrite Hview; vm_compute; reflexivity|].
  split; [apply Hiff; vm_compute; reflexivity|].
  apply Hthrow. vm_compute. reflexivity.
Defined.

(** ** Struct fields on the reference runtime *)

Section FieldRoundTrip.
Import Ref Ref2.

Implicit Types (st : State Runtime) (d : mxArrayData) (this : ArrayRef).

Lemma casts_of_small (x : Z) :
  0 <= x < 2 ^ 31 → static_cast_size_t x = x ∧ static_cast_int x = x.
Proof.
  intros Hx. unfold static_cast_size_t, static_cast_int, size_max. split.
  - apply Z.mod_small. lia.
  - rewrite Z.mod_small; lia.
Qed.

Lemma struct_field_count st this d :
  heap (world st) !! ref_get this = Some d → classID d = mxSTRUCT_CLASS →
  mxGetNumberOfFields (world st) (ref_get this) = Z.of_nat (length (fieldNames d)).
Proof.
  intros Hd Hc. cbn [mxGetNumberOfFields api]. unfold on. rewrite Hd. cbn [from_option].
  by rewrite Hc.
Qed.

(** What [getField] gives on a struct array of the reference runtime. *)
Lemma getField_on_reference invalid st this d (i k : Z) :
  heap (world st) !! ref_get this = Some d → classID d = mxSTRUCT_CLASS →
  0 <= i < numel d → 0 <= k < Z.of_nat (length (fieldNames d)) →
  Z.of_nat (length (fieldNames d)) < 2 ^ 31 → k ≠ invalid →
  (mx_StructArrayRef.getField invalid this i k st).1
  = Returned
      (if default nullptr
            (fieldValues d !! Z.to_nat (i * Z.of_nat (length (fieldNames d)) + k))
          =? nullptr
       then None
       else Some (mkArrayRef
                    (default nullptr
                       (fieldValues d
                          !! Z.to_nat (i * Z.of_nat (length (fieldNames d)) + k))))).
Proof.
  intros Hd Hc Hi Hk Hnf Hne. rewrite getField_run.
  apply Z.eqb_neq in Hne. rewrite Hne.
  rewrite (struct_field_count st this d Hd Hc).
  destruct (casts_of_small k ltac:(lia)) as [-> ->].
  destruct (casts_of_small (Z.of_nat (length (fieldNames d))) ltac:(lia)) as [-> _].
  assert ((k >=? Z.of_nat (length (fieldNames d))) = false) as ->.
  { rewrite Z.geb_leb. apply Z.leb_gt. lia. }
  cbn [fst mxGetFieldByNumber api]. unfold field_by_number, on. rewrite Hd.
  cbn [from_option].
  assert ((0 <=? i) && (i <? numel d) && (0 <=? k)
          && (k <? Z.of_nat (length (fieldNames d))) = true) as ->.
  { repeat (apply andb_true_intro; split);
      first [apply Z.leb_le | apply Z.ltb_lt]; lia. }
  reflexivity.
Qed.

End FieldRoundTrip.

(** X13.  Set, then get, on the reference runtime.  After
    [setField(i, fieldIndex, std::move(value))] on a struct array, for an
    element and a field the array has and a valid [value],
    [getField(i, fieldIndex)] returns a reference to the very array [value]
    held, [value] is empty, and [getField] gives for every other element and
    field what it gave before. *)
Theorem setField_then_getField (invalid : Z) (st : State Ref.Runtime)
    (this : ArrayRef) (d : Ref.mxArrayData) (i k : Z) (value : addr) :
  Ref.heap (world st) !! ref_get this = Some d →
  Ref.classID d = Ref.mxSTRUCT_CLASS →
  0 <= i < Ref.numel d →
  0 <= k < Z.of_nat (length (Ref.fieldNames d)) →
  Z.of_nat (length (Ref.fieldNames d)) < 2 ^ 31 →
  Z.of_nat (length (Ref.fieldValues d))
    = Ref.numel d * Z.of_nat (length (Ref.fieldNames d)) →
  k ≠ invalid →
  mx_Array.field st value ≠ nullptr →
  (mx_StructArrayRef_rest.setField_move invalid this i k value st).1 = Returned tt
  ∧ mx_Array.field (mx_StructArrayRef_rest.setField_move invalid this i k value st).2 value
    = nullptr
  ∧ (mx_StructArrayRef.getField invalid this i k
       (mx_StructArrayRef_rest.setField_move invalid this i k value st).2).1
    = Returned (Some (mkArrayRef (mx_Array.field st value)))
  ∧ ∀ i' k' : Z,
      0 <= i' < Ref.numel d → 0 <= k' < Z.of_nat (length (Ref.fieldNames d)) →
      k' ≠ invalid → (i', k') ≠ (i, k) →
      (mx_StructArrayRef.getField invalid this i' k'
         (mx_StructArrayRef_rest.setField_move invalid this i k value st).2).1
      = (mx_StructArrayRef.getField invalid this i' k' st).1.
Proof.
  intros Hd Hc Hi Hk Hnf Hwf Hne Hv.
  set (nf := Z.of_nat (length (Ref.fieldNames d))) in *.
  set (v := mx_Array.field st value) in *.
  set (d' := Ref2.with_fields d (Ref.fieldNames d)
               (<[Z.to_nat (i * nf + k) := v]> (Ref.fieldValues d))).
  assert (Hrun : mx_StructArrayRef_rest.setField_move invalid this i k value st
    = (Returned tt,
       mkState (<[value := mkArray nullptr]> (objects st))
               (Ref.update (world st) (ref_get this) d')
               (calls st ++ [Query F_mxGetNumberOfFields (ref_get this)]))).
  { rewrite setField_move_run.
    pose proof Hne as Hne'. apply Z.eqb_neq in Hne'. rewrite Hne'.
    rewrite (struct_field_count st this d Hd Hc). fold nf.
    destruct (casts_of_small k ltac:(lia)) as [-> ->].
    destruct (casts_of_small nf ltac:(lia)) as [-> _].
    assert ((k >=? nf) = false) as -> by (rewrite Z.geb_leb; apply Z.leb_gt; lia).
    f_equal. f_equal. fold v.
    cbn [mxSetFieldByNumber Ref2.api2]. unfold Ref2.set_field. rewrite Hd.
    fold nf.
    assert ((Ref.classID d =? Ref.mxSTRUCT_CLASS) && (0 <=? i) && (i <? Ref.numel d)
            && (0 <=? k) && (k <? nf) = true) as ->.
    { repeat (apply andb_true_intro; split);
        first [apply Z.eqb_eq; exact Hc | apply Z.leb_le; lia | apply Z.ltb_lt; lia]. }
    reflexivity. }
  rewrite Hrun. cbn [fst snd].
  set (st' := mkState _ _ _).
  assert (Hd' : Ref.heap (world st') !! ref_get this = Some d').
  { unfold st', Ref.update. cbn [world Ref.heap]. apply lookup_insert_eq. }
  assert (Hlen : (Z.to_nat (i * nf + k) < length (Ref.fieldValues d))%nat) by nia.
  split; [reflexivity|]. split; [|split].
  - unfold mx_Array.field, st'. cbn [objects]. by rewrite lookup_insert_eq.
  - rewrite (getField_on_reference invalid st' this d' i k Hd' Hc Hi Hk Hnf Hne).
    cbn [d' Ref2.with_fields Ref.fieldNames Ref.fieldValues]. fold nf.
    rewrite list_lookup_insert_eq by exact Hlen. cbn [default from_option id].
    apply Z.eqb_neq in Hv. by rewrite Hv.
  - intros i' k' Hi' Hk' Hne' Hother.
    rewrite (getField_on_reference invalid st' this d' i' k' Hd' Hc Hi' Hk' Hnf Hne').
    rewrite (getField_on_reference invalid st this d i' k' Hd Hc Hi' Hk' Hnf Hne').
    cbn [d' Ref2.with_fields Ref.fieldNames Ref.fieldValues]. fold nf.
    rewrite list_lookup_insert_ne; [reflexivity|].
    intros Heq. apply Hother.
    assert (i * nf + k = i' * nf + k') as Hz by nia.
    assert (i = i') by nia. subst i'. f_equal. lia.
Qed.

(** Object 1 of [Ref.state] moved into the field [y] of [point], then
    read back. *)
Lemma setField_then_getField_witness :
  (mx_StructArrayRef.getField (-1) (mkArrayRef 48) 0 1
     (mx_StructArrayRef_rest.setField_move (-1) (mkArrayRef 48) 0 1 1%positive
        (Ref.state false)).2).1
  = Returned (Some (mkArrayRef 16))
  ∧ (mx_StructArrayRef.getField (-1) (mkArrayRef 48) 0 1 (Ref.state false)).1
    = Returned None.
Proof.
  destruct (setField_then_getField (-1) (Ref.state false) (mkArrayRef 48) Ref.point 0 1
              1%positive) as (_ & _ & Hget & _);
    [vm_compute; first [reflexivity | congruence | (split; congruence)]..|].
  split; [exact Hget|]. vm_compute. reflexivity.
Defined.

(** ** Char arrays made from narrow strings *)

Section NarrowStrings.
Import Ref Ref2.

Implicit Types (st : State Runtime) (array : addr) (d : mxArrayData).

(** A valid row of the reference runtime is a single string, and its
    view spans its [n] columns. *)
Lemma row_on_reference st array d (n : Z) :
  mx_Array.field st array ≠ nullptr →
  heap (world st) !! mx_Array.field st array = Some d →
  dims d = [1; n] →
  (mx_CharArray.isSingleString array st).1 = Returned true
  ∧ (mx_CharArray.operator_u16string_view array st).1
    = Returned (take (Z.to_nat (n * 1)) (elems d)).
Proof.
  intros Hp Hd Hdims.
  assert (Hsingle : mx_CharArray.isSingleString array st
    = (Returned true,
       log (Query F_mxGetM (mx_Array.field st array))
           (log (Query F_mxGetNumberOfDimensions (mx_Array.field st array)) st))).
  { unfold mx_CharArray.isSingleString, bind.
    destruct (shape_on_reference st array d Hp Hd) as (-> & _).
    rewrite Hdims. change (Z.of_nat (length [1; n]) <=? 2) with true. cbv beta iota.
    match goal with
    | |- context [mx_Array.getDimM array ?st1] =>
      destruct (shape_on_reference st1 array d Hp Hd) as (_ & -> & _)
    end.
    rewrite Hdims. reflexivity. }
  split; [by rewrite Hsingle|].
  unfold mx_CharArray.operator_u16string_view. unfold bind at 1. rewrite Hsingle.
  cbn [negb]. unfold bind at 1.
  match goal with
  | |- context [mx_Array.getData array ?st2] =>
    rewrite (getData_run st2 array d Hp Hd)
  end.
  unfold bind at 1.
  match goal with
  | |- context [mx_Array.getDimN array ?st3] =>
    destruct (shape_on_reference st3 array d Hp Hd) as (_ & _ & -> & _)
  end.
  rewrite Hdims. unfold peek. cbn [fst world log load_char16 api hd tl fold_right].
  unfold on, owner_of, data_of.
  match goal with
  | |- context [heap (world st) !! ?k] =>
    replace k with (mx_Array.field st array)
      by (change (mx_Array.field (log _ (log _ st)) array)
            with (mx_Array.field st array); lia)
  end.
  rewrite Hd. reflexivity.
Qed.

Lemma made_str_run st array (s : string) :
  out_of_memory (world st) = false → next (world st) ≠ nullptr →
  mx_Array.construct array (mx_CharArray_rest.makeCharArray_str s) st
  = (Returned tt, made_str st array s).
Proof.
  intros Hoom Hnext. apply Z.eqb_neq in Hnext.
  unfold mx_Array.construct, mx_CharArray_rest.makeCharArray_str, bind, runtime_upd,
    made_str.
  cbn [mxCreateStringFromNChars api2]. unfold create_string, alloc.
  rewrite Hoom. cbn [fst snd]. rewrite Hnext. reflexivity.
Qed.

End NarrowStrings.

(** X14.  Round trip of a narrow string on the reference runtime: for
    every string [s], the [CharArray] made by [makeCharArray(std::string_view)]
    is a single string with as many elements as [s] has characters, and
    [operator std::u16string_view] gives back the characters of [s] as UTF-16
    units.  [toAscii] of the same array, converted to a [CharArrayCref],
    throws "Input must be a single string.". *)
Theorem narrow_string_round_trip (st : State Ref.Runtime) (array : addr) (s : string) :
  Ref.out_of_memory (world st) = false →
  Ref.next (world st) ≠ nullptr →
  mx_Array.construct array (mx_CharArray_rest.makeCharArray_str s) st
  = (Returned tt, made_str st array s)
  ∧ (mx_Array.getSize array (made_str st array s)).1
    = Returned (Z.of_nat (String.length s))
  ∧ (mx_CharArray.isSingleString array (made_str st array s)).1 = Returned true
  ∧ (mx_CharArray.operator_u16string_view array (made_str st array s)).1
    = Returned (Ref2.units_of_string s)
  ∧ ((c <- mx_CharArray_rest.operator_CharArrayCref array ;; mx_CharArrayCref.toAscii c)
       (made_str st array s)).1
    = Thrown (Exception2 "matlabw:mx:toAscii" ("Input must be a single string." +:+ LF)).
Proof.
  intros Hoom Hnext.
  assert (Hlen : length (Ref2.units_of_string s) = String.length s).
  { unfold Ref2.units_of_string. rewrite length_map.
    induction s as [|c s IH]; [reflexivity|]. cbn. by rewrite IH. }
  assert (Hfield : mx_Array.field (made_str st array s) array = Ref.next (world st)).
  { unfold mx_Array.field, made_str. cbn [objects]. by rewrite lookup_insert_eq. }
  assert (Hp : mx_Array.field (made_str st array s) array ≠ nullptr) by by rewrite Hfield.
  assert (Hd : Ref.heap (world (made_str st array s))
               !! mx_Array.field (made_str st array s) array = Some (row_of s)).
  { rewrite Hfield. unfold made_str. cbn [world Ref.heap]. apply lookup_insert_eq. }
  destruct (row_on_reference (made_str st array s) array (row_of s)
              (Z.of_nat (length (Ref2.units_of_string s))) Hp Hd eq_refl)
    as (Hsingle & Hview).
  destruct (shape_on_reference (made_str st array s) array (row_of s) Hp Hd)
    as (Hrank & HM & _ & Hsize).
  split; [by apply made_str_run|].
  split; [rewrite Hsize; cbn [fst]; f_equal; unfold Ref.numel; cbn; lia|].
  split; [exact Hsingle|]. split.
  - rewrite Hview. f_equal. cbn [row_of Ref.elems].
    apply take_ge. lia.
  - unfold bind at 1. unfold mx_CharArray_rest.operator_CharArrayCref, bind at 1.
    rewrite checkValid_run. apply Z.eqb_neq in Hp. rewrite Hp.
    unfold bind at 1. unfold mx_Array.get, ret.
    unfold mx_CharArrayCref.toAscii, bind. rewrite cref_isSingleString_run.
    cbn [cref_get mxGetNumberOfDimensions mxGetM Ref.api]. unfold Ref.on.
    rewrite Hd. reflexivity.
Qed.

(** The string "hi" on the reference runtime. *)
Lemma narrow_string_witness :
  (mx_Array.getSize 5%positive (made_str (Ref.state false) 5%positive "hi")).1
  = Returned 2
  ∧ (mx_CharArray.operator_u16string_view 5%positive
       (made_str (Ref.state false) 5%positive "hi")).1
    = Returned [104; 105].
Proof.
  destruct (narrow_string_round_trip (Ref.state false) 5%positive "hi")
    as (_ & Hsize & _ & Hview & _); [reflexivity|vm_compute; discriminate|].
  split; [exact Hsize|exact Hview].
Defined.

(** ** Workspace variables on the reference runtime *)

(** X15.  Put, then get, on the reference runtime.  After a successful
    [putVariable(workspace, name, value)], [getVariableCref] with the same
    workspace and name finds the stored copy of [value]'s array, which is not
    [value]'s own; with another workspace or another name it gives what it
    gave before, the three workspace names being distinct. *)
Theorem putVariable_then_getVariableCref (st : State Ref.Runtime)
    (workspace : mex.Workspace) (name : string) (value : ArrayCref)
    (d : Ref.mxArrayData) :
  Ref.out_of_memory (world st) = false →
  Ref.next (world st) ≠ nullptr →
  Ref.heap (world st) !! cref_get value = Some d →
  Ref.heap (world st) !! Ref.next (world st) = None →
  (mex.putVariable workspace (Some name) value st).1 = Returned tt
  ∧ world (mex.putVariable workspace (Some name) value st).2
    = stored (world st) workspace name d
  ∧ (mex.getVariableCref workspace (Some name)
       (mex.putVariable workspace (Some name) value st).2).1
    = Returned (Some (mkArrayCref (Ref.next (world st))))
  ∧ Ref.next (world st) ≠ cref_get value
  ∧ Ref.heap (world (mex.putVariable workspace (Some name) value st).2)
      !! Ref.next (world st) = Some d
  ∧ ∀ (workspace' : mex.Workspace) (name' : string),
      (workspace', name') ≠ (workspace, name) →
      (mex.getVariableCref workspace' (Some name')
         (mex.putVariable workspace (Some name) value st).2).1
      = (mex.getVariableCref workspace' (Some name') st).1.
Proof.
  intros Hoom Hnext Hd Hfree. pose proof Hnext as Hnz. apply Z.eqb_neq in Hnz.
  assert (Hput : mex.putVariable workspace (Some name) value st
    = (Returned tt,
       mkState (objects st) (stored (world st) workspace name d)
               (calls st ++ [C_mexPutVariable (mex.getWorkspaceName workspace) name
                               (cref_get value)]))).
  { unfold mex.putVariable, bind, native_upd.
    cbn [mexPutVariable Ref.api]. unfold Ref.put_variable.
    assert (Ref.known_workspace (mex.getWorkspaceName workspace) = true) as ->
      by by destruct workspace.
    unfold Ref.duplicate, stored. rewrite Hd. unfold Ref.alloc. rewrite Hoom, Hnz.
    reflexivity. }
  assert (Hget : ∀ st0 (w : mex.Workspace) (n : string),
    (mex.getVariableCref w (Some n) st0).1
    = Returned (if Ref.find_variable (mex.getWorkspaceName w) n
                     (Ref.variables (world st0)) =? nullptr
                then None
                else Some (mkArrayCref (Ref.find_variable (mex.getWorkspaceName w) n
                                          (Ref.variables (world st0)))))).
  { intros st0 w n. unfold mex.getVariableCref, bind, native, ret.
    cbn [mexGetVariablePtr Ref.api fst].
    destruct (Z.eqb (Ref.find_variable _ _ _) _); reflexivity. }
  rewrite Hput. cbn [fst snd world].
  split; [reflexivity|]. split; [reflexivity|]. split; [|split; [|split]].
  - rewrite Hget. cbn [world stored Ref.variables Ref.find_variable].
    rewrite !String.eqb_refl. cbn [andb]. by rewrite Hnz.
  - intros Heq. rewrite Heq in Hfree.
    pose proof (eq_trans (eq_sym Hd) Hfree). discriminate.
  - unfold stored. cbn [Ref.heap]. apply lookup_insert_eq.
  - intros w' n' Hne. rewrite !Hget.
    cbn [world stored Ref.variables Ref.find_variable].
    assert (String.eqb (mex.getWorkspaceName workspace) (mex.getWorkspaceName w')
            && String.eqb name n' = false) as ->; [|reflexivity].
    apply andb_false_iff.
    destruct (String.eqb_spec name n') as [->|]; [left|by right].
    apply String.eqb_neq. intros Hw. apply Hne. f_equal.
    by destruct workspace, w'.
Qed.

(** The array at 32 put into the caller workspace as [w]: it is found
    there, as the copy at 64, and the base workspace still has only [v]. *)
Lemma putVariable_then_getVariableCref_witness :
  (mex.getVariableCref mex.caller (Some "w")
     (mex.putVariable mex.caller (Some "w") (mkArrayCref 32) (Ref.state false)).2).1
  = Returned (Some (mkArrayCref 64))
  ∧ (mex.getVariableCref mex.base (Some "w")
       (mex.putVariable mex.caller (Some "w") (mkArrayCref 32) (Ref.state false)).2).1
    = Returned None.
Proof.
  destruct (putVariable_then_getVariableCref (Ref.state false) mex.caller "w"
              (mkArrayCref 32) Ref.chars2x2)
    as (_ & _ & Hsame & _ & _ & Hother);
    [vm_compute; first [reflexivity | discriminate]..|].
  split; [exact Hsame|].
  rewrite (Hother mex.base "w") by discriminate.
  vm_compute. reflexivity.
Defined.
